(** * TalentScout hiring assistant: the interview controller of [app.py]
      and [app_grok.py]

    The repository holds two implementations of one chat controller,
    [app.py] (OpenAI client) and [app_grok.py] (Groq over HTTP).  Both are
    Streamlit scripts: the whole script is run again for every user
    action, and the state that survives between two runs lives in
    [st.session_state].  The embedding below follows that shape:

    - Python text is a [string]; a character stands for a code point
      below 256, on which [str.lower], [str.strip] and the regular
      expression class [\d] are given exactly;
    - code that can raise runs in a state-and-exception monad [M]; unlike
      a transactional monad, a raised exception keeps the state reached so
      far, as a Python exception does;
    - everything outside the process (the vendor's answer, the clock, the
      file system, the configured credential) is an oracle [Env]; what the
      program did to the outside is logged in a [World];
    - each implementation is a module ([App], [AppGrok]) with its own
      session record and the functions of its source file; the code at
      the top level of a script is named block by block ([script],
      [rerun], [on_submit], ...), with the lines it stands for.

    The constants of the source that hold a symbol beyond code point 255
    (a warning sign, a check mark) are written as they are; no function
    looks into them.  [st.rerun()] and [st.experimental_rerun()] end the
    run of the script and start one more with nothing submitted. *)

From Stdlib Require Import String Ascii List Arith Bool Lia DecimalString.
Import ListNotations.
Local Open Scope list_scope.
Local Open Scope string_scope.

Set Implicit Arguments.

(* ===================================================================== *)
(** * Python text                                                          *)
(* ===================================================================== *)

Module Py.

(** [c.isspace()] for a code point below 256. *)
Definition isspace (c : ascii) : bool :=
  let n := nat_of_ascii c in
  (((9 <=? n) && (n <=? 13)) || ((28 <=? n) && (n <=? 32))
   || (n =? 133) || (n =? 160))%nat.

(** [c.isdigit()] restricted to the class [\d]: the only decimal digits
    below 256 are 0-9. *)
Definition isdigit (c : ascii) : bool :=
  let n := nat_of_ascii c in ((48 <=? n) && (n <=? 57))%nat.

(** [c.lower()]: A-Z and the Latin-1 capitals (all of 0xC0-0xDE but the
    multiplication sign) move up by 32. *)
Definition lower_char (c : ascii) : ascii :=
  let n := nat_of_ascii c in
  if (((65 <=? n) && (n <=? 90))
      || ((192 <=? n) && (n <=? 222) && negb (n =? 215)))%nat
  then ascii_of_nat (n + 32) else c.

Fixpoint lower (s : string) : string :=
  match s with
  | EmptyString => EmptyString
  | String c s' => String (lower_char c) (lower s')
  end.

Fixpoint lstrip (s : string) : string :=
  match s with
  | EmptyString => EmptyString
  | String c s' => if isspace c then lstrip s' else s
  end.

Fixpoint rstrip (s : string) : string :=
  match s with
  | EmptyString => EmptyString
  | String c s' =>
      match rstrip s' with
      | EmptyString => if isspace c then EmptyString else String c EmptyString
      | r => String c r
      end
  end.

(** [s.strip()] *)
Definition strip (s : string) : string := rstrip (lstrip s).

(** [needle in hay] *)
Fixpoint contains (needle hay : string) : bool :=
  prefix needle hay ||
  match hay with
  | EmptyString => false
  | String _ hay' => contains needle hay'
  end.

(** [any(k in s for k in keywords)] *)
Definition any_in (keywords : list string) (s : string) : bool :=
  existsb (fun k => contains k s) keywords.

(** [s[:n]] *)
Fixpoint take (n : nat) (s : string) : string :=
  match n, s with
  | S n', String c s' => String c (take n' s')
  | _, _ => EmptyString
  end.

(** [s.replace(old, new)] for a one-character [old]. *)
Fixpoint replace_char (old : ascii) (new : string) (s : string) : string :=
  match s with
  | EmptyString => EmptyString
  | String c s' =>
      (if Ascii.eqb c old then new else String c EmptyString)
        ++ replace_char old new s'
  end.

Definition is_empty (s : string) : bool :=
  match s with EmptyString => true | _ => false end.

(** [re.findall(r'\d+', s)]: the maximal runs of digits, left to right.
    [run] is the run being read. *)
Fixpoint findall_digits_from (run s : string) : list string :=
  match s with
  | EmptyString => if is_empty run then [] else [run]
  | String c s' =>
      if isdigit c then findall_digits_from (run ++ String c EmptyString) s'
      else ((if is_empty run then [] else [run])
              ++ findall_digits_from EmptyString s')%list
  end.

Definition findall_digits (s : string) : list string :=
  findall_digits_from EmptyString s.

(** [str(n)] for a non-negative int. *)
Definition str_nat (n : nat) : string := NilZero.string_of_uint (Nat.to_uint n).

Fixpoint zeros (n : nat) : string :=
  match n with O => EmptyString | S n' => String "0" (zeros n') end.

(** ["%0wd" % n] *)
Definition zfill (w n : nat) : string :=
  let d := str_nat n in zeros (w - String.length d) ++ d.

(** [str(x)] of an optional text: [None] prints as the word None. *)
Definition str_opt (x : option string) : string :=
  match x with Some s => s | None => "None" end.

End Py.

(* ===================================================================== *)
(** * Exceptions and the state-and-exception monad                         *)
(* ===================================================================== *)

(** The two handlers of [call_groq_api] tell a [RequestException] from any
    other [Exception]; nothing else is distinguished in either file. *)
Inductive exn : Type :=
| RequestException (msg : string)
| Exception (msg : string).

(** [str(e)] *)
Definition str_exn (e : exn) : string :=
  match e with RequestException m => m | Exception m => m end.

Inductive result (A : Type) : Type :=
| Ok (a : A)
| Raise (e : exn).
Arguments Ok {A} a.
Arguments Raise {A} e.

Definition M (St A : Type) : Type := St -> result A * St.

Definition ret {St A} (a : A) : M St A := fun s => (Ok a, s).

Definition bind {St A B} (m : M St A) (k : A -> M St B) : M St B :=
  fun s => match m s with
           | (Ok a, s') => k a s'
           | (Raise e, s') => (Raise e, s')
           end.

Definition raise {St A} (e : exn) : M St A := fun s => (Raise e, s).

(** [try: body except ... as e: handler(e)] *)
Definition try_except {St A} (body : M St A) (handler : exn -> M St A) : M St A :=
  fun s => match body s with
           | (Ok a, s') => (Ok a, s')
           | (Raise e, s') => handler e s'
           end.

Definition get {St} : M St St := fun s => (Ok s, s).
Definition gets {St A} (f : St -> A) : M St A := fun s => (Ok (f s), s).
Definition modify {St} (f : St -> St) : M St unit := fun s => (Ok tt, f s).

(** A computation whose outcome was decided outside the program. *)
Definition of_result {St A} (r : result A) : M St A := fun s => (r, s).

Declare Scope py_scope.
Delimit Scope py_scope with py.
Notation "x <- m ;; k" := (bind m (fun x => k))
  (at level 61, m at next level, right associativity) : py_scope.
Notation "m ;; k" := (bind m (fun _ => k))
  (at level 61, right associativity) : py_scope.
Local Open Scope py_scope.

(** [when c: m] *)
Definition when {St} (c : bool) (m : M St unit) : M St unit :=
  if c then m else ret tt.

(* ===================================================================== *)
(** * The outside world                                                    *)
(* ===================================================================== *)

(** [datetime.now()] *)
Record DateTime : Type := mkDateTime {
  year : nat; month : nat; day : nat;
  hour : nat; minute : nat; second : nat; microsecond : nat
}.

(** [t.strftime("%Y%m%d_%H%M%S")], for a year of four digits. *)
Definition strftime_compact (t : DateTime) : string :=
  Py.zfill 4 (year t) ++ Py.zfill 2 (month t) ++ Py.zfill 2 (day t) ++ "_"
  ++ Py.zfill 2 (hour t) ++ Py.zfill 2 (minute t) ++ Py.zfill 2 (second t).

(** [t.isoformat()]: the microseconds are printed only when not zero. *)
Definition isoformat (t : DateTime) : string :=
  Py.zfill 4 (year t) ++ "-" ++ Py.zfill 2 (month t) ++ "-" ++ Py.zfill 2 (day t)
  ++ "T" ++ Py.zfill 2 (hour t) ++ ":" ++ Py.zfill 2 (minute t) ++ ":"
  ++ Py.zfill 2 (second t)
  ++ (if (microsecond t =? 0)%nat then EmptyString
      else "." ++ Py.zfill 6 (microsecond t)).

(** The body of one chat-completion request.  Both files send the model
    name, a system message and a user message; temperature 0.7 and
    max_tokens 500 are constants of every request and are left out. *)
Record Request : Type := mkRequest {
  rq_model : string;
  rq_system : string;
  rq_user : string
}.

(** What the environment decides.  [complete n rq] is the outcome of the
    request [rq] when [n] requests were sent before it: the text found at
    [choices[0].message.content], or the exception raised on the way
    (time-out, refused connection, error status, malformed answer). *)
Record Env : Type := mkEnv {
  getenv : string -> option string;          (* os.environ *)
  secrets_get : string -> result string;     (* st.secrets.get(key, default empty) *)
  import_openai : result unit;               (* import openai *)
  complete : nat -> Request -> result string;
  now : nat -> DateTime;                     (* the n-th reading of the clock *)
  makedirs : string -> result unit;          (* os.makedirs(d, exist_ok=True) *)
  open_w : string -> result unit             (* open(path, 'w') *)
}.

Inductive BannerKind : Type := success | error | info | warning.

(** What the program did to the outside. *)
Record World : Type := mkWorld {
  sent : list Request;                 (* requests sent to the vendor *)
  clock : nat;                         (* readings of the clock so far *)
  files : list (string * string);      (* files written: path, content *)
  shown : list (BannerKind * string)   (* st.success / error / info / warning *)
}.

Definition world0 : World := mkWorld [] 0 [] [].

Section Effects.
Variable E : Env.

(** [os.getenv(key, st.secrets.get(key, default empty))]: the default is
    an argument, so the secrets are read first, and may raise. *)
Definition getenv_or_secret (key : string) : M World string :=
  d <- of_result (secrets_get E key) ;;
  ret (match getenv E key with Some v => v | None => d end).

Definition post (rq : Request) : M World string :=
  fun w => (complete E (length (sent w)) rq,
            mkWorld (sent w ++ [rq])%list (clock w) (files w) (shown w)).

Definition datetime_now : M World DateTime :=
  fun w => (Ok (now E (clock w)),
            mkWorld (sent w) (S (clock w)) (files w) (shown w)).

(** [with open(path, 'w') as f: f.write(content)] *)
Definition write_file (path content : string) : M World unit :=
  fun w => match open_w E path with
           | Ok _ => (Ok tt, mkWorld (sent w) (clock w)
                               (files w ++ [(path, content)])%list (shown w))
           | Raise e => (Raise e, w)
           end.

Definition st_banner (k : BannerKind) (text : string) : M World unit :=
  modify (fun w => mkWorld (sent w) (clock w) (files w)
                     (shown w ++ [(k, text)])%list).
End Effects.

(** A session together with the world it runs in. *)
Record Sys (Sess : Type) : Type := mkSys {
  session : Sess;
  world : World
}.

Definition liftW {Sess A} (m : M World A) : M (Sys Sess) A :=
  fun s => let (r, w') := m (world s) in (r, mkSys (session s) w').

Definition update {Sess} (f : Sess -> Sess) : M (Sys Sess) unit :=
  modify (fun s => mkSys (f (session s)) (world s)).

Definition read {Sess A} (f : Sess -> A) : M (Sys Sess) A :=
  gets (fun s => f (session s)).

(* ===================================================================== *)
(** * JSON as [json.dump] prints it                                        *)
(* ===================================================================== *)

Module Json.

#[local] Unset Elimination Schemes.
Inductive t : Type :=
| Null
| Str (s : string)
| Int (n : nat)
| Arr (xs : list t)
| Obj (kvs : list (string * t)).
#[local] Set Elimination Schemes.

Definition newline : string := String "010"%char EmptyString.
Definition quote : string := String "034"%char EmptyString.
Definition backslash : string := String "092"%char EmptyString.

Definition hex_digit (n : nat) : ascii :=
  if (n <? 10)%nat then ascii_of_nat (48 + n) else ascii_of_nat (87 + n).

(** One character under [ensure_ascii=True]. *)
Definition escape_char (c : ascii) : string :=
  let n := nat_of_ascii c in
  if (n =? 34)%nat then backslash ++ quote
  else if (n =? 92)%nat then backslash ++ backslash
  else if (n =? 10)%nat then backslash ++ "n"
  else if (n =? 13)%nat then backslash ++ "r"
  else if (n =? 9)%nat then backslash ++ "t"
  else if (n =? 8)%nat then backslash ++ "b"
  else if (n =? 12)%nat then backslash ++ "f"
  else if ((32 <=? n) && (n <=? 126))%nat then String c EmptyString
  else backslash ++ "u00"
       ++ String (hex_digit (n / 16)) (String (hex_digit (n mod 16)) EmptyString).

Fixpoint escape (s : string) : string :=
  match s with
  | EmptyString => EmptyString
  | String c s' => escape_char c ++ escape s'
  end.

Definition encode_str (s : string) : string := quote ++ escape s ++ quote.

Fixpoint spaces (n : nat) : string :=
  match n with O => EmptyString | S n' => String " " (spaces n') end.

Definition newline_indent (indent level : nat) : string :=
  newline ++ spaces (indent * level).

Fixpoint join (sep : string) (parts : list string) : string :=
  match parts with
  | [] => EmptyString
  | [p] => p
  | p :: ps => p ++ sep ++ join sep ps
  end.

(** [json.dumps(j, indent=indent)], at nesting depth [level]. *)
Fixpoint encode (indent level : nat) (j : t) : string :=
  match j with
  | Null => "null"
  | Str s => encode_str s
  | Int n => Py.str_nat n
  | Arr [] => "[]"
  | Arr xs =>
      "[" ++ newline_indent indent (S level)
      ++ join ("," ++ newline_indent indent (S level))
              (map (encode indent (S level)) xs)
      ++ newline_indent indent level ++ "]"
  | Obj [] => "{}"
  | Obj kvs =>
      "{" ++ newline_indent indent (S level)
      ++ join ("," ++ newline_indent indent (S level))
              (map (fun kv => encode_str (fst kv) ++ ": "
                              ++ encode indent (S level) (snd kv)) kvs)
      ++ newline_indent indent level ++ "}"
  end.

Definition dumps (indent : nat) (j : t) : string := encode indent 0 j.

End Json.

(* ===================================================================== *)
(** * The data both implementations share                                  *)
(* ===================================================================== *)

(** The seven keys of [candidate_data] that hold candidate information. *)
Inductive Field : Type :=
| Name | Email | Phone | Experience | Position | Location | TechStack.

(** The key as the source spells it. *)
Definition field_key (f : Field) : string :=
  match f with
  | Name => "name" | Email => "email" | Phone => "phone"
  | Experience => "experience" | Position => "position"
  | Location => "location" | TechStack => "tech_stack"
  end.

Definition Field_eqb (a b : Field) : bool :=
  match a, b with
  | Name, Name | Email, Email | Phone, Phone | Experience, Experience
  | Position, Position | Location, Location | TechStack, TechStack => true
  | _, _ => false
  end.

(** [required_fields] of [get_missing_info] and [FIELD_ORDER] of
    [app_grok.py]: the same list. *)
Definition FIELD_ORDER : list Field :=
  [Name; Email; Phone; Experience; Position; Location; TechStack].

(** One entry of [candidate_data['technical_answers']]. *)
Record TechnicalAnswer : Type := mkAnswer {
  question_number : nat;
  answer : string;
  timestamp : string
}.

(** [st.session_state.candidate_data]: a dict with eight fixed keys; a
    value [None] means not collected yet. *)
Record CandidateData : Type := mkCandidate {
  cd_name : option string;
  cd_email : option string;
  cd_phone : option string;
  cd_experience : option string;
  cd_position : option string;
  cd_location : option string;
  cd_tech_stack : option string;
  technical_answers : list TechnicalAnswer
}.

Definition empty_candidate : CandidateData :=
  mkCandidate None None None None None None None [].

(** [data[field]] *)
Definition get_field (f : Field) (d : CandidateData) : option string :=
  match f with
  | Name => cd_name d | Email => cd_email d | Phone => cd_phone d
  | Experience => cd_experience d | Position => cd_position d
  | Location => cd_location d | TechStack => cd_tech_stack d
  end.

(** [data[field] = v] *)
Definition set_field (f : Field) (v : string) (d : CandidateData) : CandidateData :=
  match f with
  | Name => mkCandidate (Some v) (cd_email d) (cd_phone d) (cd_experience d)
              (cd_position d) (cd_location d) (cd_tech_stack d) (technical_answers d)
  | Email => mkCandidate (cd_name d) (Some v) (cd_phone d) (cd_experience d)
              (cd_position d) (cd_location d) (cd_tech_stack d) (technical_answers d)
  | Phone => mkCandidate (cd_name d) (cd_email d) (Some v) (cd_experience d)
              (cd_position d) (cd_location d) (cd_tech_stack d) (technical_answers d)
  | Experience => mkCandidate (cd_name d) (cd_email d) (cd_phone d) (Some v)
              (cd_position d) (cd_location d) (cd_tech_stack d) (technical_answers d)
  | Position => mkCandidate (cd_name d) (cd_email d) (cd_phone d) (cd_experience d)
              (Some v) (cd_location d) (cd_tech_stack d) (technical_answers d)
  | Location => mkCandidate (cd_name d) (cd_email d) (cd_phone d) (cd_experience d)
              (cd_position d) (Some v) (cd_tech_stack d) (technical_answers d)
  | TechStack => mkCandidate (cd_name d) (cd_email d) (cd_phone d) (cd_experience d)
              (cd_position d) (cd_location d) (Some v) (technical_answers d)
  end.

(** [data['technical_answers'].append(qa)] *)
Definition append_answer (qa : TechnicalAnswer) (d : CandidateData) : CandidateData :=
  mkCandidate (cd_name d) (cd_email d) (cd_phone d) (cd_experience d)
    (cd_position d) (cd_location d) (cd_tech_stack d)
    (technical_answers d ++ [qa])%list.

Inductive Role : Type := user | assistant.

(** One entry of [st.session_state.messages]. *)
Record Message : Type := mkMessage { role : Role; content : string }.

(** The values [st.session_state.stage] takes.  [app_grok.py] never
    assigns the last one. *)
Inductive Stage : Type :=
| greeting | collect_info | technical_questions | farewell.

Definition Stage_eqb (a b : Stage) : bool :=
  match a, b with
  | greeting, greeting | collect_info, collect_info
  | technical_questions, technical_questions | farewell, farewell => true
  | _, _ => false
  end.

(** The position of a stage in the declared sequence. *)
Definition stage_rank (g : Stage) : nat :=
  match g with
  | greeting => 0 | collect_info => 1 | technical_questions => 2 | farewell => 3
  end.

(** What the user can do to the page between two runs of the script. *)
Inductive Event : Type :=
| Idle                      (* the page is drawn again, nothing submitted *)
| Submit (text : string)    (* the chat input is sent *)
| ClickRestart.             (* the start-again button, shown once the chat is over *)

Definition is_restart (ev : Event) : bool :=
  match ev with ClickRestart => true | _ => false end.

(** The dict [candidate_data] as a JSON value, keys in insertion order. *)
Definition answer_json (a : TechnicalAnswer) : Json.t :=
  Json.Obj [("question_number", Json.Int (question_number a));
            ("answer", Json.Str (answer a));
            ("timestamp", Json.Str (timestamp a))].

Definition opt_json (x : option string) : Json.t :=
  match x with Some s => Json.Str s | None => Json.Null end.

Definition candidate_json (d : CandidateData) : Json.t :=
  Json.Obj (map (fun f => (field_key f, opt_json (get_field f d))) FIELD_ORDER
            ++ [("technical_answers", Json.Arr (map answer_json (technical_answers d)))])%list.

Definition nl : string := Json.newline.

(* ===================================================================== *)
(** * [app.py]                                                             *)
(* ===================================================================== *)

Module App.

(** The keys of [st.session_state].  The key [technical_questions] (here
    [generated_questions], the stage of that name being a constructor)
    exists only once the technical stage was entered. *)
Record Session : Type := mkSession {
  messages : list Message;
  candidate_data : CandidateData;
  stage : Stage;
  tech_questions_asked : nat;
  conversation_active : bool;
  generated_questions : option string     (* the key technical_questions *)
}.

(** Lines 41-55: the state a new browser session starts from. *)
Definition init : Session :=
  mkSession [] empty_candidate greeting 0 true None.

Definition append_message (r : Role) (text : string) (s : Session) : Session :=
  mkSession (messages s ++ [mkMessage r text])%list (candidate_data s) (stage s)
    (tech_questions_asked s) (conversation_active s) (generated_questions s).

Definition set_candidate_data (d : CandidateData) (s : Session) : Session :=
  mkSession (messages s) d (stage s)
    (tech_questions_asked s) (conversation_active s) (generated_questions s).

Definition set_stage (g : Stage) (s : Session) : Session :=
  mkSession (messages s) (candidate_data s) g
    (tech_questions_asked s) (conversation_active s) (generated_questions s).

Definition set_tech_questions_asked (n : nat) (s : Session) : Session :=
  mkSession (messages s) (candidate_data s) (stage s)
    n (conversation_active s) (generated_questions s).

Definition set_conversation_active (b : bool) (s : Session) : Session :=
  mkSession (messages s) (candidate_data s) (stage s)
    (tech_questions_asked s) b (generated_questions s).

Definition set_technical_questions (q : string) (s : Session) : Session :=
  mkSession (messages s) (candidate_data s) (stage s)
    (tech_questions_asked s) (conversation_active s) (Some q).

Definition API_KEY_WARNING : string :=
  "⚠️ Please configure your API key in the .streamlit/secrets.toml file or environment variables.".

Definition SYSTEM_PROMPTS_greeting : string :=
  "You are a friendly AI hiring assistant for TalentScout, a recruitment agency. " ++
  nl ++
  "    Greet the candidate warmly and briefly explain that you'll be collecting their information " ++
  nl ++
  "    and asking some technical questions. Keep it concise and professional.".

Definition SYSTEM_PROMPTS_collect_info : string :=
  "You are collecting candidate information. Based on what's already collected," ++
  nl ++
  "    ask for the next missing piece of information in a natural, conversational way." ++
  nl ++
  "    Missing info will be provided in the prompt. Ask only ONE question at a time." ++
  nl ++
  "    Be professional but friendly.".

(** [SYSTEM_PROMPTS['generate_questions'].format(num=num)] *)
Definition SYSTEM_PROMPTS_generate_questions (num : string) : string :=
  "You are a technical interviewer. Generate " ++ num ++ " relevant technical " ++
  nl ++
  "    questions based on the candidate's tech stack. Questions should:" ++
  nl ++
  "    - Be specific to the technologies mentioned" ++
  nl ++
  "    - Range from intermediate to advanced level" ++
  nl ++
  "    - Test practical knowledge and problem-solving" ++
  nl ++
  "    - Be clear and concise" ++
  nl ++
  "    Return ONLY the questions, numbered 1-" ++ num ++ ".".

Definition SYSTEM_PROMPTS_evaluate_answer : string :=
  "You are evaluating a technical answer. Provide brief, constructive feedback." ++
  nl ++
  "    Be encouraging but honest. Keep response under 50 words.".

Definition SYSTEM_PROMPTS_farewell : string :=
  "Thank the candidate professionally for their time. Mention that the recruitment " ++
  nl ++
  "    team will review their responses and get back to them within 3-5 business days. Keep it brief.".

Definition exit_keywords : list string :=
  ["bye"; "goodbye"; "exit"; "quit"; "end"; "stop"; "no thanks"; "that's all"].

(** [get_missing_info], on the dict it reads. *)
Definition missing_field (data : CandidateData) : option Field :=
  find (fun field => match get_field field data with None => true | Some _ => false end)
       FIELD_ORDER.

(** [extract_info_from_response] *)
Definition extract_info_from_response (user_input : string) (field : Field) : string :=
  let user_input := Py.strip user_input in
  match field with
  | Experience =>
      match Py.findall_digits user_input with
      | number0 :: _ => number0 ++ " years"
      | [] => user_input
      end
  | _ => user_input
  end.

(** How an f-string prints the result of [get_missing_info]. *)
Definition str_missing (m : option Field) : string :=
  match m with Some f => field_key f | None => "None" end.

Section WithEnv.
Variable E : Env.

(** [call_llm], lines 58-89. *)
Definition call_llm (prompt system_prompt : string) : M World string :=
  try_except
    (of_result (import_openai E) ;;
     api_key <- getenv_or_secret E "OPENAI_API_KEY" ;;
     if Py.is_empty api_key then ret API_KEY_WARNING
     else post E (mkRequest "gpt-3.5-turbo" system_prompt prompt))
    (fun e => ret ("Error calling LLM: " ++ str_exn e ++ nl ++ nl
                   ++ "Please check your API configuration.")).

Definition get_missing_info : M (Sys Session) (option Field) :=
  read (fun s => missing_field (candidate_data s)).

(** [generate_technical_questions] *)
Definition generate_technical_questions (tech_stack : string) : M World string :=
  let prompt :=
    "Based on this tech stack: " ++ tech_stack ++ nl ++ "    " ++ nl ++
    "Generate 5 technical interview questions that assess practical knowledge and problem-solving." ++ nl ++
    "Make questions specific, clear, and progressively challenging." ++ nl ++
    "Format: Return only numbered questions (1-5), nothing else." in
  call_llm prompt (SYSTEM_PROMPTS_generate_questions "5").

(** [save_candidate_data], lines 230-241. *)
Definition save_candidate_data : M (Sys Session) unit :=
  try_except
    (t <- liftW (datetime_now E) ;;
     let timestamp := strftime_compact t in
     let filename := "candidate_" ++ timestamp ++ ".json" in
     data <- read candidate_data ;;
     liftW (write_file E filename (Json.dumps 2 (candidate_json data))) ;;
     liftW (st_banner success ("✅ Candidate data saved to " ++ filename)))
    (fun e => liftW (st_banner error ("Error saving data: " ++ str_exn e))).

(** The branch taken on an exit keyword, lines 160-165. *)
Definition exit_shortcut : M (Sys Session) unit :=
  update (set_stage farewell) ;;
  farewell_msg <- liftW (call_llm "Generate farewell message" SYSTEM_PROMPTS_farewell) ;;
  update (append_message assistant farewell_msg) ;;
  update (set_conversation_active false) ;;
  save_candidate_data.

(** The stage-based processing, lines 168-228. *)
Definition stage_based_processing (user_input : string) : M (Sys Session) unit :=
  g <- read stage ;;
  match g with
  | greeting =>
      update (set_stage collect_info) ;;
      missing <- get_missing_info ;;
      let prompt := "Ask for candidate's " ++ str_missing missing
                    ++ ". Be friendly and professional." in
      response <- liftW (call_llm prompt SYSTEM_PROMPTS_collect_info) ;;
      update (append_message assistant response)
  | collect_info =>
      missing <- get_missing_info ;;
      match missing with
      | None => ret tt
      | Some field =>
          let info := extract_info_from_response user_input field in
          update (fun s => set_candidate_data (set_field field info (candidate_data s)) s) ;;
          next_missing <- get_missing_info ;;
          match next_missing with
          | Some next =>
              let prompt := "The candidate just provided their " ++ field_key field
                            ++ ": " ++ info ++ ". Now ask for their "
                            ++ field_key next ++ "." in
              response <- liftW (call_llm prompt SYSTEM_PROMPTS_collect_info) ;;
              update (append_message assistant response)
          | None =>
              update (set_stage technical_questions) ;;
              tech_stack <- read (fun s => Py.str_opt (cd_tech_stack (candidate_data s))) ;;
              let transition_msg :=
                "Great! I have all your information. Now let's assess your technical skills in "
                ++ tech_stack ++ ". I'll ask you 5 questions." in
              update (append_message assistant transition_msg) ;;
              questions <- liftW (generate_technical_questions tech_stack) ;;
              update (set_technical_questions questions) ;;
              update (append_message assistant questions) ;;
              update (append_message assistant "Please answer Question 1:")
          end
      end
  | technical_questions =>
      t <- liftW (datetime_now E) ;;
      update (fun s => set_candidate_data
                (append_answer (mkAnswer (tech_questions_asked s + 1) user_input (isoformat t))
                               (candidate_data s)) s) ;;
      update (fun s => set_tech_questions_asked (tech_questions_asked s + 1) s) ;;
      let feedback_prompt := "Provide brief encouraging feedback on this answer: "
                             ++ Py.take 200 user_input in
      feedback <- liftW (call_llm feedback_prompt SYSTEM_PROMPTS_evaluate_answer) ;;
      update (append_message assistant feedback) ;;
      asked <- read tech_questions_asked ;;
      if (asked <? 5)%nat then
        let next_q_msg := "Please answer Question " ++ Py.str_nat (asked + 1) ++ ":" in
        update (append_message assistant next_q_msg)
      else
        update (set_stage farewell) ;;
        farewell_msg <- liftW (call_llm "Generate farewell message" SYSTEM_PROMPTS_farewell) ;;
        update (append_message assistant farewell_msg) ;;
        update (set_conversation_active false) ;;
        save_candidate_data
  | farewell => ret tt
  end.

(** [process_user_input], lines 153-228. *)
Definition process_user_input (user_input : string) : M (Sys Session) unit :=
  let user_input_lower := Py.strip (Py.lower user_input) in
  if Py.any_in exit_keywords user_input_lower then exit_shortcut
  else stage_based_processing user_input.

(** Lines 248-252: the greeting is asked for whenever the transcript
    is empty. *)
Definition initial_greeting : M (Sys Session) unit :=
  n <- read (fun s => length (messages s)) ;;
  when (n =? 0)%nat
    (greeting_msg <- liftW (call_llm "Greet the candidate" SYSTEM_PROMPTS_greeting) ;;
     update (append_message assistant greeting_msg)).

Definition ENDED_INFO : string :=
  "💼 Conversation ended. Thank you for your time!".

(** One run of the script with nothing submitted; it is also what
    [st.rerun()] starts. *)
Definition rerun : M (Sys Session) unit :=
  initial_greeting ;;
  active <- read conversation_active ;;
  if active then ret tt else liftW (st_banner info ENDED_INFO).

(** One run of the script, lines 246-284.  The chat input exists only
    while the conversation is active and the button only after it;
    deleting every key and running again starts from [init]. *)
Definition script (ev : Event) : M (Sys Session) unit :=
  initial_greeting ;;
  active <- read conversation_active ;;
  if active then
    match ev with
    | Submit user_input =>
        if Py.is_empty user_input then ret tt
        else
          update (append_message user user_input) ;;
          process_user_input user_input ;;
          rerun
    | _ => ret tt
    end
  else
    liftW (st_banner info ENDED_INFO) ;;
    match ev with
    | ClickRestart => update (fun _ => init) ;; rerun
    | _ => ret tt
    end.

(** The state after a list of user actions. *)
Definition step (s : Sys Session) (ev : Event) : Sys Session := snd (script ev s).

Definition run (evs : list Event) (s : Sys Session) : Sys Session :=
  fold_left step evs s.

(** A new session: [init], drawn once. *)
Definition boot (w : World) : Sys Session := step (mkSys init w) Idle.

End WithEnv.

End App.

(* ===================================================================== *)
(** * [app_grok.py]                                                        *)
(* ===================================================================== *)

Module AppGrok.

(** The keys of [st.session_state], lines 44-70.  The key
    [technical_questions] is [generated_questions] here. *)
Record Session : Type := mkSession {
  messages : list Message;
  candidate_data : CandidateData;
  current_field_index : nat;
  tech_questions_asked : nat;
  conversation_active : bool;
  generated_questions : string;
  stage : Stage;
  greeted : bool;
  last_user_message : option string
}.

Definition init : Session :=
  mkSession [] empty_candidate 0 0 true EmptyString greeting false None.

Definition append_message (r : Role) (text : string) (s : Session) : Session :=
  mkSession (messages s ++ [mkMessage r text])%list (candidate_data s)
    (current_field_index s) (tech_questions_asked s) (conversation_active s)
    (generated_questions s) (stage s) (greeted s) (last_user_message s).

Definition set_candidate_data (d : CandidateData) (s : Session) : Session :=
  mkSession (messages s) d
    (current_field_index s) (tech_questions_asked s) (conversation_active s)
    (generated_questions s) (stage s) (greeted s) (last_user_message s).

Definition set_current_field_index (n : nat) (s : Session) : Session :=
  mkSession (messages s) (candidate_data s)
    n (tech_questions_asked s) (conversation_active s)
    (generated_questions s) (stage s) (greeted s) (last_user_message s).

Definition set_tech_questions_asked (n : nat) (s : Session) : Session :=
  mkSession (messages s) (candidate_data s)
    (current_field_index s) n (conversation_active s)
    (generated_questions s) (stage s) (greeted s) (last_user_message s).

Definition set_conversation_active (b : bool) (s : Session) : Session :=
  mkSession (messages s) (candidate_data s)
    (current_field_index s) (tech_questions_asked s) b
    (generated_questions s) (stage s) (greeted s) (last_user_message s).

Definition set_generated_questions (q : string) (s : Session) : Session :=
  mkSession (messages s) (candidate_data s)
    (current_field_index s) (tech_questions_asked s) (conversation_active s)
    q (stage s) (greeted s) (last_user_message s).

Definition set_stage (g : Stage) (s : Session) : Session :=
  mkSession (messages s) (candidate_data s)
    (current_field_index s) (tech_questions_asked s) (conversation_active s)
    (generated_questions s) g (greeted s) (last_user_message s).

Definition set_greeted (b : bool) (s : Session) : Session :=
  mkSession (messages s) (candidate_data s)
    (current_field_index s) (tech_questions_asked s) (conversation_active s)
    (generated_questions s) (stage s) b (last_user_message s).

Definition set_last_user_message (m : string) (s : Session) : Session :=
  mkSession (messages s) (candidate_data s)
    (current_field_index s) (tech_questions_asked s) (conversation_active s)
    (generated_questions s) (stage s) (greeted s) (Some m).

Definition FIELD_PROMPTS (f : Field) : string :=
  match f with
  | Name => "full name"
  | Email => "email address"
  | Phone => "phone number"
  | Experience => "years of experience"
  | Position => "desired position"
  | Location => "current location"
  | TechStack => "tech stack (programming languages, frameworks, tools)"
  end.

Definition API_KEY_WARNING : string :=
  "⚠️ Add GROQ_API_KEY in environment or Streamlit secrets to enable AI responses.".

Definition SYSTEM_PROMPTS_greeting : string :=
  "You are a friendly AI hiring assistant for TalentScout. " ++
  nl ++
  "Greet the candidate warmly and explain you'll collect their information and ask technical questions. Keep it to 2-3 sentences.".

Definition SYSTEM_PROMPTS_collect_info : string :=
  "You are collecting candidate information. " ++
  nl ++
  "Ask for the specified information naturally and briefly. One short question only. If the prompt contains 'Thank them briefly', include a short thank you before the question.".

Definition SYSTEM_PROMPTS_generate_questions : string :=
  "Generate 5 technical interview questions based on the tech stack." ++
  nl ++
  "Be specific to the technologies mentioned. Return ONLY numbered questions 1-5.".

Definition SYSTEM_PROMPTS_evaluate_answer : string :=
  "Provide brief encouraging feedback in 1-2 sentences. Under 30 words.".

Definition SYSTEM_PROMPTS_farewell : string :=
  "Thank the candidate professionally. Mention the team will review responses " ++
  nl ++
  "and contact them in 3-5 business days. Keep brief.".

(** The list of line 276. *)
Definition exit_keywords : list string :=
  ["bye"; "goodbye"; "exit"; "quit"; "end"; "stop"].

(** [x or default] on an optional text: [None] and the empty text are
    both falsy. *)
Definition or_default (x : option string) (default : string) : string :=
  match x with
  | Some s => if Py.is_empty s then default else s
  | None => default
  end.

(** The path of line 144. *)
Definition save_filename (d : CandidateData) (t : DateTime) : string :=
  let name := or_default (cd_name d) "unknown" in
  let name := Py.replace_char " " "_" name in
  "candidate_data/" ++ name ++ "_" ++ strftime_compact t ++ ".json".

Definition UNSURE_MESSAGE : string :=
  "I'm not sure what to do next. Restarting interview.".
Definition EMPTY_WARNING : string := "Please type something before sending.".
Definition DUPLICATE_INFO : string := "Duplicate message detected — ignored.".
Definition COMPLETED_INFO : string := "💼 Interview completed! Thank you.".

Section WithEnv.
Variable E : Env.

(** [call_groq_api], lines 85-114. *)
Definition call_groq_api (prompt system_prompt : string) : M World string :=
  try_except
    (api_key <- getenv_or_secret E "GROQ_API_KEY" ;;
     if Py.is_empty api_key then ret API_KEY_WARNING
     else post E (mkRequest "llama-3.1-8b-instant" system_prompt prompt))
    (fun e => match e with
              | RequestException m => ret ("Error connecting to Groq API: " ++ m)
              | Exception m => ret ("An unexpected error occurred: " ++ m)
              end).

Definition generate_technical_questions (tech_stack : string) : M World string :=
  let prompt := "Tech stack: " ++ tech_stack ++ nl ++ nl
                ++ "Generate 5 specific technical questions. Format: numbered 1-5 only." in
  call_groq_api prompt SYSTEM_PROMPTS_generate_questions.

(** [save_candidate_data], lines 137-152: the text it returns. *)
Definition save_candidate_data : M (Sys Session) string :=
  try_except
    (liftW (of_result (makedirs E "candidate_data")) ;;
     t <- liftW (datetime_now E) ;;
     data <- read candidate_data ;;
     let filename := save_filename data t in
     liftW (write_file E filename (Json.dumps 2 (candidate_json data))) ;;
     ret ("✅ Data saved: `" ++ filename ++ "`"))
    (fun e => ret ("Error saving data: " ++ str_exn e)).

(** [ask_next_info_field], lines 165-186.  The look-up
    [FIELD_ORDER[index]] succeeds exactly when the test
    [index < len(FIELD_ORDER)] does. *)
Definition ask_next_info_field (is_first_field : bool) : M (Sys Session) unit :=
  idx <- read current_field_index ;;
  match nth_error FIELD_ORDER idx with
  | Some next_field =>
      let prompt :=
        if is_first_field
        then "Ask for their " ++ FIELD_PROMPTS next_field ++ ". One short question."
        else "Thank them briefly. Then ask for their " ++ FIELD_PROMPTS next_field
             ++ ". Keep short." in
      response <- liftW (call_groq_api prompt SYSTEM_PROMPTS_collect_info) ;;
      update (append_message assistant response)
  | None =>
      update (set_stage technical_questions) ;;
      tech_stack <- read (fun s => or_default (cd_tech_stack (candidate_data s))
                                     "unspecified tech stack") ;;
      let transition_msg := "Perfect! Now let's assess your **" ++ tech_stack
                            ++ "** skills. I'll ask 5 questions." in
      update (append_message assistant transition_msg) ;;
      questions <- liftW (generate_technical_questions tech_stack) ;;
      update (set_generated_questions questions) ;;
      update (append_message assistant questions) ;;
      update (append_message assistant (nl ++ "**Please answer Question 1:**"))
  end.

(** [handle_greeting_stage], lines 155-163. *)
Definition handle_greeting_stage : M (Sys Session) unit :=
  done <- read greeted ;;
  if done then ret tt
  else
    greeting_msg <- liftW (call_groq_api "Greet the candidate for a hiring interview"
                             SYSTEM_PROMPTS_greeting) ;;
    update (append_message assistant greeting_msg) ;;
    update (set_greeted true) ;;
    update (set_stage collect_info) ;;
    ask_next_info_field true.

(** [process_user_input_info], lines 188-200. *)
Definition process_user_input_info (user_input : string) : M (Sys Session) unit :=
  idx <- read current_field_index ;;
  match nth_error FIELD_ORDER idx with
  | Some current_field =>
      update (fun s => set_candidate_data
                (set_field current_field (Py.strip user_input) (candidate_data s)) s) ;;
      update (fun s => set_current_field_index (current_field_index s + 1) s) ;;
      ask_next_info_field false
  | None =>
      update (set_stage technical_questions) ;;
      ask_next_info_field false
  end.

(** [process_user_input_technical], lines 202-226. *)
Definition process_user_input_technical (user_input : string) : M (Sys Session) unit :=
  t <- liftW (datetime_now E) ;;
  update (fun s => set_candidate_data
            (append_answer (mkAnswer (tech_questions_asked s + 1) user_input (isoformat t))
                           (candidate_data s)) s) ;;
  update (fun s => set_tech_questions_asked (tech_questions_asked s + 1) s) ;;
  let feedback_prompt := "Brief encouraging feedback on the answer: "
                         ++ Py.take 200 user_input ++ "..." in
  feedback <- liftW (call_groq_api feedback_prompt SYSTEM_PROMPTS_evaluate_answer) ;;
  update (append_message assistant feedback) ;;
  asked <- read tech_questions_asked ;;
  if (asked <? 5)%nat then
    let next_q := nl ++ "**Please answer Question " ++ Py.str_nat (asked + 1) ++ ":**" in
    update (append_message assistant next_q)
  else
    farewell_msg <- liftW (call_groq_api "Generate farewell" SYSTEM_PROMPTS_farewell) ;;
    update (append_message assistant farewell_msg) ;;
    save_message <- save_candidate_data ;;
    update (append_message assistant save_message) ;;
    update (set_conversation_active false).

(** The branch taken on an exit keyword, lines 277-281. *)
Definition exit_shortcut : M (Sys Session) unit :=
  farewell_msg <- liftW (call_groq_api "Generate farewell" SYSTEM_PROMPTS_farewell) ;;
  save_message <- save_candidate_data ;;
  update (append_message assistant farewell_msg) ;;
  update (append_message assistant save_message) ;;
  update (set_conversation_active false).

(** The routing by stage, lines 286-292. *)
Definition route_by_stage (raw : string) : M (Sys Session) unit :=
  g <- read stage ;;
  match g with
  | collect_info => process_user_input_info raw
  | technical_questions => process_user_input_technical raw
  | _ =>
      update (append_message assistant UNSURE_MESSAGE) ;;
      update (set_conversation_active false)
  end.

(** Line 237-238, run at the top of every run of the script. *)
Definition ensure_greeting : M (Sys Session) unit :=
  g <- read stage ;;
  match g with
  | greeting => handle_greeting_stage
  | _ => ret tt
  end.

(** One run of the script with nothing submitted; it is also what
    [st.experimental_rerun()] starts. *)
Definition rerun : M (Sys Session) unit :=
  ensure_greeting ;;
  active <- read conversation_active ;;
  if active then ret tt else liftW (st_banner info COMPLETED_INFO).

(** Lines 275-292: the exit keywords first, the routing by stage
otherwise. *)
Definition dispatch (raw : string) : M (Sys Session) unit :=
if Py.any_in exit_keywords (Py.lower raw) then exit_shortcut
else route_by_stage raw.

(** A click on Send, lines 263-295. *)
Definition on_submit (user_input : string) : M (Sys Session) unit :=
  let raw := Py.strip user_input in
  if Py.is_empty raw then liftW (st_banner warning EMPTY_WARNING)
  else
    last <- read last_user_message ;;
    if match last with Some l => String.eqb raw l | None => false end
    then liftW (st_banner info DUPLICATE_INFO)
    else
      update (set_last_user_message raw) ;;
      update (append_message user raw) ;;
      dispatch raw ;;
      rerun.

(** Lines 320-340: the start-again button. *)
Definition restart : M (Sys Session) unit :=
  update (fun _ => init) ;;
  rerun.

(** One run of the script, lines 236-340. *)
Definition script (ev : Event) : M (Sys Session) unit :=
  ensure_greeting ;;
  active <- read conversation_active ;;
  if active then
    match ev with
    | Submit user_input => on_submit user_input
    | _ => ret tt
    end
  else
    liftW (st_banner info COMPLETED_INFO) ;;
    match ev with
    | ClickRestart => restart
    | _ => ret tt
    end.

Definition step (s : Sys Session) (ev : Event) : Sys Session := snd (script ev s).

Definition run (evs : list Event) (s : Sys Session) : Sys Session :=
  fold_left step evs s.

(** A new session: [init], drawn once. *)
Definition boot (w : World) : Sys Session := step (mkSys init w) Idle.

End WithEnv.

End AppGrok.


(* ===================================================================== *)
(** * What the pages show beside the chat                                  *)
(* ===================================================================== *)

From Stdlib Require ZArith QArith.

(** [candidate_data.values()], in insertion order. *)
Definition candidate_values (d : CandidateData) : list Json.t :=
  (map (fun f => opt_json (get_field f d)) FIELD_ORDER
   ++ [Json.Arr (map answer_json (technical_answers d))])%list.

(** [a / b] on two ints, as the exact fraction; [b] is not zero. *)
Definition py_div (a b : nat) : QArith_base.Q :=
  QArith_base.Qmake (BinInt.Z.of_nat a) (BinPos.Pos.of_nat b).

(** [str(g)] of a stage. *)
Definition stage_key (g : Stage) : string :=
  match g with
  | greeting => "greeting"
  | collect_info => "collect_info"
  | technical_questions => "technical_questions"
  | farewell => "farewell"
  end.

(** The sidebar of [app.py], lines 286-296. *)
Module AppView.

Definition total_fields : nat := 7.

(** [v is not None and v != []] *)
Definition counted (v : Json.t) : bool :=
  match v with
  | Json.Null => false
  | Json.Arr [] => false
  | _ => true
  end.

(** [sum(1 for v in candidate_data.values() if v is not None and v != [])] *)
Definition filled_fields (d : CandidateData) : nat :=
  length (filter counted (candidate_values d)).

(** The argument of [st.progress]. *)
Definition progress (s : App.Session) : QArith_base.Q :=
  py_div (filled_fields (App.candidate_data s)) total_fields.

(** The two lines written under the bar. *)
Definition sidebar (s : App.Session) : list string :=
  ["Information collected: " ++ Py.str_nat (filled_fields (App.candidate_data s))
     ++ "/" ++ Py.str_nat total_fields;
   "Technical questions answered: " ++ Py.str_nat (App.tech_questions_asked s) ++ "/5"].

End AppView.

(** The summary and the sidebar of [app_grok.py]. *)
Module AppGrokView.

(** [candidate_data.get(key, 'N/A')] inside an f-string: the eight keys
    are always there, and [None] prints as the word None. *)
Definition shown_field (f : Field) (d : CandidateData) : string :=
  Py.str_opt (get_field f d).

(** The lines of the loop over [enumerate(technical_answers)], lines
    317-318; [i] is the index of the first answer. *)
Fixpoint answer_lines (i : nat) (answers : list TechnicalAnswer) : list string :=
  match answers with
  | [] => []
  | ans :: rest =>
      ("**Q" ++ Py.str_nat (i + 1) ++ " Answer:** " ++ answer ans)
        :: answer_lines (S i) rest
  end.

(** The expander shown once the interview is over: the two columns and
    the counts, lines 298-311. *)
Definition summary_head (d : CandidateData) : list string :=
  ["**Personal Info:**";
   "Name: " ++ shown_field Name d;
   "Email: " ++ shown_field Email d;
   "Phone: " ++ shown_field Phone d;
   "**Professional Info:**";
   "Experience: " ++ shown_field Experience d;
   "Position: " ++ shown_field Position d;
   "Location: " ++ shown_field Location d;
   "**Tech Stack:** " ++ shown_field TechStack d;
   "**Questions Answered:** " ++ Py.str_nat (length (technical_answers d)) ++ "/5"].

(** The answers under it, lines 313-318. *)
Definition summary_answers (d : CandidateData) : list string :=
  match technical_answers d with
  | [] => []
  | answers => "---" :: "Technical Responses" :: answer_lines 0 answers
  end.

Definition summary (d : CandidateData) : list string :=
  (summary_head d ++ summary_answers d)%list.

(** The argument of [st.progress], lines 345-350. *)
Definition info_progress (s : AppGrok.Session) : QArith_base.Q :=
  if Stage_eqb (AppGrok.stage s) greeting then py_div 0 1
  else py_div (AppGrok.current_field_index s) (length FIELD_ORDER).

(** The line under the bar, lines 347 and 350. *)
Definition info_collected (s : AppGrok.Session) : string :=
  if Stage_eqb (AppGrok.stage s) greeting
  then "**Info Collected:** 0/" ++ Py.str_nat (length FIELD_ORDER)
  else "**Info Collected:** " ++ Py.str_nat (AppGrok.current_field_index s)
       ++ "/" ++ Py.str_nat (length FIELD_ORDER).

(** The field named under Debug Info, line 357-358, if any. *)
Definition next_field (s : AppGrok.Session) : option Field :=
  if (AppGrok.current_field_index s <? length FIELD_ORDER)%nat
  then nth_error FIELD_ORDER (AppGrok.current_field_index s)
  else None.

(** The captions of the stored data, lines 361-363: [value if value else
    'None']. *)
Definition stored_caption (f : Field) (d : CandidateData) : string :=
  field_key f ++ ": " ++ AppGrok.or_default (get_field f d) "None".

(** The lines of the expander Debug Info, lines 354-363. *)
Definition debug_info (s : AppGrok.Session) : list string :=
  let stage_line := "**Stage:** " ++ stage_key (AppGrok.stage s) in
  let index_line := "**Field Index:** " ++ Py.str_nat (AppGrok.current_field_index s) in
  let next_line := match next_field s with
                   | Some f => ["**Next Field:** " ++ field_key f]
                   | None => []
                   end in
  let count_line := "**Messages:** " ++ Py.str_nat (length (AppGrok.messages s)) in
  ([stage_line; index_line] ++ next_line ++ [count_line; "**Stored Data:**"]
   ++ map (fun f => stored_caption f (AppGrok.candidate_data s)) FIELD_ORDER)%list.

End AppGrokView.

(* ===================================================================== *)
(** * Vocabulary of the statements                                         *)
(* ===================================================================== *)

(** The credential as both wrappers resolve it: the environment variable
    when it is set, the secret otherwise; reading the secrets may raise. *)
Definition resolved_key (E : Env) (key : string) : result string :=
  match secrets_get E key with
  | Ok d => Ok (match getenv E key with Some v => v | None => d end)
  | Raise e => Raise e
  end.

(** The request [app.py] sends. *)
Definition app_request (prompt system_prompt : string) : Request :=
  mkRequest "gpt-3.5-turbo" system_prompt prompt.

(** The request [app_grok.py] sends. *)
Definition grok_request (prompt system_prompt : string) : Request :=
  mkRequest "llama-3.1-8b-instant" system_prompt prompt.

(** The text of the handler of [call_llm]. *)
Definition app_error_text (e : exn) : string :=
  "Error calling LLM: " ++ str_exn e ++ nl ++ nl ++ "Please check your API configuration.".

(** The texts of the two handlers of [call_groq_api]. *)
Definition grok_error_text (e : exn) : string :=
  match e with
  | RequestException m => "Error connecting to Groq API: " ++ m
  | Exception m => "An unexpected error occurred: " ++ m
  end.

(** The world after one more request. *)
Definition log_request (rq : Request) (w : World) : World :=
  mkWorld (sent w ++ [rq])%list (clock w) (files w) (shown w).

(** What a wrapper leaves in the world: nothing but, at most, one more
    request in the log. *)
Inductive one_request_at_most (rq : Request) (w w' : World) : Prop :=
| no_request : w' = w -> one_request_at_most rq w w'
| one_request : w' = log_request rq w -> one_request_at_most rq w w'.

(** The text a call returns and the world it leaves. *)
Definition app_text E p sp w : string :=
  match fst (App.call_llm E p sp w) with Ok t => t | Raise e => str_exn e end.
Definition app_world E p sp w : World := snd (App.call_llm E p sp w).
Definition grok_text E p sp w : string :=
  match fst (AppGrok.call_groq_api E p sp w) with Ok t => t | Raise e => str_exn e end.
Definition grok_world E p sp w : World := snd (AppGrok.call_groq_api E p sp w).

(** The worlds the effects lead to. *)
Definition tick (w : World) : World :=
  mkWorld (sent w) (S (clock w)) (files w) (shown w).
Definition add_file (path content : string) (w : World) : World :=
  mkWorld (sent w) (clock w) (files w ++ [(path, content)])%list (shown w).
Definition add_banner (k : BannerKind) (text : string) (w : World) : World :=
  mkWorld (sent w) (clock w) (files w) (shown w ++ [(k, text)])%list.

(** The file [app.py] saves to, and the world after its
    [save_candidate_data]. *)
Definition app_save_filename (t : DateTime) : string :=
  "candidate_" ++ strftime_compact t ++ ".json".

Definition app_save_world (E : Env) (d : CandidateData) (w : World) : World :=
  let filename := app_save_filename (now E (clock w)) in
  match open_w E filename with
  | Ok _ => add_banner success ("✅ Candidate data saved to " ++ filename)
              (add_file filename (Json.dumps 2 (candidate_json d)) (tick w))
  | Raise e => add_banner error ("Error saving data: " ++ str_exn e) (tick w)
  end.

(** The text [save_candidate_data] of [app_grok.py] returns, and the world
    after it. *)
Definition grok_save_outcome (E : Env) (d : CandidateData) (w : World) : string * World :=
  match makedirs E "candidate_data" with
  | Raise e => ("Error saving data: " ++ str_exn e, w)
  | Ok _ =>
      let filename := AppGrok.save_filename d (now E (clock w)) in
      match open_w E filename with
      | Ok _ => ("✅ Data saved: `" ++ filename ++ "`",
                 add_file filename (Json.dumps 2 (candidate_json d)) (tick w))
      | Raise e => ("Error saving data: " ++ str_exn e, tick w)
      end
  end.

(** Two records hold the same candidate information. *)
Definition same_info (d d' : CandidateData) : Prop :=
  forall f, get_field f d' = get_field f d.

(** No field that was set has another value afterwards. *)
Definition no_overwrite (d d' : CandidateData) : Prop :=
  forall f v, get_field f d = Some v -> get_field f d' = Some v.

(** Which of the seven fields are set, in declared order. *)
Definition is_set (x : option string) : bool :=
  match x with Some _ => true | None => false end.
Definition filled (d : CandidateData) : list bool :=
  map (fun f => is_set (get_field f d)) FIELD_ORDER.

(** The fields set are the first [k] of [FIELD_ORDER], and only they. *)
Definition filled_prefix (k : nat) (d : CandidateData) : Prop :=
  filled d = (repeat true k ++ repeat false (7 - k))%list.

(** The counter agrees with the stored answers, which are numbered from 1. *)
Definition answers_numbered (asked : nat) (d : CandidateData) : Prop :=
  asked = length (technical_answers d) /\
  map question_number (technical_answers d) = seq 1 asked.

(** The text remembered, if any, holds none of the keywords. *)
Definition no_exit_keyword (keywords : list string) (m : option string) : Prop :=
  forall l, m = Some l -> Py.any_in keywords (Py.lower l) = false.

(** Everything of an [app.py] session but the transcript. *)
Definition app_same_core (s s' : App.Session) : Prop :=
  App.candidate_data s' = App.candidate_data s /\
  App.stage s' = App.stage s /\
  App.tech_questions_asked s' = App.tech_questions_asked s /\
  App.conversation_active s' = App.conversation_active s.

(** The invariant of the answer counter in [app.py]. *)
Definition app_counter_inv (s : App.Session) : Prop :=
  answers_numbered (App.tech_questions_asked s) (App.candidate_data s) /\
  App.tech_questions_asked s <= 5 /\
  (App.tech_questions_asked s = 5 -> App.conversation_active s = false).

(** The invariant of the answer counter in [app_grok.py]. *)
Definition grok_counter_inv (s : AppGrok.Session) : Prop :=
  answers_numbered (AppGrok.tech_questions_asked s) (AppGrok.candidate_data s) /\
  AppGrok.tech_questions_asked s <= 5 /\
  (AppGrok.tech_questions_asked s = 5 -> AppGrok.conversation_active s = false).

(** What holds of every [app_grok.py] session once the page was drawn. *)
Definition grok_inv (s : AppGrok.Session) : Prop :=
  grok_counter_inv s /\
  filled_prefix (AppGrok.current_field_index s) (AppGrok.candidate_data s) /\
  AppGrok.stage s <> greeting /\
  (AppGrok.conversation_active s = true ->
   no_exit_keyword AppGrok.exit_keywords (AppGrok.last_user_message s)).

(** The state a submission is dispatched from: the trimmed text is
    remembered and joins the transcript. *)
Definition grok_accept (raw : string) (s : Sys AppGrok.Session) : Sys AppGrok.Session :=
  mkSys (AppGrok.append_message user raw (AppGrok.set_last_user_message raw (session s)))
        (world s).

(** No restart among the events. *)
Definition no_restart (evs : list Event) : Prop :=
  forallb (fun ev => negb (is_restart ev)) evs = true.

(** ** Environments and sessions to run the code on *)

(** A configured key, a vendor that answers, a disk that accepts. *)
Definition online : Env :=
  mkEnv (fun _ => Some "sk-test") (fun _ => Ok EmptyString) (Ok tt)
        (fun n _ => Ok ("reply " ++ Py.str_nat n))
        (fun n => mkDateTime 2024 1 2 3 4 (5 + n) 0)
        (fun _ => Ok tt) (fun _ => Ok tt).

(** No key in the environment, none in the secrets. *)
Definition keyless : Env :=
  mkEnv (fun _ => None) (fun _ => Ok EmptyString) (Ok tt)
        (fun n _ => Ok ("reply " ++ Py.str_nat n))
        (fun n => mkDateTime 2024 1 2 3 4 (5 + n) 0)
        (fun _ => Ok tt) (fun _ => Ok tt).

(** A configured key, but every request times out. *)
Definition unreachable : Env :=
  mkEnv (fun _ => Some "sk-test") (fun _ => Ok EmptyString) (Ok tt)
        (fun _ _ => Raise (RequestException "timed out"))
        (fun n => mkDateTime 2024 1 2 3 4 (5 + n) 0)
        (fun _ => Ok tt) (fun _ => Ok tt).

(** As [online], on a disk that refuses every file. *)
Definition read_only : Env :=
  mkEnv (fun _ => Some "sk-test") (fun _ => Ok EmptyString) (Ok tt)
        (fun n _ => Ok ("reply " ++ Py.str_nat n))
        (fun n => mkDateTime 2024 1 2 3 4 (5 + n) 0)
        (fun _ => Ok tt) (fun _ => Raise (Exception "Permission denied")).

(** The seven answers of a candidate, and five technical answers. *)
Definition seven_answers : list Event :=
  [Submit "Ada Lovelace"; Submit "ada@example.org"; Submit "555 0100";
   Submit "about 5 years"; Submit "developer"; Submit "London";
   Submit "Python, SQL"].
Definition five_answers : list Event :=
  [Submit "a1"; Submit "a2"; Submit "a3"; Submit "a4"; Submit "a5"].



(** The prompt of line 186 of [app.py]. *)
Definition app_next_prompt (f : Field) (info : string) (nxt : Field) : string :=
  "The candidate just provided their " ++ field_key f ++ ": " ++ info
  ++ ". Now ask for their " ++ field_key nxt ++ ".".

(** The prompts of lines 170 and 172 of [app_grok.py]. *)
Definition grok_first_prompt (f : Field) : string :=
  "Ask for their " ++ AppGrok.FIELD_PROMPTS f ++ ". One short question.".
Definition grok_next_prompt (f : Field) : string :=
  "Thank them briefly. Then ask for their " ++ AppGrok.FIELD_PROMPTS f ++ ". Keep short.".

(** The characters that separate the parts of a path, and the texts that
    hold none of them: the names of a file directly in a directory. *)
Definition is_separator (c : ascii) : bool :=
  let n := nat_of_ascii c in ((n =? 47) || (n =? 92))%nat.
Fixpoint plain_name (s : string) : bool :=
  match s with
  | EmptyString => true
  | String c s' => negb (is_separator c) && plain_name s'
  end.

(* ===================================================================== *)
(** * Vocabulary of the sessions that were drawn once                      *)
(* ===================================================================== *)

(** The transcript ends with a message of the assistant. *)
Definition ends_with_assistant (msgs : list Message) : Prop :=
  exists before txt, msgs = (before ++ [mkMessage assistant txt])%list.

(** How stage, fields, answers and the activity flag of an [app.py]
    session hang together. *)
Definition app_stage_inv (s : App.Session) : Prop :=
  app_counter_inv s /\
  (exists k,
      filled_prefix k (App.candidate_data s) /\
      (App.stage s = greeting -> k = 0) /\
      (App.stage s = collect_info -> k < 7) /\
      (App.stage s = technical_questions -> k = 7) /\
      (technical_answers (App.candidate_data s) <> [] -> k = 7)) /\
  (App.conversation_active s = false <-> App.stage s = farewell).

(** What holds of every [app.py] session once the page was drawn. *)
Definition app_inv (s : App.Session) : Prop :=
  app_stage_inv s /\ ends_with_assistant (App.messages s).

(** The state a submission is processed from in [app.py]: the text joins
    the transcript as it was typed. *)
Definition app_accept (u : string) (s : Sys App.Session) : Sys App.Session :=
  mkSys (App.append_message user u (session s)) (world s).

(** The end of a run of the script: the notice of the end is shown when
    the conversation is over. *)
Definition app_settle (s : Sys App.Session) : Sys App.Session :=
  if App.conversation_active (session s) then s
  else mkSys (session s) (add_banner info App.ENDED_INFO (world s)).
Definition grok_settle (s : Sys AppGrok.Session) : Sys AppGrok.Session :=
  if AppGrok.conversation_active (session s) then s
  else mkSys (session s) (add_banner info AppGrok.COMPLETED_INFO (world s)).

(** The test of line 270 of [app_grok.py]: the trimmed text is the one
    remembered from the submission before. *)
Definition grok_duplicate (raw : string) (s : AppGrok.Session) : bool :=
  match AppGrok.last_user_message s with
  | Some l => String.eqb raw l
  | None => false
  end.

(** How stage, index, answers and transcript of an [app_grok.py] session
    hang together once the page was drawn. *)
Definition grok_stage_inv (s : AppGrok.Session) : Prop :=
  grok_inv s /\
  (AppGrok.stage s = collect_info /\ AppGrok.current_field_index s < 7 \/
   AppGrok.stage s = technical_questions /\ AppGrok.current_field_index s = 7) /\
  (technical_answers (AppGrok.candidate_data s) <> [] ->
   AppGrok.stage s = technical_questions) /\
  AppGrok.greeted s = true /\
  ends_with_assistant (AppGrok.messages s).

(** Nothing was sent, the clock was not read and no file was written
    between two worlds; a notice may have been shown. *)
Definition quiet (w w' : World) : Prop :=
  sent w' = sent w /\ clock w' = clock w /\ files w' = files w.

(** Whether a call of the wrapper gets as far as sending: [app.py] needs
    the client library and a credential that is not empty, [app_grok.py]
    the credential. *)
Definition app_online (E : Env) : bool :=
  match import_openai E with
  | Ok _ =>
      match resolved_key E "OPENAI_API_KEY" with
      | Ok key => negb (Py.is_empty key)
      | Raise _ => false
      end
  | Raise _ => false
  end.

Definition grok_online (E : Env) : bool :=
  match resolved_key E "GROQ_API_KEY" with
  | Ok key => negb (Py.is_empty key)
  | Raise _ => false
  end.

(** One world continues another: the logs only grow. *)
Definition world_grows (w w' : World) (requests files_written : nat) : Prop :=
  (exists rqs, sent w' = (sent w ++ rqs)%list /\ length rqs = requests) /\
  (exists fs, files w' = (files w ++ fs)%list /\ length fs = files_written).

(** The same environment with another vendor behind the interface. *)
Definition with_complete (c : nat -> Request -> result string) (E : Env) : Env :=
  mkEnv (getenv E) (secrets_get E) (import_openai E) c (now E) (makedirs E) (open_w E).

(** A message without the text of the assistant. *)
Definition redact (m : Message) : Message :=
  match role m with
  | user => m
  | assistant => mkMessage assistant EmptyString
  end.

(** Two sessions differ at most in the texts the vendor wrote. *)
Definition app_same_but_replies (s s' : App.Session) : Prop :=
  map redact (App.messages s') = map redact (App.messages s) /\
  App.candidate_data s' = App.candidate_data s /\
  App.stage s' = App.stage s /\
  App.tech_questions_asked s' = App.tech_questions_asked s /\
  App.conversation_active s' = App.conversation_active s.

Definition grok_same_but_replies (s s' : AppGrok.Session) : Prop :=
  map redact (AppGrok.messages s') = map redact (AppGrok.messages s) /\
  AppGrok.candidate_data s' = AppGrok.candidate_data s /\
  AppGrok.current_field_index s' = AppGrok.current_field_index s /\
  AppGrok.tech_questions_asked s' = AppGrok.tech_questions_asked s /\
  AppGrok.conversation_active s' = AppGrok.conversation_active s /\
  AppGrok.stage s' = AppGrok.stage s /\
  AppGrok.greeted s' = AppGrok.greeted s /\
  AppGrok.last_user_message s' = AppGrok.last_user_message s.

(** Two states differ at most in the texts the vendor wrote: the worlds
    are the same. *)
Definition app_alike (s s' : Sys App.Session) : Prop :=
  app_same_but_replies (session s) (session s') /\ world s' = world s.
Definition grok_alike (s s' : Sys AppGrok.Session) : Prop :=
  grok_same_but_replies (session s) (session s') /\ world s' = world s.

(** One session continues another: transcript and answers were only
    appended to. *)
Definition extends {A : Type} (l l' : list A) : Prop :=
  exists tail, l' = (l ++ tail)%list.

(* ===================================================================== *)
(** * Python text                                                          *)
(* ===================================================================== *)

Unset Implicit Arguments.

(** ** Containment and trimming *)

Lemma prefix_split k s :
  prefix k s = true <-> exists post, s = k ++ post.
Proof.
  revert s. induction k as [|c k IH]; intros s.
  - split; [intros _; exists s; reflexivity | intros _; destruct s; reflexivity].
  - destruct s as [|c' s]; cbn [prefix].
    + split; [discriminate | intros [post H]; discriminate].
    + destruct (Ascii.ascii_dec c c') as [->|Hne].
      * rewrite IH. split; intros [post H]; exists post.
        -- cbn. now rewrite H.
        -- cbn in H. now injection H.
      * split; [discriminate|]. intros [post H]. cbn in H. injection H as H1 H2.
        congruence.
Qed.

(** [needle in hay] is containment as a substring, anywhere in [hay]. *)
Lemma contains_split k s :
  Py.contains k s = true <-> exists pre post, s = pre ++ k ++ post.
Proof.
  induction s as [|c s IH]; cbn [Py.contains].
  - rewrite orb_false_r, prefix_split. split.
    + intros [post H]. exists EmptyString, post. exact H.
    + intros (pre & post & H). destruct pre; [exists post; exact H|discriminate].
  - rewrite orb_true_iff, prefix_split, IH. split.
    + intros [[post H] | (pre & post & H)].
      * exists EmptyString, post. exact H.
      * exists (String c pre), post. cbn. now rewrite H.
    + intros (pre & post & H). destruct pre as [|c' pre].
      * left. exists post. exact H.
      * right. cbn in H. injection H as _ H. exists pre, post. exact H.
Qed.

Lemma any_in_intro kws k s :
  In k kws -> Py.contains k s = true -> Py.any_in kws s = true.
Proof. intros Hin Hc. unfold Py.any_in. apply existsb_exists. exists k. auto. Qed.

Lemma any_in_nonempty kws s :
  forallb (fun k => negb (Py.is_empty k)) kws = true ->
  Py.any_in kws s = true -> Py.is_empty s = false.
Proof.
  intros Hk Ha. destruct s; [|reflexivity]. exfalso.
  unfold Py.any_in in Ha. apply existsb_exists in Ha. destruct Ha as (k & Hin & Hc).
  rewrite forallb_forall in Hk. specialize (Hk k Hin).
  destruct k; [discriminate|]. cbn in Hc. discriminate.
Qed.

Lemma rstrip_cons c s :
  Py.rstrip (String c s)
  = match Py.rstrip s with
    | EmptyString => if Py.isspace c then EmptyString else String c EmptyString
    | r => String c r
    end.
Proof. reflexivity. Qed.






(** ** The first number of a text *)








(* ===================================================================== *)
(** * The text-generation call                                             *)
(* ===================================================================== *)

Lemma getenv_or_secret_run E key w :
  getenv_or_secret E key w = (resolved_key E key, w).
Proof.
  unfold getenv_or_secret, resolved_key, bind, of_result, ret.
  destruct (secrets_get E key); reflexivity.
Qed.

Lemma one_request_frame rq w w' :
  one_request_at_most rq w w' ->
  clock w' = clock w /\ files w' = files w /\ shown w' = shown w.
Proof. intros [-> | ->]; cbn; auto. Qed.

Lemma app_call_cases E prompt system_prompt w :
  let rq := app_request prompt system_prompt in
  App.call_llm E prompt system_prompt w =
  match import_openai E with
  | Raise e => (Ok (app_error_text e), w)
  | Ok _ =>
      match resolved_key E "OPENAI_API_KEY" with
      | Raise e => (Ok (app_error_text e), w)
      | Ok key =>
          if Py.is_empty key then (Ok App.API_KEY_WARNING, w)
          else match complete E (length (sent w)) rq with
               | Ok txt => (Ok txt, log_request rq w)
               | Raise e => (Ok (app_error_text e), log_request rq w)
               end
      end
  end.
Proof.
  cbv zeta.
  unfold App.call_llm, try_except, bind, of_result.
  destruct (import_openai E) as [[]|e]; [|reflexivity].
  rewrite getenv_or_secret_run.
  destruct (resolved_key E _) as [key|e]; [|reflexivity].
  destruct (Py.is_empty key); [reflexivity|].
  unfold post, app_request.
  destruct (complete E _ _); reflexivity.
Qed.

Lemma grok_call_cases E prompt system_prompt w :
  let rq := grok_request prompt system_prompt in
  AppGrok.call_groq_api E prompt system_prompt w =
  match resolved_key E "GROQ_API_KEY" with
  | Raise e => (Ok (grok_error_text e), w)
  | Ok key =>
      if Py.is_empty key then (Ok AppGrok.API_KEY_WARNING, w)
      else match complete E (length (sent w)) rq with
           | Ok txt => (Ok txt, log_request rq w)
           | Raise e => (Ok (grok_error_text e), log_request rq w)
           end
  end.
Proof.
  cbv zeta.
  unfold AppGrok.call_groq_api, try_except, bind.
  rewrite getenv_or_secret_run.
  destruct (resolved_key E _) as [key|[m|m]]; try reflexivity.
  destruct (Py.is_empty key); [reflexivity|].
  unfold post, grok_request.
  destruct (complete E _ _) as [txt|[m|m]]; reflexivity.
Qed.

Lemma app_call_eq E p sp w :
  App.call_llm E p sp w = (Ok (app_text E p sp w), app_world E p sp w).
Proof.
  unfold app_text, app_world. rewrite app_call_cases. cbv zeta.
  destruct (import_openai E) as [[]|e]; [|reflexivity].
  destruct (resolved_key E _) as [key|e]; [|reflexivity].
  destruct (Py.is_empty key); [reflexivity|].
  destruct (complete E _ _); reflexivity.
Qed.

Lemma grok_call_eq E p sp w :
  AppGrok.call_groq_api E p sp w = (Ok (grok_text E p sp w), grok_world E p sp w).
Proof.
  unfold grok_text, grok_world. rewrite grok_call_cases. cbv zeta.
  destruct (resolved_key E _) as [key|e]; [|reflexivity].
  destruct (Py.is_empty key); [reflexivity|].
  destruct (complete E _ _); reflexivity.
Qed.

Lemma app_world_log E p sp w :
  one_request_at_most (app_request p sp) w (app_world E p sp w).
Proof.
  unfold app_world. rewrite app_call_cases. cbv zeta.
  destruct (import_openai E) as [[]|e]; [|now left].
  destruct (resolved_key E _) as [key|e]; [|now left].
  destruct (Py.is_empty key); [now left|].
  destruct (complete E _ _); now right.
Qed.

Lemma grok_world_log E p sp w :
  one_request_at_most (grok_request p sp) w (grok_world E p sp w).
Proof.
  unfold grok_world. rewrite grok_call_cases. cbv zeta.
  destruct (resolved_key E _) as [key|e]; [|now left].
  destruct (Py.is_empty key); [now left|].
  destruct (complete E _ _); now right.
Qed.

(* ===================================================================== *)
(** * [app.py]: running the controller                                     *)
(* ===================================================================== *)

(** Runs the monadic code on a symbolic state: unfolds the combinators and
    the setters, and replaces each call of the collaborator by its text
    and its world. *)
Ltac app_exec :=
  repeat first
   [ rewrite app_call_eq
   | progress cbv beta iota zeta delta
       [bind ret gets modify when liftW update read of_result try_except raise
        App.append_message App.set_candidate_data App.set_stage
        App.set_tech_questions_asked App.set_conversation_active
        App.set_technical_questions App.init App.get_missing_info
        datetime_now write_file st_banner App.generate_technical_questions]
   | progress cbn [session world fst snd
                   App.messages App.candidate_data App.stage App.tech_questions_asked
                   App.conversation_active App.generated_questions
                   sent clock files shown ] ].

Lemma answers_set_field f v d : technical_answers (set_field f v d) = technical_answers d.
Proof. destruct f; reflexivity. Qed.

Lemma get_set_field f g v d :
  get_field g (set_field f v d) = if Field_eqb f g then Some v else get_field g d.
Proof. destruct f, g; reflexivity. Qed.

Lemma get_append_answer f qa d : get_field f (append_answer qa d) = get_field f d.
Proof. destruct f; reflexivity. Qed.

Lemma missing_field_unset d f : App.missing_field d = Some f -> get_field f d = None.
Proof.
  unfold App.missing_field. intros H. apply find_some in H. destruct H as [_ H].
  destruct (get_field f d); [discriminate|reflexivity].
Qed.

Lemma no_overwrite_refl d : no_overwrite d d.
Proof. intros f v H; exact H. Qed.

Lemma same_info_refl d : same_info d d.
Proof. intros f; reflexivity. Qed.

Lemma no_overwrite_set_unset f v d :
  get_field f d = None -> no_overwrite d (set_field f v d).
Proof.
  intros Hn g x Hg. rewrite get_set_field.
  destruct (Field_eqb f g) eqn:Hfg; [|exact Hg].
  destruct f, g; try discriminate; cbn in *; congruence.
Qed.

Lemma app_save_run E s :
  App.save_candidate_data E s
  = (Ok tt, mkSys (session s) (app_save_world E (App.candidate_data (session s)) (world s))).
Proof.
  unfold App.save_candidate_data, app_save_world, app_save_filename, add_banner, add_file, tick.
  app_exec.
  match goal with |- context [open_w E ?p] => destruct (open_w E p) end; app_exec; reflexivity.
Qed.

Lemma app_exit_run E s :
  let txt := app_text E "Generate farewell message" App.SYSTEM_PROMPTS_farewell (world s) in
  let w1 := app_world E "Generate farewell message" App.SYSTEM_PROMPTS_farewell (world s) in
  App.exit_shortcut E s
  = (Ok tt,
     mkSys (App.set_conversation_active false
              (App.append_message assistant txt (App.set_stage farewell (session s))))
           (app_save_world E (App.candidate_data (session s)) w1)).
Proof.
  unfold App.exit_shortcut. app_exec. rewrite app_save_run. app_exec. reflexivity.
Qed.

Ltac app_split :=
  match goal with
  | |- context [match ?g with greeting => _ | collect_info => _
                              | technical_questions => _ | farewell => _ end] =>
      destruct g eqn:?
  | |- context [App.missing_field ?d] => destruct (App.missing_field d) eqn:?
  | |- context [if ?b then _ else _] => destruct b eqn:?
  end.

Ltac app_run :=
  repeat first [ progress app_exec | rewrite app_save_run | rewrite app_exit_run | app_split ].

Lemma app_stage_ok E u s :
  App.stage_based_processing E u s = (Ok tt, snd (App.stage_based_processing E u s)).
Proof.
  destruct s as [[msgs d g n a q] w].
  unfold App.stage_based_processing. app_run; reflexivity.
Qed.

Lemma app_process_ok E u s :
  App.process_user_input E u s = (Ok tt, snd (App.process_user_input E u s)).
Proof.
  unfold App.process_user_input.
  destruct (Py.any_in _ _).
  - rewrite app_exit_run. reflexivity.
  - apply app_stage_ok.
Qed.


Lemma answers_numbered_append n d u ts :
  answers_numbered n d ->
  answers_numbered (n + 1) (append_answer (mkAnswer (n + 1) u ts) d).
Proof.
  intros [H1 H2]. unfold answers_numbered, append_answer. cbn [technical_answers].
  rewrite length_app, map_app, H2, <- H1. cbn [length map question_number].
  split; [reflexivity|]. rewrite Nat.add_1_r, seq_S. reflexivity.
Qed.

Lemma answers_numbered_set_field n f v d :
  answers_numbered n d -> answers_numbered n (set_field f v d).
Proof. unfold answers_numbered. rewrite answers_set_field. auto. Qed.

Lemma counter_not_full n a d :
  answers_numbered n d /\ n <= 5 /\ (n = 5 -> a = false) -> a = true -> n <> 5.
Proof. intros (_ & _ & H) Ha Hn. specialize (H Hn). congruence. Qed.

(** Closes the goals about the counter that the paths of a turn leave:
    the invariant before and an active conversation give the invariant
    after. *)
Ltac counter_fin :=
  let H := fresh in let Ha := fresh in let Hn := fresh in
  intros H Ha;
  pose proof (counter_not_full _ _ _ H Ha) as Hn;
  destruct H as (? & ? & ?);
  repeat match goal with
         | H : (_ <? _)%nat = true |- _ => apply Nat.ltb_lt in H
         | H : (_ <? _)%nat = false |- _ => apply Nat.ltb_ge in H
         end;
  split;
  [ first [ assumption
          | apply answers_numbered_append; assumption
          | apply answers_numbered_set_field; assumption ]
  | split; [ lia | intros; first [ reflexivity | lia ] ] ].

(** What one call of [process_user_input] does to the session, apart from
    the transcript. *)
Lemma app_process_facts E u s :
  let s' := session (snd (App.process_user_input E u s)) in
  stage_rank (App.stage (session s)) <= stage_rank (App.stage s') /\
  no_overwrite (App.candidate_data (session s)) (App.candidate_data s') /\
  (2 <= stage_rank (App.stage (session s)) ->
   same_info (App.candidate_data (session s)) (App.candidate_data s')) /\
  (app_counter_inv (session s) -> App.conversation_active (session s) = true ->
   app_counter_inv s').
Proof.
  destruct s as [[msgs d g n a q] w].
  unfold App.process_user_input, App.stage_based_processing, app_counter_inv.
  app_run.
  all: repeat match goal with |- _ /\ _ => split end.
  all: try (destruct g; cbn [stage_rank]; lia).
  all: try (cbn [stage_rank]; lia).
  all: try apply no_overwrite_refl.
  all: try (intros; apply same_info_refl).
  all: try (cbn [stage_rank]; intros; lia).
  all: try (apply no_overwrite_set_unset; eapply missing_field_unset; eassumption).
  all: try (intros f' v' ?; rewrite get_append_answer; assumption).
  all: try (intros ? f'; rewrite get_append_answer; reflexivity).
  all: try counter_fin.
Qed.

(** ** The fields are filled in declared order *)

Lemma filled_prefix_le k d : filled_prefix k d -> k <= 7.
Proof.
  unfold filled_prefix, filled. intros H. apply (f_equal (@length bool)) in H.
  rewrite length_map, length_app, !repeat_length in H. cbn in H. lia.
Qed.

Lemma filled_prefix_empty : filled_prefix 0 empty_candidate.
Proof. reflexivity. Qed.

Ltac small_index k :=
  destruct k as [|[|[|[|[|[|[|[|k]]]]]]]]; [ | | | | | | | | exfalso; lia ].

Lemma filled_prefix_missing k d :
  filled_prefix k d -> App.missing_field d = nth_error FIELD_ORDER k.
Proof.
  intros H. pose proof (filled_prefix_le _ _ H) as Hle.
  destruct d as [a1 a2 a3 a4 a5 a6 a7 ans].
  unfold filled_prefix, filled in H. cbn in H.
  small_index k; cbn in H; injection H as H1 H2 H3 H4 H5 H6 H7;
    destruct a1, a2, a3, a4, a5, a6, a7; try discriminate; reflexivity.
Qed.

Lemma filled_prefix_set k d f v :
  filled_prefix k d -> nth_error FIELD_ORDER k = Some f ->
  filled_prefix (S k) (set_field f v d).
Proof.
  intros H Hf. pose proof (filled_prefix_le _ _ H) as Hle.
  destruct d as [a1 a2 a3 a4 a5 a6 a7 ans].
  unfold filled_prefix, filled in *. cbn in H.
  small_index k; cbn in Hf; try discriminate; injection Hf as <-;
    cbn in H; injection H as H1 H2 H3 H4 H5 H6 H7;
    destruct a1, a2, a3, a4, a5, a6, a7; try discriminate; reflexivity.
Qed.

(** What [filled_prefix] says field by field: the field at position [i]
    of the declared order is set exactly when [i < k]. *)
Lemma filled_prefix_nth k d i f :
  filled_prefix k d -> nth_error FIELD_ORDER i = Some f ->
  (i < k <-> get_field f d <> None).
Proof.
  intros H Hf. pose proof (filled_prefix_le _ _ H) as Hle.
  assert (Hi : i < 7).
  { change 7 with (length FIELD_ORDER). apply nth_error_Some. rewrite Hf. discriminate. }
  destruct d as [a1 a2 a3 a4 a5 a6 a7 ans].
  unfold filled_prefix, filled in H. cbn in H.
  small_index k; cbn in H; injection H as H1 H2 H3 H4 H5 H6 H7;
    destruct a1, a2, a3, a4, a5, a6, a7; try discriminate;
    (destruct i as [|[|[|[|[|[|[|i]]]]]]]; [ | | | | | | | exfalso; lia ]);
    cbn in Hf; injection Hf as <-; cbn [get_field cd_name cd_email cd_phone
      cd_experience cd_position cd_location cd_tech_stack];
    (split; [intros; first [discriminate | lia] | intros Hx; first [lia | congruence]]).
Qed.

Lemma filled_append_answer qa d : filled (append_answer qa d) = filled d.
Proof. reflexivity. Qed.

Lemma app_process_prefix E u s k :
  filled_prefix k (App.candidate_data (session s)) ->
  exists k', k <= k' /\
    filled_prefix k' (App.candidate_data (session (snd (App.process_user_input E u s)))).
Proof.
  destruct s as [[msgs d g n a q] w]. cbn [session App.candidate_data].
  intros Hk.
  unfold App.process_user_input, App.stage_based_processing.
  app_run.
  all: try (exists k; split; [lia | exact Hk]).
  all: exists (S k); split; [lia|]; apply filled_prefix_set; [exact Hk|];
       rewrite <- (filled_prefix_missing _ _ Hk); assumption.
Qed.

(** ** One run of the script *)

Lemma app_same_core_refl s : app_same_core s s.
Proof. repeat split. Qed.

Lemma app_greeting_run E s :
  App.initial_greeting E s = (Ok tt, snd (App.initial_greeting E s)).
Proof.
  unfold App.initial_greeting. app_exec.
  destruct (length _ =? 0)%nat; app_exec; reflexivity.
Qed.

Lemma app_greeting_core E s :
  app_same_core (session s) (session (snd (App.initial_greeting E s))).
Proof.
  unfold App.initial_greeting. app_exec.
  destruct (length _ =? 0)%nat; app_exec; repeat split.
Qed.

Lemma app_rerun_run E s : App.rerun E s = (Ok tt, snd (App.rerun E s)).
Proof.
  unfold App.rerun, bind. rewrite app_greeting_run. app_exec.
  destruct (App.conversation_active _); app_exec; reflexivity.
Qed.

Lemma app_rerun_core E s :
  app_same_core (session s) (session (snd (App.rerun E s))).
Proof.
  unfold App.rerun, bind. rewrite app_greeting_run. app_exec.
  destruct (App.conversation_active _); app_exec; apply app_greeting_core.
Qed.

Lemma app_script_ok E ev s : App.script E ev s = (Ok tt, App.step E s ev).
Proof.
  unfold App.step, App.script, bind. rewrite app_greeting_run. app_exec.
  destruct (App.conversation_active _); app_exec.
  - destruct ev as [|u|]; try reflexivity.
    destruct (Py.is_empty u); [reflexivity|]. app_exec.
    rewrite app_process_ok, app_rerun_run. reflexivity.
  - destruct ev as [|u|]; try reflexivity.
    app_exec. rewrite app_rerun_run. reflexivity.
Qed.

(** The session after one run of the script, case by case. *)
Lemma app_step_cases E ev s :
  let s' := App.step E s ev in
  (app_same_core (session s) (session s')) \/
  (exists u s1,
      ev = Submit u /\ App.conversation_active (session s) = true /\
      app_same_core (session s) (session s1) /\
      app_same_core (session (snd (App.process_user_input E u s1))) (session s')) \/
  (ev = ClickRestart /\ App.conversation_active (session s) = false /\
   app_same_core App.init (session s')).
Proof.
  cbv zeta.
  pose proof (app_greeting_core E s) as Hg.
  unfold App.step, App.script, bind. rewrite app_greeting_run. app_exec.
  set (s0 := snd (App.initial_greeting E s)) in *.
  destruct (App.conversation_active (session s0)) eqn:Ha; app_exec.
  - destruct ev as [|u|]; try (left; exact Hg).
    destruct (Py.is_empty u); [left; exact Hg|]. app_exec.
    right; left.
    set (s1 := mkSys _ (world s0)).
    exists u, s1. split; [reflexivity|]. split.
    { destruct Hg as (_ & _ & _ & <-). exact Ha. }
    split; [exact Hg|].
    rewrite app_process_ok. app_exec. apply app_rerun_core.
  - destruct ev as [|u|]; try (left; exact Hg).
    right; right. split; [reflexivity|]. split.
    { destruct Hg as (_ & _ & _ & <-). exact Ha. }
    app_exec.
    match goal with |- app_same_core _ (session (snd (App.rerun E ?x))) =>
      apply (app_rerun_core E x) end.
Qed.

Lemma app_counter_inv_core s s' :
  app_same_core s s' -> app_counter_inv s -> app_counter_inv s'.
Proof. unfold app_counter_inv. intros (-> & _ & -> & ->). auto. Qed.

Lemma app_step_counter E ev s :
  app_counter_inv (session s) -> app_counter_inv (session (App.step E s ev)).
Proof.
  intros Hinv.
  destruct (app_step_cases E ev s) as [Hc | [(u & s1 & -> & Ha & H1 & H2) | (-> & Ha & Hc)]].
  - exact (app_counter_inv_core _ _ Hc Hinv).
  - pose proof (app_process_facts E u s1) as (_ & _ & _ & Hp).
    apply (app_counter_inv_core _ _ H2). apply Hp.
    + exact (app_counter_inv_core _ _ H1 Hinv).
    + destruct H1 as (_ & _ & _ & ->). exact Ha.
  - apply (app_counter_inv_core _ _ Hc).
    unfold app_counter_inv, answers_numbered. cbn. repeat split; try lia; try discriminate.
Qed.

Lemma app_step_order E ev s :
  is_restart ev = false ->
  let s' := session (App.step E s ev) in
  stage_rank (App.stage (session s)) <= stage_rank (App.stage s') /\
  no_overwrite (App.candidate_data (session s)) (App.candidate_data s') /\
  (2 <= stage_rank (App.stage (session s)) ->
   same_info (App.candidate_data (session s)) (App.candidate_data s')).
Proof.
  intros Hr. cbv zeta.
  destruct (app_step_cases E ev s) as [Hc | [(u & s1 & -> & Ha & H1 & H2) | (-> & Ha & Hc)]].
  - destruct Hc as (-> & -> & _). split; [lia|]. split; [apply no_overwrite_refl|].
    intros _; apply same_info_refl.
  - pose proof (app_process_facts E u s1) as (P1 & P2 & P3 & _).
    destruct H2 as (-> & -> & _). destruct H1 as (E1 & E2 & _).
    rewrite E1, E2 in *. auto.
  - discriminate.
Qed.

Lemma app_step_prefix E ev s k :
  filled_prefix k (App.candidate_data (session s)) ->
  exists k', filled_prefix k' (App.candidate_data (session (App.step E s ev))).
Proof.
  intros Hk.
  destruct (app_step_cases E ev s) as [Hc | [(u & s1 & -> & Ha & H1 & H2) | (-> & Ha & Hc)]].
  - destruct Hc as (-> & _). eauto.
  - destruct H1 as (E1 & _). rewrite <- E1 in Hk.
    destruct (app_process_prefix E u s1 k Hk) as (k' & _ & Hk').
    destruct H2 as (-> & _). eauto.
  - destruct Hc as (-> & _). exists 0. reflexivity.
Qed.

(* ===================================================================== *)
(** * [app_grok.py]: running the controller                                *)
(* ===================================================================== *)

Ltac grok_exec :=
  repeat first
   [ rewrite grok_call_eq
   | progress cbv beta iota zeta delta
       [bind ret gets modify when liftW update read of_result try_except raise
        AppGrok.append_message AppGrok.set_candidate_data AppGrok.set_stage
        AppGrok.set_current_field_index AppGrok.set_greeted
        AppGrok.set_last_user_message AppGrok.set_generated_questions
        AppGrok.set_tech_questions_asked AppGrok.set_conversation_active
        AppGrok.init datetime_now write_file st_banner
        AppGrok.generate_technical_questions]
   | progress cbn [session world fst snd
                   AppGrok.messages AppGrok.candidate_data AppGrok.stage
                   AppGrok.tech_questions_asked AppGrok.current_field_index
                   AppGrok.conversation_active AppGrok.generated_questions
                   AppGrok.greeted AppGrok.last_user_message
                   sent clock files shown ] ].

Lemma grok_save_run E s :
  AppGrok.save_candidate_data E s
  = (Ok (fst (grok_save_outcome E (AppGrok.candidate_data (session s)) (world s))),
     mkSys (session s)
           (snd (grok_save_outcome E (AppGrok.candidate_data (session s)) (world s)))).
Proof.
  unfold AppGrok.save_candidate_data, grok_save_outcome, add_file, tick.
  grok_exec.
  destruct (makedirs E _); grok_exec; [|destruct s; reflexivity].
  match goal with |- context [open_w E ?p] => destruct (open_w E p) end;
    grok_exec; reflexivity.
Qed.

Ltac grok_split :=
  match goal with
  | |- context [match ?g with greeting => _ | collect_info => _
                              | technical_questions => _ | farewell => _ end] =>
      destruct g eqn:?
  | |- context [nth_error FIELD_ORDER ?i] => destruct (nth_error FIELD_ORDER i) eqn:?
  | |- context [if ?b then _ else _] => destruct b eqn:?
  end.

Ltac grok_run :=
  repeat first [ progress grok_exec | rewrite grok_save_run | grok_split ].

Lemma grok_ask_ok E b s :
  AppGrok.ask_next_info_field E b s = (Ok tt, snd (AppGrok.ask_next_info_field E b s)).
Proof.
  destruct s as [[msgs d i n a q g gr l] w].
  unfold AppGrok.ask_next_info_field. grok_run; reflexivity.
Qed.

Lemma grok_dispatch_ok E raw s :
  AppGrok.dispatch E raw s = (Ok tt, snd (AppGrok.dispatch E raw s)).
Proof.
  destruct s as [[msgs d i n a q g gr l] w].
  unfold AppGrok.dispatch, AppGrok.exit_shortcut, AppGrok.route_by_stage,
    AppGrok.process_user_input_info, AppGrok.process_user_input_technical,
    AppGrok.ask_next_info_field.
  grok_run; reflexivity.
Qed.

Lemma filled_prefix_unset k d f :
  filled_prefix k d -> nth_error FIELD_ORDER k = Some f -> get_field f d = None.
Proof.
  intros H Hf. apply missing_field_unset.
  rewrite (filled_prefix_missing _ _ H). exact Hf.
Qed.

(** What one dispatch does to the session, apart from the transcript. *)
Lemma grok_dispatch_facts E raw s :
  let s' := session (snd (AppGrok.dispatch E raw s)) in
  stage_rank (AppGrok.stage (session s)) <= stage_rank (AppGrok.stage s') /\
  (2 <= stage_rank (AppGrok.stage (session s)) ->
   same_info (AppGrok.candidate_data (session s)) (AppGrok.candidate_data s')) /\
  (filled_prefix (AppGrok.current_field_index (session s))
                 (AppGrok.candidate_data (session s)) ->
   no_overwrite (AppGrok.candidate_data (session s)) (AppGrok.candidate_data s') /\
   filled_prefix (AppGrok.current_field_index s') (AppGrok.candidate_data s')) /\
  (grok_counter_inv (session s) -> AppGrok.conversation_active (session s) = true ->
   grok_counter_inv s') /\
  AppGrok.last_user_message s' = AppGrok.last_user_message (session s) /\
  (AppGrok.stage (session s) <> greeting -> AppGrok.stage s' <> greeting) /\
  (AppGrok.conversation_active s' = true ->
   Py.any_in AppGrok.exit_keywords (Py.lower raw) = false).
Proof.
  destruct s as [[msgs d i n a q g gr l] w].
  unfold AppGrok.dispatch, AppGrok.exit_shortcut, AppGrok.route_by_stage,
    AppGrok.process_user_input_info, AppGrok.process_user_input_technical,
    AppGrok.ask_next_info_field, grok_counter_inv.
  grok_run.
  all: repeat match goal with |- _ /\ _ => split end.
  all: try reflexivity.
  all: try (cbn [stage_rank]; lia).
  all: try (destruct g; cbn [stage_rank]; lia).
  all: try (intros; apply same_info_refl).
  all: try (cbn [stage_rank]; intros; lia).
  all: try (intros f' v' ?; rewrite get_append_answer; assumption).
  all: try (intros ? f'; rewrite get_append_answer; reflexivity).
  all: try (intros; congruence).
  all: try (intros; discriminate).
  all: try counter_fin.
  all: try (intros Hk; split; [apply no_overwrite_refl | exact Hk]).
  all: try (intros Hk; split;
            [ apply no_overwrite_set_unset; eapply filled_prefix_unset; eassumption
            | rewrite Nat.add_1_r; apply filled_prefix_set; assumption ]).
  all: try (intros Hk; split; [intros f' v' ?; rewrite get_append_answer; assumption | exact Hk]).
Qed.

(** ** One run of the script *)

Lemma grok_ensure_ok E s :
  AppGrok.ensure_greeting E s = (Ok tt, snd (AppGrok.ensure_greeting E s)).
Proof.
  destruct s as [[msgs d i n a q g gr l] w].
  unfold AppGrok.ensure_greeting, AppGrok.handle_greeting_stage,
    AppGrok.ask_next_info_field.
  grok_run; reflexivity.
Qed.

Lemma grok_ensure_idle E s :
  AppGrok.stage (session s) <> greeting -> snd (AppGrok.ensure_greeting E s) = s.
Proof.
  destruct s as [[msgs d i n a q g gr l] w]. cbn [session AppGrok.stage]. intros Hg.
  unfold AppGrok.ensure_greeting. grok_exec.
  destruct g; try reflexivity. congruence.
Qed.

(** What the greeting at the top of the script changes: the stage and the
    greeted flag at most, and messages. *)
Lemma grok_ensure_facts E s :
  let s' := session (snd (AppGrok.ensure_greeting E s)) in
  AppGrok.candidate_data s' = AppGrok.candidate_data (session s) /\
  AppGrok.current_field_index s' = AppGrok.current_field_index (session s) /\
  AppGrok.tech_questions_asked s' = AppGrok.tech_questions_asked (session s) /\
  AppGrok.conversation_active s' = AppGrok.conversation_active (session s) /\
  AppGrok.last_user_message s' = AppGrok.last_user_message (session s) /\
  stage_rank (AppGrok.stage (session s)) <= stage_rank (AppGrok.stage s') /\
  (AppGrok.greeted (session s) = false -> AppGrok.stage s' <> greeting).
Proof.
  destruct s as [[msgs d i n a q g gr l] w].
  unfold AppGrok.ensure_greeting, AppGrok.handle_greeting_stage,
    AppGrok.ask_next_info_field.
  grok_run.
  all: repeat match goal with |- _ /\ _ => split end.
  all: try reflexivity.
  all: try (cbn [stage_rank]; lia).
  all: try (intros; congruence).
Qed.

Lemma grok_rerun_ok E s : AppGrok.rerun E s = (Ok tt, snd (AppGrok.rerun E s)).
Proof.
  unfold AppGrok.rerun, bind. rewrite grok_ensure_ok. grok_exec.
  destruct (AppGrok.conversation_active _); grok_exec; reflexivity.
Qed.

Lemma grok_rerun_session E s :
  session (snd (AppGrok.rerun E s)) = session (snd (AppGrok.ensure_greeting E s)).
Proof.
  unfold AppGrok.rerun, bind. rewrite grok_ensure_ok. grok_exec.
  destruct (AppGrok.conversation_active _); grok_exec; reflexivity.
Qed.

Lemma grok_submit_ok E u s :
  AppGrok.on_submit E u s = (Ok tt, snd (AppGrok.on_submit E u s)).
Proof.
  unfold AppGrok.on_submit. grok_exec.
  destruct (Py.is_empty _); grok_exec; [reflexivity|].
  destruct (match AppGrok.last_user_message (session s) with Some _ => _ | None => _ end);
    grok_exec; [reflexivity|].
  rewrite grok_dispatch_ok. grok_exec. rewrite grok_rerun_ok. reflexivity.
Qed.

(** A submission is either ignored, the session staying as it is, or
    accepted, dispatched and followed by one more run of the script. *)
Lemma grok_submit_cases E u s :
  let raw := Py.strip u in
  let s' := snd (AppGrok.on_submit E u s) in
  ((Py.is_empty raw = true \/ AppGrok.last_user_message (session s) = Some raw) /\
   session s' = session s) \/
  (Py.is_empty raw = false /\ AppGrok.last_user_message (session s) <> Some raw /\
   s' = snd (AppGrok.rerun E (snd (AppGrok.dispatch E raw (grok_accept raw s))))).
Proof.
  cbv zeta. unfold AppGrok.on_submit. grok_exec.
  destruct (Py.is_empty (Py.strip u)) eqn:He; grok_exec; [left; auto|].
  destruct (AppGrok.last_user_message (session s)) as [l|] eqn:Hl.
  - destruct (String.eqb_spec (Py.strip u) l) as [->|Hne]; grok_exec.
    + left; auto.
    + right. split; [reflexivity|]. split; [congruence|].
      rewrite grok_dispatch_ok. grok_exec. reflexivity.
  - grok_exec. right. split; [reflexivity|]. split; [congruence|].
    rewrite grok_dispatch_ok. grok_exec. reflexivity.
Qed.

Lemma grok_script_ok E ev s : AppGrok.script E ev s = (Ok tt, AppGrok.step E s ev).
Proof.
  unfold AppGrok.step, AppGrok.script, bind. rewrite grok_ensure_ok. grok_exec.
  destruct (AppGrok.conversation_active _); grok_exec.
  - destruct ev as [|u|]; try reflexivity. apply grok_submit_ok.
  - destruct ev as [|u|]; try reflexivity.
    unfold AppGrok.restart. grok_exec. rewrite grok_rerun_ok. reflexivity.
Qed.

(** The state after one run of the script, case by case. *)
Lemma grok_step_cases E ev s :
  let s0 := snd (AppGrok.ensure_greeting E s) in
  let s' := AppGrok.step E s ev in
  s' = s0 \/
  session s' = session s0 /\ AppGrok.conversation_active (session s0) = false \/
  (exists u, ev = Submit u /\ AppGrok.conversation_active (session s0) = true /\
             s' = snd (AppGrok.on_submit E u s0)) \/
  (exists w, ev = ClickRestart /\ AppGrok.conversation_active (session s0) = false /\
             s' = snd (AppGrok.rerun E (mkSys AppGrok.init w))).
Proof.
  cbv zeta. unfold AppGrok.step, AppGrok.script, bind. rewrite grok_ensure_ok. grok_exec.
  set (s0 := snd (AppGrok.ensure_greeting E s)).
  destruct (AppGrok.conversation_active (session s0)) eqn:Ha; grok_exec.
  - destruct ev as [|u|]; try (left; reflexivity).
    right; right; left. exists u. auto.
  - destruct ev as [|u|]; try (right; left; split; reflexivity).
    right; right; right. eexists. split; [reflexivity|]. split; [reflexivity|].
    unfold AppGrok.restart. grok_exec. reflexivity.
Qed.

(** With the greeting behind and the conversation active, a click on Send
    runs [on_submit] on the session as it is. *)
Lemma grok_step_submit E u s :
  AppGrok.stage (session s) <> greeting ->
  AppGrok.conversation_active (session s) = true ->
  AppGrok.step E s (Submit u) = snd (AppGrok.on_submit E u s).
Proof.
  intros Hg Ha. unfold AppGrok.step, AppGrok.script, bind.
  rewrite grok_ensure_ok, (grok_ensure_idle E s Hg). grok_exec. rewrite Ha.
  reflexivity.
Qed.

(** Once the conversation is over, a click on Send finds no form. *)
Lemma grok_step_over E u s :
  AppGrok.stage (session s) <> greeting ->
  AppGrok.conversation_active (session s) = false ->
  session (AppGrok.step E s (Submit u)) = session s.
Proof.
  intros Hg Ha. unfold AppGrok.step, AppGrok.script, bind.
  rewrite grok_ensure_ok, (grok_ensure_idle E s Hg). grok_exec. rewrite Ha.
  grok_exec. reflexivity.
Qed.

(** ** The invariant of the sessions that were drawn once *)

Lemma grok_inv_fresh E w :
  grok_inv (session (snd (AppGrok.ensure_greeting E (mkSys AppGrok.init w)))).
Proof.
  unfold AppGrok.ensure_greeting, AppGrok.handle_greeting_stage,
    AppGrok.ask_next_info_field, grok_inv, grok_counter_inv, answers_numbered.
  grok_exec. cbn [nth_error FIELD_ORDER]. grok_exec.
  cbn [technical_answers empty_candidate length map seq].
  repeat split; try lia; try discriminate.
Qed.

Lemma grok_inv_boot E w : grok_inv (session (AppGrok.boot E w)).
Proof.
  unfold AppGrok.boot.
  destruct (grok_step_cases E Idle (mkSys AppGrok.init w))
    as [-> | [(-> & _) | [(u & Hu & _) | (w' & Hu & _)]]]; try discriminate;
    apply grok_inv_fresh.
Qed.

Lemma grok_dispatch_inv E raw s :
  grok_inv (session s) -> AppGrok.conversation_active (session s) = true ->
  let s2 := snd (AppGrok.dispatch E raw (grok_accept raw s)) in
  grok_inv (session s2) /\
  stage_rank (AppGrok.stage (session s)) <= stage_rank (AppGrok.stage (session s2)) /\
  no_overwrite (AppGrok.candidate_data (session s)) (AppGrok.candidate_data (session s2)) /\
  (2 <= stage_rank (AppGrok.stage (session s)) ->
   same_info (AppGrok.candidate_data (session s)) (AppGrok.candidate_data (session s2))).
Proof.
  intros (Hc & Hp & Hg & Hl) Ha. cbv zeta.
  pose proof (grok_dispatch_facts E raw (grok_accept raw s))
    as (F1 & F2 & F3 & F4 & F5 & F6 & F7).
  cbn [grok_accept session AppGrok.append_message AppGrok.set_last_user_message
       AppGrok.stage AppGrok.candidate_data AppGrok.current_field_index
       AppGrok.conversation_active AppGrok.last_user_message
       AppGrok.tech_questions_asked] in F1, F2, F3, F4, F5, F6, F7.
  destruct (F3 Hp) as (F3a & F3b).
  split; [|auto].
  split; [apply F4; auto|]. split; [exact F3b|]. split; [auto|].
  intros Ha2 l Hl2. rewrite F5 in Hl2. injection Hl2 as <-. auto.
Qed.

Lemma grok_step_inv E ev s :
  grok_inv (session s) -> grok_inv (session (AppGrok.step E s ev)).
Proof.
  intros Hinv.
  assert (Hg : AppGrok.stage (session s) <> greeting) by apply Hinv.
  pose proof (grok_step_cases E ev s) as Hc. cbv zeta in Hc.
  rewrite (grok_ensure_idle E s Hg) in Hc.
  destruct Hc as [-> | [(-> & _) | [(u & -> & Ha & ->) | (w' & -> & Ha & ->)]]]; auto.
  - destruct (grok_submit_cases E u s) as [(_ & ->) | (He & Hd & ->)]; auto.
    destruct (grok_dispatch_inv E (Py.strip u) s Hinv Ha) as (Hinv2 & _).
    rewrite grok_rerun_session, grok_ensure_idle; [exact Hinv2 | apply Hinv2].
  - rewrite grok_rerun_session. apply grok_inv_fresh.
Qed.

Lemma grok_run_inv E evs s :
  grok_inv (session s) -> grok_inv (session (AppGrok.run E evs s)).
Proof.
  revert s. induction evs as [|ev evs IH]; intros s H; [exact H|].
  cbn [AppGrok.run fold_left]. apply IH. apply grok_step_inv. exact H.
Qed.

(** Steps that are no restart, from a session that was drawn once. *)
Lemma grok_step_order E ev s :
  is_restart ev = false -> grok_inv (session s) ->
  let s' := session (AppGrok.step E s ev) in
  stage_rank (AppGrok.stage (session s)) <= stage_rank (AppGrok.stage s') /\
  no_overwrite (AppGrok.candidate_data (session s)) (AppGrok.candidate_data s') /\
  (2 <= stage_rank (AppGrok.stage (session s)) ->
   same_info (AppGrok.candidate_data (session s)) (AppGrok.candidate_data s')).
Proof.
  intros Hr Hinv. cbv zeta.
  assert (Hg : AppGrok.stage (session s) <> greeting) by apply Hinv.
  pose proof (grok_step_cases E ev s) as Hc. cbv zeta in Hc.
  rewrite (grok_ensure_idle E s Hg) in Hc.
  assert (Hsame : forall s', session s' = session s ->
            stage_rank (AppGrok.stage (session s)) <= stage_rank (AppGrok.stage (session s')) /\
            no_overwrite (AppGrok.candidate_data (session s)) (AppGrok.candidate_data (session s')) /\
            (2 <= stage_rank (AppGrok.stage (session s)) ->
             same_info (AppGrok.candidate_data (session s)) (AppGrok.candidate_data (session s')))).
  { intros s' ->. split; [lia|]. split; [apply no_overwrite_refl|].
    intros _; apply same_info_refl. }
  destruct Hc as [-> | [(Hs & _) | [(u & -> & Ha & ->) | (w' & -> & Ha & ->)]]];
    auto; try discriminate.
  destruct (grok_submit_cases E u s) as [(_ & Hs) | (He & Hd & ->)]; auto.
  destruct (grok_dispatch_inv E (Py.strip u) s Hinv Ha) as (Hinv2 & F1 & F2 & F3).
  rewrite grok_rerun_session, grok_ensure_idle; [auto | apply Hinv2].
Qed.

(* ===================================================================== *)
(** * Whole sessions                                                       *)
(* ===================================================================== *)

Lemma no_overwrite_trans d1 d2 d3 :
  no_overwrite d1 d2 -> no_overwrite d2 d3 -> no_overwrite d1 d3.
Proof. intros H12 H23 f v H. apply H23, H12, H. Qed.

Lemma same_info_trans d1 d2 d3 :
  same_info d1 d2 -> same_info d2 d3 -> same_info d1 d3.
Proof. intros H12 H23 f. rewrite H23. apply H12. Qed.

Lemma no_restart_cons ev evs :
  no_restart (ev :: evs) -> is_restart ev = false /\ no_restart evs.
Proof.
  unfold no_restart. cbn [forallb]. intros H. apply andb_prop in H.
  destruct H as [H1 H2]. split; [|exact H2]. now destruct (is_restart ev).
Qed.

Lemma app_boot_counter E w : app_counter_inv (session (App.boot E w)).
Proof.
  unfold App.boot. apply app_step_counter.
  unfold app_counter_inv, answers_numbered. cbn. repeat split; try lia; try discriminate.
Qed.

Lemma app_run_counter E evs s :
  app_counter_inv (session s) -> app_counter_inv (session (App.run E evs s)).
Proof.
  revert s. induction evs as [|ev evs IH]; intros s H; [exact H|].
  cbn [App.run fold_left]. apply IH, app_step_counter, H.
Qed.

Lemma app_boot_prefix E w :
  exists k, filled_prefix k (App.candidate_data (session (App.boot E w))).
Proof.
  unfold App.boot. apply (app_step_prefix E Idle (mkSys App.init w) 0). reflexivity.
Qed.

Lemma app_run_prefix E evs s :
  (exists k, filled_prefix k (App.candidate_data (session s))) ->
  exists k, filled_prefix k (App.candidate_data (session (App.run E evs s))).
Proof.
  revert s. induction evs as [|ev evs IH]; intros s H; [exact H|].
  cbn [App.run fold_left]. apply IH. destruct H as [k Hk].
  exact (app_step_prefix E ev s k Hk).
Qed.

Lemma app_run_order E evs s :
  no_restart evs ->
  let s' := session (App.run E evs s) in
  stage_rank (App.stage (session s)) <= stage_rank (App.stage s') /\
  no_overwrite (App.candidate_data (session s)) (App.candidate_data s') /\
  (2 <= stage_rank (App.stage (session s)) ->
   same_info (App.candidate_data (session s)) (App.candidate_data s')).
Proof.
  revert s. induction evs as [|ev evs IH]; intros s Hn; cbv zeta.
  - split; [apply Nat.le_refl|]. split; [apply no_overwrite_refl|].
    intros _; apply same_info_refl.
  - apply no_restart_cons in Hn. destruct Hn as [Hev Hn].
    cbn [App.run fold_left].
    destruct (app_step_order E ev s Hev) as (A1 & A2 & A3).
    destruct (IH (App.step E s ev) Hn) as (B1 & B2 & B3).
    split; [eapply Nat.le_trans; eassumption|].
    split; [eapply no_overwrite_trans; eassumption|].
    intros H2. eapply same_info_trans; [apply A3, H2|]. apply B3. lia.
Qed.

Lemma grok_run_order E evs s :
  no_restart evs -> grok_inv (session s) ->
  let s' := session (AppGrok.run E evs s) in
  stage_rank (AppGrok.stage (session s)) <= stage_rank (AppGrok.stage s') /\
  no_overwrite (AppGrok.candidate_data (session s)) (AppGrok.candidate_data s') /\
  (2 <= stage_rank (AppGrok.stage (session s)) ->
   same_info (AppGrok.candidate_data (session s)) (AppGrok.candidate_data s')).
Proof.
  revert s. induction evs as [|ev evs IH]; intros s Hn Hinv; cbv zeta.
  - split; [apply Nat.le_refl|]. split; [apply no_overwrite_refl|].
    intros _; apply same_info_refl.
  - apply no_restart_cons in Hn. destruct Hn as [Hev Hn].
    cbn [AppGrok.run fold_left].
    destruct (grok_step_order E ev s Hev Hinv) as (A1 & A2 & A3).
    destruct (IH (AppGrok.step E s ev) Hn (grok_step_inv E ev s Hinv)) as (B1 & B2 & B3).
    split; [eapply Nat.le_trans; eassumption|].
    split; [eapply no_overwrite_trans; eassumption|].
    intros H2. eapply same_info_trans; [apply A3, H2|]. apply B3. lia.
Qed.

(* ===================================================================== *)
(** * Single turns, in full                                               *)
(* ===================================================================== *)

Lemma app_collect_turn E u s f :
  App.stage (session s) = collect_info ->
  Py.any_in App.exit_keywords (Py.strip (Py.lower u)) = false ->
  App.missing_field (App.candidate_data (session s)) = Some f ->
  let info := App.extract_info_from_response u f in
  let d' := set_field f info (App.candidate_data (session s)) in
  let s' := session (snd (App.process_user_input E u s)) in
  App.candidate_data s' = d' /\
  App.conversation_active s' = App.conversation_active (session s) /\
  (forall nxt, App.missing_field d' = Some nxt ->
     App.stage s' = collect_info /\
     App.messages s'
     = (App.messages (session s)
        ++ [mkMessage assistant
              (app_text E (app_next_prompt f info nxt) App.SYSTEM_PROMPTS_collect_info
                        (world s))])%list) /\
  (App.missing_field d' = None -> App.stage s' = technical_questions).
Proof.
  destruct s as [[msgs d g n a q] w]. cbn [session App.stage App.candidate_data
    App.conversation_active App.messages world].
  intros -> Hx Hm. cbv zeta.
  unfold App.process_user_input. rewrite Hx.
  unfold App.stage_based_processing. app_exec. rewrite Hm. app_exec.
  destruct (App.missing_field (set_field f _ d)) as [nxt|] eqn:Hn; app_exec.
  - split; [reflexivity|]. split; [reflexivity|].
    split; [intros nxt' [= <-]; split; reflexivity | intros; discriminate].
  - split; [reflexivity|]. split; [reflexivity|].
    split; [intros; discriminate | intros; reflexivity].
Qed.

Lemma app_greeting_turn E u s :
  App.stage (session s) = greeting ->
  Py.any_in App.exit_keywords (Py.strip (Py.lower u)) = false ->
  let s' := session (snd (App.process_user_input E u s)) in
  App.stage s' = collect_info /\
  App.candidate_data s' = App.candidate_data (session s) /\
  App.messages s'
  = (App.messages (session s)
     ++ [mkMessage assistant
           (app_text E ("Ask for candidate's "
                        ++ App.str_missing (App.missing_field (App.candidate_data (session s)))
                        ++ ". Be friendly and professional.")
                     App.SYSTEM_PROMPTS_collect_info (world s))])%list.
Proof.
  destruct s as [[msgs d g n a q] w]. cbn [session App.stage App.candidate_data
    App.conversation_active App.messages world].
  intros -> Hx. cbv zeta.
  unfold App.process_user_input. rewrite Hx.
  unfold App.stage_based_processing. app_exec. auto.
Qed.

(** The state in which the answer and the feedback on it are stored. *)
Lemma app_technical_turn E u s :
  App.stage (session s) = technical_questions ->
  Py.any_in App.exit_keywords (Py.strip (Py.lower u)) = false ->
  let n := App.tech_questions_asked (session s) in
  let d := App.candidate_data (session s) in
  let d' := append_answer (mkAnswer (n + 1) u (isoformat (now E (clock (world s))))) d in
  let w1 := tick (world s) in
  let feedback_prompt := "Provide brief encouraging feedback on this answer: "
                         ++ Py.take 200 u in
  let feedback := app_text E feedback_prompt App.SYSTEM_PROMPTS_evaluate_answer w1 in
  let w2 := app_world E feedback_prompt App.SYSTEM_PROMPTS_evaluate_answer w1 in
  let farewell_msg := app_text E "Generate farewell message" App.SYSTEM_PROMPTS_farewell w2 in
  let w3 := app_world E "Generate farewell message" App.SYSTEM_PROMPTS_farewell w2 in
  let r := App.process_user_input E u s in
  fst r = Ok tt /\
  App.candidate_data (session (snd r)) = d' /\
  App.tech_questions_asked (session (snd r)) = n + 1 /\
  (n + 1 < 5 ->
   App.stage (session (snd r)) = technical_questions /\
   App.conversation_active (session (snd r)) = App.conversation_active (session s) /\
   App.messages (session (snd r))
   = (App.messages (session s)
      ++ [mkMessage assistant feedback;
          mkMessage assistant ("Please answer Question " ++ Py.str_nat (n + 1 + 1) ++ ":")])%list /\
   world (snd r) = w2) /\
  (5 <= n + 1 ->
   App.stage (session (snd r)) = farewell /\
   App.conversation_active (session (snd r)) = false /\
   App.messages (session (snd r))
   = (App.messages (session s)
      ++ [mkMessage assistant feedback; mkMessage assistant farewell_msg])%list /\
   world (snd r) = app_save_world E d' w3).
Proof.
  destruct s as [[msgs d g n a q] w]. cbn [session App.stage App.candidate_data
    App.conversation_active App.messages App.tech_questions_asked world].
  intros -> Hx. cbv zeta.
  unfold App.process_user_input. rewrite Hx.
  unfold App.stage_based_processing, tick. app_exec.
  destruct (n + 1 <? 5)%nat eqn:Hlt; app_exec.
  - apply Nat.ltb_lt in Hlt.
    split; [reflexivity|]. split; [reflexivity|]. split; [reflexivity|].
    split; [intros _ | intros; lia].
    rewrite <- app_assoc. auto.
  - apply Nat.ltb_ge in Hlt. rewrite app_save_run. app_exec.
    split; [reflexivity|]. split; [reflexivity|]. split; [reflexivity|].
    split; [intros; lia | intros _].
    rewrite <- app_assoc. auto.
Qed.


Lemma grok_collect_turn E raw s f :
  AppGrok.stage (session s) = collect_info ->
  Py.any_in AppGrok.exit_keywords (Py.lower raw) = false ->
  nth_error FIELD_ORDER (AppGrok.current_field_index (session s)) = Some f ->
  let i := AppGrok.current_field_index (session s) in
  let s' := session (snd (AppGrok.dispatch E raw s)) in
  AppGrok.candidate_data s'
  = set_field f (Py.strip raw) (AppGrok.candidate_data (session s)) /\
  AppGrok.current_field_index s' = i + 1 /\
  AppGrok.conversation_active s' = AppGrok.conversation_active (session s) /\
  (forall nxt, nth_error FIELD_ORDER (i + 1) = Some nxt ->
     AppGrok.stage s' = collect_info /\
     AppGrok.messages s'
     = (AppGrok.messages (session s)
        ++ [mkMessage assistant
              (grok_text E (grok_next_prompt nxt) AppGrok.SYSTEM_PROMPTS_collect_info
                         (world s))])%list) /\
  (nth_error FIELD_ORDER (i + 1) = None -> AppGrok.stage s' = technical_questions).
Proof.
  destruct s as [[msgs d i n a q g gr l] w].
  cbn [session world AppGrok.stage AppGrok.candidate_data AppGrok.current_field_index
       AppGrok.conversation_active AppGrok.messages].
  intros -> Hx Hf. cbv zeta.
  unfold AppGrok.dispatch. rewrite Hx.
  unfold AppGrok.route_by_stage, AppGrok.process_user_input_info,
    AppGrok.ask_next_info_field. grok_exec. rewrite Hf. grok_exec.
  destruct (nth_error FIELD_ORDER (i + 1)) as [nxt|] eqn:Hn; grok_exec.
  - split; [reflexivity|]. split; [reflexivity|]. split; [reflexivity|].
    split; [intros nxt' [= <-]; split; reflexivity | intros; discriminate].
  - split; [reflexivity|]. split; [reflexivity|]. split; [reflexivity|].
    split; [intros; discriminate | intros; reflexivity].
Qed.

Lemma grok_technical_turn E raw s :
  AppGrok.stage (session s) = technical_questions ->
  Py.any_in AppGrok.exit_keywords (Py.lower raw) = false ->
  let n := AppGrok.tech_questions_asked (session s) in
  let d := AppGrok.candidate_data (session s) in
  let d' := append_answer (mkAnswer (n + 1) raw (isoformat (now E (clock (world s))))) d in
  let w1 := tick (world s) in
  let feedback_prompt := "Brief encouraging feedback on the answer: "
                         ++ Py.take 200 raw ++ "..." in
  let feedback := grok_text E feedback_prompt AppGrok.SYSTEM_PROMPTS_evaluate_answer w1 in
  let w2 := grok_world E feedback_prompt AppGrok.SYSTEM_PROMPTS_evaluate_answer w1 in
  let farewell_msg := grok_text E "Generate farewell" AppGrok.SYSTEM_PROMPTS_farewell w2 in
  let w3 := grok_world E "Generate farewell" AppGrok.SYSTEM_PROMPTS_farewell w2 in
  let r := AppGrok.dispatch E raw s in
  fst r = Ok tt /\
  AppGrok.candidate_data (session (snd r)) = d' /\
  AppGrok.tech_questions_asked (session (snd r)) = n + 1 /\
  AppGrok.stage (session (snd r)) = technical_questions /\
  (n + 1 < 5 ->
   AppGrok.conversation_active (session (snd r)) = AppGrok.conversation_active (session s) /\
   AppGrok.messages (session (snd r))
   = (AppGrok.messages (session s)
      ++ [mkMessage assistant feedback;
          mkMessage assistant (nl ++ "**Please answer Question "
                               ++ Py.str_nat (n + 1 + 1) ++ ":**")])%list /\
   world (snd r) = w2) /\
  (5 <= n + 1 ->
   AppGrok.conversation_active (session (snd r)) = false /\
   AppGrok.messages (session (snd r))
   = (AppGrok.messages (session s)
      ++ [mkMessage assistant feedback; mkMessage assistant farewell_msg;
          mkMessage assistant (fst (grok_save_outcome E d' w3))])%list /\
   world (snd r) = snd (grok_save_outcome E d' w3)).
Proof.
  destruct s as [[msgs d i n a q g gr l] w].
  cbn [session world AppGrok.stage AppGrok.candidate_data AppGrok.current_field_index
       AppGrok.conversation_active AppGrok.messages AppGrok.tech_questions_asked].
  intros -> Hx. cbv zeta.
  unfold AppGrok.dispatch. rewrite Hx.
  unfold AppGrok.route_by_stage, AppGrok.process_user_input_technical, tick. grok_exec.
  destruct (n + 1 <? 5)%nat eqn:Hlt; grok_exec.
  - apply Nat.ltb_lt in Hlt.
    split; [reflexivity|]. split; [reflexivity|]. split; [reflexivity|].
    split; [reflexivity|].
    split; [intros _ | intros; lia].
    rewrite <- app_assoc. auto.
  - apply Nat.ltb_ge in Hlt. rewrite grok_save_run. grok_exec.
    split; [reflexivity|]. split; [reflexivity|]. split; [reflexivity|].
    split; [reflexivity|].
    split; [intros; lia | intros _].
    rewrite <- !app_assoc. auto.
Qed.

Lemma grok_exit_turn E raw s :
  Py.any_in AppGrok.exit_keywords (Py.lower raw) = true ->
  let farewell_msg := grok_text E "Generate farewell" AppGrok.SYSTEM_PROMPTS_farewell (world s) in
  let w1 := grok_world E "Generate farewell" AppGrok.SYSTEM_PROMPTS_farewell (world s) in
  let saved := grok_save_outcome E (AppGrok.candidate_data (session s)) w1 in
  AppGrok.dispatch E raw s
  = (Ok tt,
     mkSys (AppGrok.set_conversation_active false
              (AppGrok.append_message assistant (fst saved)
                 (AppGrok.append_message assistant farewell_msg (session s))))
           (snd saved)).
Proof.
  intros Hx. cbv zeta. unfold AppGrok.dispatch. rewrite Hx.
  unfold AppGrok.exit_shortcut. grok_exec. rewrite grok_save_run. grok_exec.
  reflexivity.
Qed.

(** ** Submissions in [app_grok.py] *)

Lemma is_empty_lower s : Py.is_empty (Py.lower s) = Py.is_empty s.
Proof. destruct s; reflexivity. Qed.

Lemma grok_keyword_nonempty raw :
  Py.any_in AppGrok.exit_keywords (Py.lower raw) = true -> Py.is_empty raw = false.
Proof.
  intros H. rewrite <- is_empty_lower.
  apply (any_in_nonempty AppGrok.exit_keywords); [reflexivity | exact H].
Qed.

(** A submission that is empty, or repeats the last accepted one, or
    comes when the conversation is over, leaves the session as it is. *)
Lemma grok_step_ignored E u s :
  AppGrok.stage (session s) <> greeting ->
  AppGrok.conversation_active (session s) = false \/
  Py.is_empty (Py.strip u) = true \/
  AppGrok.last_user_message (session s) = Some (Py.strip u) ->
  session (AppGrok.step E s (Submit u)) = session s.
Proof.
  intros Hg Hc.
  destruct (AppGrok.conversation_active (session s)) eqn:Ha;
    [|apply grok_step_over; assumption].
  rewrite (grok_step_submit E u s Hg Ha).
  destruct (grok_submit_cases E u s) as [(_ & ->) | (He & Hd & _)]; [reflexivity|].
  destruct Hc as [Hc | [Hc | Hc]]; congruence.
Qed.

Lemma grok_step_accepted E u s :
  AppGrok.stage (session s) <> greeting ->
  AppGrok.conversation_active (session s) = true ->
  Py.is_empty (Py.strip u) = false ->
  AppGrok.last_user_message (session s) <> Some (Py.strip u) ->
  AppGrok.step E s (Submit u)
  = snd (AppGrok.rerun E (snd (AppGrok.dispatch E (Py.strip u) (grok_accept (Py.strip u) s)))).
Proof.
  intros Hg Ha He Hd. rewrite (grok_step_submit E u s Hg Ha).
  destruct (grok_submit_cases E u s) as [([H|H] & _) | (_ & _ & Hacc)]; congruence.
Qed.

(** A submission with an exit keyword, from a session that was drawn once
    and is active, in full. *)
Lemma grok_step_exit E u s :
  grok_inv (session s) -> AppGrok.conversation_active (session s) = true ->
  Py.any_in AppGrok.exit_keywords (Py.lower (Py.strip u)) = true ->
  let raw := Py.strip u in
  let farewell_msg := grok_text E "Generate farewell" AppGrok.SYSTEM_PROMPTS_farewell (world s) in
  let w1 := grok_world E "Generate farewell" AppGrok.SYSTEM_PROMPTS_farewell (world s) in
  let saved := grok_save_outcome E (AppGrok.candidate_data (session s)) w1 in
  AppGrok.step E s (Submit u)
  = mkSys (AppGrok.set_conversation_active false
             (AppGrok.append_message assistant (fst saved)
                (AppGrok.append_message assistant farewell_msg
                   (AppGrok.append_message user raw
                      (AppGrok.set_last_user_message raw (session s))))))
          (add_banner info AppGrok.COMPLETED_INFO (snd saved)).
Proof.
  intros Hinv Ha Hx. cbv zeta.
  assert (Hg : AppGrok.stage (session s) <> greeting) by apply Hinv.
  assert (Hd : AppGrok.last_user_message (session s) <> Some (Py.strip u)).
  { intros Hl. destruct Hinv as (_ & _ & _ & Hk). specialize (Hk Ha _ Hl). congruence. }
  rewrite (grok_step_accepted E u s Hg Ha (grok_keyword_nonempty _ Hx) Hd).
  rewrite (grok_exit_turn E _ _ Hx). cbn [snd].
  unfold AppGrok.rerun, bind. rewrite grok_ensure_ok.
  rewrite grok_ensure_idle by (destruct s as [[] ?]; exact Hg).
  grok_exec. unfold grok_accept, add_banner. 
  destruct s as [[msgs d i n a q g gr l] w]. grok_exec. reflexivity.
Qed.

(** ** Without an exit keyword, only the fifth answer ends the conversation *)

Lemma app_stage_keeps_active E u s :
  App.conversation_active (session s) = true ->
  App.conversation_active (session (snd (App.stage_based_processing E u s))) = false ->
  App.stage (session s) = technical_questions /\
  5 <= App.tech_questions_asked (session s) + 1.
Proof.
  destruct s as [[msgs d g n a q] w].
  cbn [session App.conversation_active App.stage App.tech_questions_asked].
  intros ->. unfold App.stage_based_processing. app_run.
  all: try (intros; discriminate).
  all: intros _; split; [reflexivity|].
  all: repeat match goal with
         | H : (_ <? _)%nat = false |- _ => apply Nat.ltb_ge in H
         end; assumption.
Qed.

Lemma grok_route_keeps_active E raw s :
  AppGrok.stage (session s) = collect_info \/
  AppGrok.stage (session s) = technical_questions ->
  AppGrok.conversation_active (session s) = true ->
  AppGrok.conversation_active (session (snd (AppGrok.route_by_stage E raw s))) = false ->
  AppGrok.stage (session s) = technical_questions /\
  5 <= AppGrok.tech_questions_asked (session s) + 1.
Proof.
  destruct s as [[msgs d i n a q g gr l] w].
  cbn [session AppGrok.conversation_active AppGrok.stage AppGrok.tech_questions_asked].
  intros Hs ->.
  unfold AppGrok.route_by_stage, AppGrok.process_user_input_info,
    AppGrok.process_user_input_technical, AppGrok.ask_next_info_field.
  grok_run.
  all: try (intros; discriminate).
  all: try (destruct Hs; discriminate).
  all: intros _; split; [reflexivity|].
  all: repeat match goal with
         | H : (_ <? _)%nat = false |- _ => apply Nat.ltb_ge in H
         end; assumption.
Qed.

(** ** Repeated submissions in [app_grok.py] *)

Lemma grok_submit_duplicate E u s :
  AppGrok.last_user_message (session s) = Some (Py.strip u) ->
  exists k text,
    AppGrok.on_submit E u s = (Ok tt, mkSys (session s) (add_banner k text (world s))).
Proof.
  intros Hl. unfold AppGrok.on_submit, add_banner. grok_exec.
  destruct (Py.is_empty (Py.strip u)); grok_exec; [eauto|].
  rewrite Hl, String.eqb_refl. grok_exec. eauto.
Qed.

Lemma grok_step_last E u s :
  grok_inv (session s) -> AppGrok.conversation_active (session s) = true ->
  Py.is_empty (Py.strip u) = false ->
  AppGrok.last_user_message (session (AppGrok.step E s (Submit u))) = Some (Py.strip u).
Proof.
  intros Hinv Ha He.
  assert (Hg : AppGrok.stage (session s) <> greeting) by apply Hinv.
  assert (Hdec : {AppGrok.last_user_message (session s) = Some (Py.strip u)} + {AppGrok.last_user_message (session s) <> Some (Py.strip u)}) by (repeat decide equality).
  destruct Hdec
    as [Hl|Hl].
  - rewrite (grok_step_ignored E u s Hg); auto.
  - rewrite (grok_step_accepted E u s Hg Ha He Hl), grok_rerun_session.
    pose proof (grok_dispatch_facts E (Py.strip u) (grok_accept (Py.strip u) s))
      as (_ & _ & _ & _ & F5 & F6 & _).
    rewrite grok_ensure_idle by (apply F6; exact Hg).
    rewrite F5. reflexivity.
Qed.

Lemma grok_step_twice E u s :
  grok_inv (session s) ->
  session (AppGrok.step E (AppGrok.step E s (Submit u)) (Submit u))
  = session (AppGrok.step E s (Submit u)).
Proof.
  intros Hinv.
  pose proof (grok_step_inv E (Submit u) s Hinv) as Hinv1.
  assert (Hg : AppGrok.stage (session s) <> greeting) by apply Hinv.
  assert (Hg1 : AppGrok.stage (session (AppGrok.step E s (Submit u))) <> greeting)
    by apply Hinv1.
  apply (grok_step_ignored E u _ Hg1).
  destruct (AppGrok.conversation_active (session s)) eqn:Ha.
  - destruct (Py.is_empty (Py.strip u)) eqn:He; [auto|].
    right; right. apply grok_step_last; assumption.
  - left. rewrite (grok_step_ignored E u s Hg); auto.
Qed.

(* ===================================================================== *)
(** * The file a record is saved to                                        *)
(* ===================================================================== *)

(** ** Names of files *)

Lemma plain_name_app a b : plain_name (a ++ b) = plain_name a && plain_name b.
Proof.
  induction a as [|c a IH]; [reflexivity|].
  cbn [append plain_name]. rewrite IH, andb_assoc. reflexivity.
Qed.

(** A text holds a separator exactly when it is no plain name. *)
Lemma plain_name_contains s :
  plain_name s
  = negb (Py.contains "/" s) && negb (Py.contains (String "092"%char EmptyString) s).
Proof.
  induction s as [|c s IH]; [reflexivity|].
  assert (Hp : prefix EmptyString s = true) by (destruct s; reflexivity).
  cbn [plain_name Py.contains prefix]. rewrite IH, Hp.
  destruct (Ascii.ascii_dec "/" c) as [<-|H1]; [reflexivity|].
  destruct (Ascii.ascii_dec "092" c) as [<-|H2];
    [cbn [orb negb]; rewrite andb_false_r; reflexivity|].
  assert (Hs : is_separator c = false).
  { unfold is_separator. cbv zeta. apply orb_false_iff.
    split; apply Nat.eqb_neq; intros Hn.
    - apply H1. rewrite <- (ascii_nat_embedding c), Hn. reflexivity.
    - apply H2. rewrite <- (ascii_nat_embedding c), Hn. reflexivity. }
  rewrite Hs. cbn [negb orb andb]. reflexivity.
Qed.

Lemma plain_name_replace s :
  plain_name s = true -> plain_name (Py.replace_char " " "_" s) = true.
Proof.
  induction s as [|c s IH]; [reflexivity|].
  cbn [plain_name Py.replace_char]. intros H. apply andb_prop in H.
  destruct H as [Hc Hs]. rewrite plain_name_app, (IH Hs), andb_true_r.
  destruct (Ascii.eqb c " "); [reflexivity|]. cbn [plain_name]. rewrite Hc. reflexivity.
Qed.

Lemma plain_name_digits d : plain_name (NilEmpty.string_of_uint d) = true.
Proof.
  induction d; cbn [NilEmpty.string_of_uint plain_name]; rewrite ?IHd; reflexivity.
Qed.

Lemma plain_name_uint d : plain_name (NilZero.string_of_uint d) = true.
Proof. destruct d; try apply plain_name_digits. reflexivity. Qed.

Lemma plain_name_zfill w n : plain_name (Py.zfill w n) = true.
Proof.
  unfold Py.zfill, Py.str_nat. cbv zeta. rewrite plain_name_app, plain_name_uint, andb_true_r.
  induction (w - _) as [|k IH]; [reflexivity | exact IH].
Qed.

Lemma plain_name_strftime t : plain_name (strftime_compact t) = true.
Proof.
  unfold strftime_compact. rewrite !plain_name_app, !plain_name_zfill. reflexivity.
Qed.

(** The file [app_grok.py] saves to lies directly in the directory
    candidate_data whenever the name holds no separator. *)
Lemma grok_save_filename_plain d t :
  plain_name (AppGrok.or_default (cd_name d) "unknown") = true ->
  exists file,
    AppGrok.save_filename d t = "candidate_data/" ++ file /\ plain_name file = true.
Proof.
  intros H. unfold AppGrok.save_filename. cbv zeta. eexists. split; [reflexivity|].
  rewrite !plain_name_app, (plain_name_replace _ H), plain_name_strftime. reflexivity.
Qed.

(* ===================================================================== *)
(** * The claims                                                           *)
(* ===================================================================== *)

(** C1.  In both files, along every session and between any two of its
    points with no restart in between: the stage never moves back in the
    order greeting, collect_info, technical_questions, farewell; and once
    the stage is technical_questions or later, the seven information
    fields of [candidate_data] keep their values whatever the user
    submits. *)
Theorem C1_stage_order_and_frozen_fields E w before evs :
  no_restart evs ->
  let a := App.run E before (App.boot E w) in
  let a' := App.run E evs a in
  let g := AppGrok.run E before (AppGrok.boot E w) in
  let g' := AppGrok.run E evs g in
  (stage_rank (App.stage (session a)) <= stage_rank (App.stage (session a')) /\
   (2 <= stage_rank (App.stage (session a)) ->
    forall f, get_field f (App.candidate_data (session a'))
              = get_field f (App.candidate_data (session a)))) /\
  (stage_rank (AppGrok.stage (session g)) <= stage_rank (AppGrok.stage (session g')) /\
   (2 <= stage_rank (AppGrok.stage (session g)) ->
    forall f, get_field f (AppGrok.candidate_data (session g'))
              = get_field f (AppGrok.candidate_data (session g)))).
Proof.
  intros Hn. cbv zeta. split.
  - destruct (app_run_order E evs (App.run E before (App.boot E w)) Hn) as (H1 & _ & H3).
    split; [exact H1 | exact H3].
  - pose proof (grok_run_inv E before _ (grok_inv_boot E w)) as Hinv.
    destruct (grok_run_order E evs _ Hn Hinv) as (H1 & _ & H3).
    split; [exact H1 | exact H3].
Qed.

(** A whole interview: after the seven fields the stage is
    technical_questions in both files, and five answers later the name is
    still the one given. *)
Lemma C1_stage_order_and_frozen_fields_witness :
  stage_rank (App.stage (session (App.run online (Submit "hello" :: seven_answers)
                                          (App.boot online world0))))
  <= stage_rank (App.stage (session (App.run online five_answers
             (App.run online (Submit "hello" :: seven_answers) (App.boot online world0))))) /\
  get_field Name (AppGrok.candidate_data (session (AppGrok.run online five_answers
             (AppGrok.run online seven_answers (AppGrok.boot online world0)))))
  = Some "Ada Lovelace".
Proof.
  pose proof (C1_stage_order_and_frozen_fields online world0
                (Submit "hello" :: seven_answers) five_answers eq_refl) as (HA & _).
  pose proof (C1_stage_order_and_frozen_fields online world0
                seven_answers five_answers eq_refl) as (_ & _ & HG).
  split; [exact (proj1 HA)|].
  rewrite (HG ltac:(vm_compute; lia) Name). vm_compute. reflexivity.
Defined.

(** C2.  At every point of every session (any list of user actions after
    the first drawing of the page, restarts included), in both files: the
    counter [tech_questions_asked] is the number of stored technical
    answers, their [question_number]s are 1, 2, 3, ... in the order they
    were appended, and the counter is 5 at most. *)
Theorem C2_counter_matches_answers E w evs :
  let a := session (App.run E evs (App.boot E w)) in
  let g := session (AppGrok.run E evs (AppGrok.boot E w)) in
  (App.tech_questions_asked a = length (technical_answers (App.candidate_data a)) /\
   map question_number (technical_answers (App.candidate_data a))
   = seq 1 (App.tech_questions_asked a) /\
   App.tech_questions_asked a <= 5) /\
  (AppGrok.tech_questions_asked g = length (technical_answers (AppGrok.candidate_data g)) /\
   map question_number (technical_answers (AppGrok.candidate_data g))
   = seq 1 (AppGrok.tech_questions_asked g) /\
   AppGrok.tech_questions_asked g <= 5).
Proof.
  cbv zeta. split.
  - destruct (app_run_counter E evs _ (app_boot_counter E w)) as ((H1 & H2) & H3 & _).
    auto.
  - destruct (grok_run_inv E evs _ (grok_inv_boot E w)) as (((H1 & H2) & H3 & _) & _).
    auto.
Qed.

(** C3.  In both files, at every point of every session the fields of
    [candidate_data] that are set are the first ones of the declared
    order name, email, phone, experience, position, location, tech_stack
    ([filled_prefix]; field by field: the one at position j is set
    exactly when j is below the number of fields collected),
    and a field that is set keeps its value (empty or not) whatever the
    user submits later, as long as nothing is restarted.  A collecting
    turn stores into the first unset field and asks for the field after
    it; the first question asks for the first unset field. *)
Theorem C3_fields_in_order_set_once E w before evs :
  no_restart evs ->
  let a := App.run E before (App.boot E w) in
  let g := AppGrok.run E before (AppGrok.boot E w) in
  let i := AppGrok.current_field_index (session g) in
  ((exists k, filled_prefix k (App.candidate_data (session a))) /\
   filled_prefix i (AppGrok.candidate_data (session g))) /\
  ((exists k, forall j f, nth_error FIELD_ORDER j = Some f ->
                (j < k <-> get_field f (App.candidate_data (session a)) <> None)) /\
   (forall j f, nth_error FIELD_ORDER j = Some f ->
                (j < i <-> get_field f (AppGrok.candidate_data (session g)) <> None))) /\
  (no_overwrite (App.candidate_data (session a))
                (App.candidate_data (session (App.run E evs a))) /\
   no_overwrite (AppGrok.candidate_data (session g))
                (AppGrok.candidate_data (session (AppGrok.run E evs g)))) /\
  (forall u k f,
      Py.any_in App.exit_keywords (Py.strip (Py.lower u)) = false ->
      filled_prefix k (App.candidate_data (session a)) ->
      nth_error FIELD_ORDER k = Some f ->
      let a1 := session (snd (App.process_user_input E u a)) in
      (App.stage (session a) = greeting ->
       App.candidate_data a1 = App.candidate_data (session a) /\
       App.messages a1
       = (App.messages (session a)
          ++ [mkMessage assistant
                (app_text E ("Ask for candidate's " ++ field_key f
                             ++ ". Be friendly and professional.")
                          App.SYSTEM_PROMPTS_collect_info (world a))])%list) /\
      (App.stage (session a) = collect_info ->
       let info := App.extract_info_from_response u f in
       App.candidate_data a1 = set_field f info (App.candidate_data (session a)) /\
       filled_prefix (S k) (App.candidate_data a1) /\
       forall nxt, nth_error FIELD_ORDER (S k) = Some nxt ->
         App.messages a1
         = (App.messages (session a)
            ++ [mkMessage assistant
                  (app_text E (app_next_prompt f info nxt)
                            App.SYSTEM_PROMPTS_collect_info (world a))])%list)) /\
  (AppGrok.messages (session (AppGrok.boot E w))
   = [mkMessage assistant
        (grok_text E "Greet the candidate for a hiring interview"
                   AppGrok.SYSTEM_PROMPTS_greeting w);
      mkMessage assistant
        (grok_text E (grok_first_prompt Name) AppGrok.SYSTEM_PROMPTS_collect_info
           (grok_world E "Greet the candidate for a hiring interview"
                       AppGrok.SYSTEM_PROMPTS_greeting w))]) /\
  (forall raw f,
      AppGrok.stage (session g) = collect_info ->
      Py.any_in AppGrok.exit_keywords (Py.lower raw) = false ->
      nth_error FIELD_ORDER i = Some f ->
      let g1 := session (snd (AppGrok.dispatch E raw g)) in
      AppGrok.candidate_data g1
      = set_field f (Py.strip raw) (AppGrok.candidate_data (session g)) /\
      AppGrok.current_field_index g1 = i + 1 /\
      filled_prefix (i + 1) (AppGrok.candidate_data g1) /\
      forall nxt, nth_error FIELD_ORDER (i + 1) = Some nxt ->
        AppGrok.messages g1
        = (AppGrok.messages (session g)
           ++ [mkMessage assistant
                 (grok_text E (grok_next_prompt nxt) AppGrok.SYSTEM_PROMPTS_collect_info
                            (world g))])%list).
Proof.
  intros Hn. cbv zeta.
  set (a := App.run E before (App.boot E w)).
  set (g := AppGrok.run E before (AppGrok.boot E w)).
  pose proof (grok_run_inv E before _ (grok_inv_boot E w)) as Hinv. fold g in Hinv.
  assert (Hp : filled_prefix (AppGrok.current_field_index (session g))
                 (AppGrok.candidate_data (session g))) by apply Hinv.
  split; [split; [apply app_run_prefix, app_boot_prefix | exact Hp]|].
  split.
  { split.
    - destruct (app_run_prefix E before _ (app_boot_prefix E w)) as [k Hk].
      exists k. intros j f. apply filled_prefix_nth. exact Hk.
    - intros j f. apply filled_prefix_nth. exact Hp. }
  split; [split; [apply (app_run_order E evs a Hn)
                 | apply (grok_run_order E evs g Hn Hinv)]|].
  split; [|split].
  - intros u k f Hx Hk Hf.
    assert (Hm : App.missing_field (App.candidate_data (session a)) = Some f)
      by (rewrite (filled_prefix_missing _ _ Hk); exact Hf).
    split.
    + intros Hs. destruct (app_greeting_turn E u a Hs Hx) as (_ & H2 & H3).
      split; [exact H2|]. rewrite H3, Hm. reflexivity.
    + intros Hs. destruct (app_collect_turn E u a f Hs Hx Hm) as (H1 & _ & H3 & _).
      cbv zeta in H1, H3. split; [exact H1|].
      pose proof (filled_prefix_set k _ f (App.extract_info_from_response u f) Hk Hf) as Hk'.
      split; [rewrite H1; exact Hk'|].
      intros nxt Hnxt. apply H3. rewrite (filled_prefix_missing _ _ Hk'). exact Hnxt.
  - unfold AppGrok.boot, AppGrok.step, AppGrok.script, AppGrok.ensure_greeting,
      AppGrok.handle_greeting_stage, AppGrok.ask_next_info_field.
    grok_exec. cbn [nth_error FIELD_ORDER]. grok_exec. reflexivity.
  - intros raw f Hs Hx Hf.
    destruct (grok_collect_turn E raw g f Hs Hx Hf) as (H1 & H2 & _ & H4 & _).
    cbv zeta in H1, H2, H4. split; [exact H1|]. split; [exact H2|].
    split; [|intros nxt Hnxt; apply (H4 nxt Hnxt)].
    rewrite H1, Nat.add_1_r. apply filled_prefix_set; assumption.
Qed.

(** The second answer of an interview goes to the e-mail field, in both
    files, and the name stays. *)
Lemma C3_fields_in_order_set_once_witness :
  let a := App.run online [Submit "hello"; Submit "Ada Lovelace"] (App.boot online world0) in
  let g := AppGrok.run online [Submit "Ada Lovelace"] (AppGrok.boot online world0) in
  (App.candidate_data (session (snd (App.process_user_input online " ada@example.org " a)))
   = set_field Email "ada@example.org" (App.candidate_data (session a)) /\
   get_field Name (App.candidate_data (session (App.run online five_answers a)))
   = Some "Ada Lovelace") /\
  (AppGrok.candidate_data (session (snd (AppGrok.dispatch online "ada@example.org" g)))
   = set_field Email "ada@example.org" (AppGrok.candidate_data (session g)) /\
   get_field Name (AppGrok.candidate_data (session (AppGrok.run online five_answers g)))
   = Some "Ada Lovelace").
Proof.
  cbv zeta.
  pose proof (C3_fields_in_order_set_once online world0
                [Submit "hello"; Submit "Ada Lovelace"] five_answers eq_refl)
    as (_ & _ & (HA1 & _) & HA2 & _).
  pose proof (C3_fields_in_order_set_once online world0
                [Submit "Ada Lovelace"] five_answers eq_refl)
    as (_ & _ & (_ & HG1) & _ & _ & HG2).
  cbv zeta in HA1, HA2, HG1, HG2.
  split; split.
  - destruct (HA2 " ada@example.org " 1 Email eq_refl eq_refl eq_refl) as (_ & H).
    exact (proj1 (H eq_refl)).
  - apply HA1. reflexivity.
  - exact (proj1 (HG2 "ada@example.org" Email eq_refl eq_refl eq_refl)).
  - apply HG1. reflexivity.
Defined.

(** C4 as the spec states it fails on [app.py]: the input no thanks holds
    none of the six keywords and still takes the exit shortcut, here in
    the middle of the collection, after the name only. *)
Lemma C4_exit_shortcut_counterexample :
  let a := App.run online [Submit "hello"; Submit "Ada Lovelace"] (App.boot online world0) in
  let a' := App.step online a (Submit "no thanks") in
  Py.any_in ["bye"; "goodbye"; "exit"; "quit"; "end"; "stop"] (Py.lower "no thanks") = false /\
  App.stage (session a) = collect_info /\
  App.conversation_active (session a) = true /\
  App.stage (session a') = farewell /\
  App.conversation_active (session a') = false /\
  get_field Email (App.candidate_data (session a')) = None /\
  map fst (files (world a')) = ["candidate_20240102_030405.json"].
Proof. vm_compute. repeat split. Qed.

(** C4, amended.  The exit shortcut is taken exactly when the trimmed,
    lowercased input contains one of the keywords of the file at hand:
    bye, goodbye, exit, quit, end, stop in [app_grok.py], and these six
    together with no thanks and that's all in [app.py].  When it is
    taken, a farewell message is asked for and appended, [candidate_data]
    is saved as it stands and [conversation_active] becomes false; no
    field is stored, no answer appended ([app.py] also sets the stage to
    farewell, [app_grok.py] leaves the stage).  When it is not taken, the
    turn is the stage's own, and the conversation can only end by the
    fifth technical answer. *)
Theorem C4_exit_shortcut E u :
  (forall s,
      Py.any_in App.exit_keywords (Py.strip (Py.lower u)) = true ->
      let farewell_msg := app_text E "Generate farewell message"
                                   App.SYSTEM_PROMPTS_farewell (world s) in
      let w1 := app_world E "Generate farewell message" App.SYSTEM_PROMPTS_farewell
                          (world s) in
      App.process_user_input E u s
      = (Ok tt,
         mkSys (App.set_conversation_active false
                  (App.append_message assistant farewell_msg
                     (App.set_stage farewell (session s))))
               (app_save_world E (App.candidate_data (session s)) w1))) /\
  (forall s,
      Py.any_in App.exit_keywords (Py.strip (Py.lower u)) = false ->
      App.process_user_input E u s = App.stage_based_processing E u s /\
      (App.conversation_active (session s) = true ->
       App.conversation_active (session (snd (App.process_user_input E u s))) = false ->
       App.stage (session s) = technical_questions /\
       5 <= App.tech_questions_asked (session s) + 1)) /\
  (forall w before,
      let g := AppGrok.run E before (AppGrok.boot E w) in
      AppGrok.conversation_active (session g) = true ->
      Py.any_in AppGrok.exit_keywords (Py.lower (Py.strip u)) = true ->
      let raw := Py.strip u in
      let farewell_msg := grok_text E "Generate farewell" AppGrok.SYSTEM_PROMPTS_farewell
                                    (world g) in
      let w1 := grok_world E "Generate farewell" AppGrok.SYSTEM_PROMPTS_farewell (world g) in
      let saved := grok_save_outcome E (AppGrok.candidate_data (session g)) w1 in
      AppGrok.step E g (Submit u)
      = mkSys (AppGrok.set_conversation_active false
                 (AppGrok.append_message assistant (fst saved)
                    (AppGrok.append_message assistant farewell_msg
                       (AppGrok.append_message user raw
                          (AppGrok.set_last_user_message raw (session g))))))
              (add_banner info AppGrok.COMPLETED_INFO (snd saved))) /\
  (forall s,
      Py.any_in AppGrok.exit_keywords (Py.lower (Py.strip u)) = false ->
      AppGrok.dispatch E (Py.strip u) s = AppGrok.route_by_stage E (Py.strip u) s /\
      (AppGrok.stage (session s) = collect_info \/
       AppGrok.stage (session s) = technical_questions ->
       AppGrok.conversation_active (session s) = true ->
       AppGrok.conversation_active (session (snd (AppGrok.dispatch E (Py.strip u) s))) = false ->
       AppGrok.stage (session s) = technical_questions /\
       5 <= AppGrok.tech_questions_asked (session s) + 1)).
Proof.
  split; [|split; [|split]].
  - intros s Hx. cbv zeta. unfold App.process_user_input. rewrite Hx.
    apply app_exit_run.
  - intros s Hx. unfold App.process_user_input. rewrite Hx.
    split; [reflexivity | apply app_stage_keeps_active].
  - intros w before g Ha Hx.
    apply (grok_step_exit E u g); [|exact Ha|exact Hx].
    apply grok_run_inv, grok_inv_boot.
  - intros s Hx. unfold AppGrok.dispatch. rewrite Hx.
    split; [reflexivity | apply grok_route_keeps_active].
Qed.

(** Quit, typed in capitals after the name and the e-mail: both files end
    the conversation with the three other fields unset; an ordinary
    e-mail address does not end it. *)
Lemma C4_exit_shortcut_witness :
  let a := App.run online [Submit "hello"; Submit "Ada"; Submit "a@b.c"]
             (App.boot online world0) in
  let g := AppGrok.run online [Submit "Ada"; Submit "a@b.c"] (AppGrok.boot online world0) in
  (App.conversation_active (session (snd (App.process_user_input online " QUIT " a))) = false /\
   get_field Phone (App.candidate_data (session (snd (App.process_user_input online " QUIT " a))))
   = None) /\
  snd (App.process_user_input online "x@y.z" a) = snd (App.stage_based_processing online "x@y.z" a) /\
  (AppGrok.conversation_active (session (AppGrok.step online g (Submit " QUIT "))) = false /\
   map fst (files (world (AppGrok.step online g (Submit " QUIT "))))
   = ["candidate_data/Ada_20240102_030405.json"]) /\
  snd (AppGrok.dispatch online "x@y.z" g) = snd (AppGrok.route_by_stage online "x@y.z" g).
Proof.
  intros a g.
  pose proof (C4_exit_shortcut online " QUIT ") as (H1 & _ & H3 & _).
  pose proof (C4_exit_shortcut online "x@y.z") as (_ & H2 & _ & H4).
  specialize (H1 a eq_refl). cbv zeta in H1.
  specialize (H3 world0 [Submit "Ada"; Submit "a@b.c"] eq_refl eq_refl). cbv zeta in H3.
  fold g in H3.
  split; [rewrite H1; split; reflexivity|].
  split; [rewrite (proj1 (H2 a eq_refl)); reflexivity|].
  split; [rewrite H3; split; reflexivity|].
  change "x@y.z" with (Py.strip "x@y.z").
  rewrite (proj1 (H4 g eq_refl)). reflexivity.
Defined.

(** C5.  The text-generation call of either file ([call_llm],
    [call_groq_api]) returns a text for every prompt, system instruction
    and world, and raises nothing: every exception of class [Exception]
    raised inside is turned into a text by the handler.  When the
    credential resolves to the empty text (no environment variable, no
    secret) the text is the warning and nothing is sent; when the one
    request that is sent raises, the text describes the error.  A call
    sends one request at most, so nothing is retried. *)
Theorem C5_generation_returns_text E prompt system_prompt w :
  (exists txt w',
      App.call_llm E prompt system_prompt w = (Ok txt, w') /\
      one_request_at_most (app_request prompt system_prompt) w w') /\
  (import_openai E = Ok tt -> resolved_key E "OPENAI_API_KEY" = Ok EmptyString ->
   App.call_llm E prompt system_prompt w = (Ok App.API_KEY_WARNING, w)) /\
  (forall key e,
      import_openai E = Ok tt -> resolved_key E "OPENAI_API_KEY" = Ok key ->
      Py.is_empty key = false ->
      complete E (length (sent w)) (app_request prompt system_prompt) = Raise e ->
      App.call_llm E prompt system_prompt w
      = (Ok (app_error_text e), log_request (app_request prompt system_prompt) w)) /\
  (exists txt w',
      AppGrok.call_groq_api E prompt system_prompt w = (Ok txt, w') /\
      one_request_at_most (grok_request prompt system_prompt) w w') /\
  (resolved_key E "GROQ_API_KEY" = Ok EmptyString ->
   AppGrok.call_groq_api E prompt system_prompt w = (Ok AppGrok.API_KEY_WARNING, w)) /\
  (forall key e,
      resolved_key E "GROQ_API_KEY" = Ok key -> Py.is_empty key = false ->
      complete E (length (sent w)) (grok_request prompt system_prompt) = Raise e ->
      AppGrok.call_groq_api E prompt system_prompt w
      = (Ok (grok_error_text e), log_request (grok_request prompt system_prompt) w)).
Proof.
  split; [|split; [|split; [|split; [|split]]]].
  - exists (app_text E prompt system_prompt w), (app_world E prompt system_prompt w).
    split; [apply app_call_eq | apply app_world_log].
  - intros Hi Hk. rewrite app_call_cases. cbv zeta. rewrite Hi, Hk. reflexivity.
  - intros key e Hi Hk Hne Hc. rewrite app_call_cases. cbv zeta.
    rewrite Hi, Hk, Hne, Hc. reflexivity.
  - exists (grok_text E prompt system_prompt w), (grok_world E prompt system_prompt w).
    split; [apply grok_call_eq | apply grok_world_log].
  - intros Hk. rewrite grok_call_cases. cbv zeta. rewrite Hk. reflexivity.
  - intros key e Hk Hne Hc. rewrite grok_call_cases. cbv zeta.
    rewrite Hk, Hne, Hc. reflexivity.
Qed.

(** Without a key both wrappers answer with their warning; with a vendor
    that times out, with the text of their handler, after one request. *)
Lemma C5_generation_returns_text_witness :
  App.call_llm keyless "Greet the candidate" App.SYSTEM_PROMPTS_greeting world0
  = (Ok App.API_KEY_WARNING, world0) /\
  AppGrok.call_groq_api unreachable "Generate farewell" AppGrok.SYSTEM_PROMPTS_farewell world0
  = (Ok "Error connecting to Groq API: timed out",
     log_request (grok_request "Generate farewell" AppGrok.SYSTEM_PROMPTS_farewell) world0).
Proof.
  pose proof (C5_generation_returns_text keyless "Greet the candidate"
                App.SYSTEM_PROMPTS_greeting world0) as (_ & H1 & _).
  pose proof (C5_generation_returns_text unreachable "Generate farewell"
                AppGrok.SYSTEM_PROMPTS_farewell world0) as (_ & _ & _ & _ & _ & H2).
  split.
  - apply H1; reflexivity.
  - apply (H2 "sk-test" (RequestException "timed out")); reflexivity.
Defined.

(** C6 as the spec states it fails on both files.  The file [app.py]
    writes is named from the timestamp alone and lies in the working
    directory: two candidates saved at the same second get the same path,
    which holds no directory.  [app_grok.py] replaces the spaces of the
    name and nothing else: the record of a candidate who gives the name
    ../Ada is saved to candidate_data/../Ada_TIMESTAMP.json, which is no
    file of the directory candidate_data. *)
Lemma C6_record_saved_counterexample :
  let a := App.run online [Submit "hello"; Submit "Ada Lovelace"; Submit "quit"]
             (App.boot online world0) in
  let b := App.run online [Submit "hello"; Submit "Grace Hopper"; Submit "quit"]
             (App.boot online world0) in
  let g := AppGrok.run online [Submit "../Ada"; Submit "quit"]
             (AppGrok.boot online world0) in
  get_field Name (App.candidate_data (session a)) = Some "Ada Lovelace" /\
  get_field Name (App.candidate_data (session b)) = Some "Grace Hopper" /\
  map fst (files (world a)) = ["candidate_20240102_030405.json"] /\
  map fst (files (world b)) = ["candidate_20240102_030405.json"] /\
  Py.contains "/" "candidate_20240102_030405.json" = false /\
  Py.contains "Ada" "candidate_20240102_030405.json" = false /\
  get_field Name (AppGrok.candidate_data (session g)) = Some "../Ada" /\
  map fst (files (world g)) = ["candidate_data/../Ada_20240102_030405.json"] /\
  prefix "candidate_data/../" "candidate_data/../Ada_20240102_030405.json" = true.
Proof. vm_compute. repeat split. Qed.

(** C6, amended.  Both ways of ending the interview, the exit shortcut
    and the fifth answer, run [save_candidate_data], which writes the
    whole of [candidate_data] as JSON with an indentation of 2:
    [app_grok.py] to the path candidate_data/NAME_TIMESTAMP.json, NAME
    being the candidate's name with every space replaced by an underscore
    and nothing else changed (unknown when there is no name) and
    TIMESTAMP the time as YYYYmmdd_HHMMSS; when the name holds no slash
    and no backslash, what follows candidate_data/ holds none either, so
    the file lies directly in the directory candidate_data; [app.py] to
    candidate_TIMESTAMP.json in the working directory, without the
    name.  A failure to create the directory or to open the file is
    caught: nothing is raised, nothing is written, the session record is
    as without the failure, and the error is reported as a text, which
    [app_grok.py] returns for the transcript and [app.py] shows as an
    error notice. *)
Theorem C6_record_saved E (a : Sys App.Session) (g : Sys AppGrok.Session) :
  let da := App.candidate_data (session a) in
  let dg := AppGrok.candidate_data (session g) in
  let path_a := "candidate_" ++ strftime_compact (now E (clock (world a))) ++ ".json" in
  let path_g := "candidate_data/"
                ++ Py.replace_char " " "_" (AppGrok.or_default (cd_name dg) "unknown")
                ++ "_" ++ strftime_compact (now E (clock (world g))) ++ ".json" in
  (* app_grok.py *)
  (AppGrok.save_candidate_data E g
   = (Ok (fst (grok_save_outcome E dg (world g))),
      mkSys (session g) (snd (grok_save_outcome E dg (world g)))) /\
   (makedirs E "candidate_data" = Ok tt -> open_w E path_g = Ok tt ->
    fst (grok_save_outcome E dg (world g)) = "✅ Data saved: `" ++ path_g ++ "`" /\
    files (snd (grok_save_outcome E dg (world g)))
    = (files (world g) ++ [(path_g, Json.dumps 2 (candidate_json dg))])%list) /\
   (forall e,
       makedirs E "candidate_data" = Raise e \/
       (makedirs E "candidate_data" = Ok tt /\ open_w E path_g = Raise e) ->
       fst (grok_save_outcome E dg (world g)) = "Error saving data: " ++ str_exn e /\
       files (snd (grok_save_outcome E dg (world g))) = files (world g)) /\
   (forall raw, Py.any_in AppGrok.exit_keywords (Py.lower raw) = true ->
       world (snd (AppGrok.dispatch E raw g))
       = snd (grok_save_outcome E dg
                (grok_world E "Generate farewell" AppGrok.SYSTEM_PROMPTS_farewell (world g)))) /\
   (forall raw, Py.any_in AppGrok.exit_keywords (Py.lower raw) = false ->
       AppGrok.stage (session g) = technical_questions ->
       5 <= AppGrok.tech_questions_asked (session g) + 1 ->
       exists w0,
         world (snd (AppGrok.dispatch E raw g))
         = snd (grok_save_outcome E
                  (AppGrok.candidate_data (session (snd (AppGrok.dispatch E raw g)))) w0)) /\
   (plain_name (AppGrok.or_default (cd_name dg) "unknown") = true ->
    exists file,
      path_g = "candidate_data/" ++ file /\ plain_name file = true /\
      Py.contains "/" file = false)) /\
  (* app.py *)
  (App.save_candidate_data E a = (Ok tt, mkSys (session a) (app_save_world E da (world a))) /\
   (open_w E path_a = Ok tt ->
    files (app_save_world E da (world a))
    = (files (world a) ++ [(path_a, Json.dumps 2 (candidate_json da))])%list) /\
   (forall e,
       open_w E path_a = Raise e ->
       files (app_save_world E da (world a)) = files (world a) /\
       shown (app_save_world E da (world a))
       = (shown (world a) ++ [(error, ("Error saving data: " ++ str_exn e)%string)])%list) /\
   world (snd (App.exit_shortcut E a))
   = app_save_world E da
       (app_world E "Generate farewell message" App.SYSTEM_PROMPTS_farewell (world a)) /\
   (forall u, Py.any_in App.exit_keywords (Py.strip (Py.lower u)) = false ->
       App.stage (session a) = technical_questions ->
       5 <= App.tech_questions_asked (session a) + 1 ->
       exists w0,
         world (snd (App.process_user_input E u a))
         = app_save_world E
             (App.candidate_data (session (snd (App.process_user_input E u a)))) w0)).
Proof.
  cbv zeta. split.
  - split; [apply grok_save_run|].
    unfold grok_save_outcome, AppGrok.save_filename.
    split; [|split; [|split; [|split]]].
    + intros Hm Ho. rewrite Hm. cbv zeta. rewrite Ho. cbn. auto.
    + intros e [Hm | [Hm Ho]]; rewrite Hm; cbv zeta; [|rewrite Ho]; cbn; auto.
    + intros raw Hx. rewrite (grok_exit_turn E raw g Hx). reflexivity.
    + intros raw Hx Hs H5.
      destruct (grok_technical_turn E raw g Hs Hx) as (_ & H2 & _ & _ & _ & H6).
      cbv zeta in H2, H6. destruct (H6 H5) as (_ & _ & Hw).
      rewrite H2. eexists. exact Hw.
    + intros Hn.
      destruct (grok_save_filename_plain (AppGrok.candidate_data (session g))
                  (now E (clock (world g))) Hn) as (file & Hf & Hp).
      exists file. split; [exact Hf|]. split; [exact Hp|].
      rewrite plain_name_contains in Hp. apply andb_prop in Hp.
      destruct Hp as [Hp _]. now destruct (Py.contains "/" file).
  - split; [apply app_save_run|].
    split; [|split; [|split]].
    + unfold app_save_world, app_save_filename.
      intros Ho. cbv zeta. rewrite Ho. reflexivity.
    + unfold app_save_world, app_save_filename.
      intros e Ho. cbv zeta. rewrite Ho. cbn. auto.
    + rewrite app_exit_run. reflexivity.
    + intros u Hx Hs H5.
      destruct (app_technical_turn E u a Hs Hx) as (_ & H2 & _ & _ & H6).
      cbv zeta in H2, H6. destruct (H6 H5) as (_ & _ & _ & Hw).
      rewrite H2. eexists. exact Hw.
Qed.

(** A candidate who leaves after the name: the path of the file in both
    files, the beginning of what is written, what a disk that refuses the
    file leads to, and the file of [app_grok.py] lying directly in its
    directory. *)
Lemma C6_record_saved_witness :
  let a := App.run online [Submit "hello"; Submit "Ada Lovelace"] (App.boot online world0) in
  let g := AppGrok.run online [Submit "Ada Lovelace"] (AppGrok.boot online world0) in
  let g' := AppGrok.run read_only [Submit "Ada Lovelace"] (AppGrok.boot read_only world0) in
  map fst (files (snd (grok_save_outcome online (AppGrok.candidate_data (session g)) (world g))))
  = ["candidate_data/Ada_Lovelace_20240102_030405.json"] /\
  map (fun f => Py.take 26 (snd f))
      (files (snd (grok_save_outcome online (AppGrok.candidate_data (session g)) (world g))))
  = ["{" ++ nl ++ "  " ++ Json.quote ++ "name" ++ Json.quote ++ ": "
         ++ Json.quote ++ "Ada Lovelace" ++ Json.quote] /\
  map fst (files (app_save_world online (App.candidate_data (session a)) (world a)))
  = ["candidate_20240102_030405.json"] /\
  AppGrok.save_candidate_data read_only g'
  = (Ok "Error saving data: Permission denied", mkSys (session g') (tick (world g'))) /\
  plain_name (AppGrok.or_default (cd_name (AppGrok.candidate_data (session g))) "unknown")
  = true /\
  plain_name "Ada_Lovelace_20240102_030405.json" = true.
Proof.
  intros a g g'.
  pose proof (C6_record_saved online a g) as ((_ & G2 & _ & _ & _ & G6) & (_ & A2 & _)).
  pose proof (C6_record_saved read_only a g') as ((G1 & _) & _).
  cbv zeta in G1, G2, G6, A2.
  destruct (G2 eq_refl eq_refl) as (_ & F).
  split; [rewrite F; reflexivity|]. split; [rewrite F; reflexivity|].
  split; [rewrite (A2 eq_refl); reflexivity|].
  split; [rewrite G1; reflexivity|].
  assert (Hn : plain_name (AppGrok.or_default
                             (cd_name (AppGrok.candidate_data (session g))) "unknown")
               = true) by (vm_compute; reflexivity).
  split; [exact Hn|].
  destruct (G6 Hn) as (file & Hf & Hp & _).
  vm_compute in Hf. injection Hf as <-. exact Hp.
Defined.




(** C8.  In [app_grok.py], a submission whose trimmed text is the last
    accepted one ([last_user_message]) is ignored: the whole session
    record stays as it is (no message appended, no field written, no
    answer appended, stage and counters unchanged), no request is sent
    and no file written; only a notice is shown.  Hence, in every session,
    submitting the same input twice in a row changes nothing the second
    time. *)
Theorem C8_duplicate_submission_ignored E u :
  (forall s,
      AppGrok.last_user_message (session s) = Some (Py.strip u) ->
      fst (AppGrok.on_submit E u s) = Ok tt /\
      session (snd (AppGrok.on_submit E u s)) = session s /\
      sent (world (snd (AppGrok.on_submit E u s))) = sent (world s) /\
      files (world (snd (AppGrok.on_submit E u s))) = files (world s)) /\
  (forall w before,
      let g := AppGrok.step E (AppGrok.run E before (AppGrok.boot E w)) (Submit u) in
      session (AppGrok.step E g (Submit u)) = session g).
Proof.
  split.
  - intros s Hl. destruct (grok_submit_duplicate E u s Hl) as (k & text & ->).
    cbn. auto.
  - intros w before. cbv zeta. apply grok_step_twice, grok_run_inv, grok_inv_boot.
Qed.

(** The e-mail address sent twice: the second click changes nothing. *)
Lemma C8_duplicate_submission_ignored_witness :
  let g := AppGrok.run online [Submit "Ada"; Submit "a@b.c"] (AppGrok.boot online world0) in
  let g1 := AppGrok.step online (AppGrok.run online [Submit "Ada"] (AppGrok.boot online world0))
              (Submit "a@b.c") in
  session (snd (AppGrok.on_submit online " a@b.c" g)) = session g /\
  sent (world (snd (AppGrok.on_submit online " a@b.c" g))) = sent (world g) /\
  session (AppGrok.step online g1 (Submit "a@b.c")) = session g1.
Proof.
  intros g g1.
  pose proof (C8_duplicate_submission_ignored online " a@b.c") as (H1 & _).
  pose proof (C8_duplicate_submission_ignored online "a@b.c") as (_ & H2).
  destruct (H1 g ltac:(vm_compute; reflexivity)) as (_ & S1 & S2 & _).
  split; [exact S1|]. split; [exact S2|].
  exact (H2 world0 [Submit "Ada"]).
Defined.

(** C9.  In the technical_questions stage, for an input without an exit
    keyword, both files append the answer with the next number, ask for
    feedback on it, and then (n being the counter before the turn, which
    in every session is the number of answers stored so far):
    when the answers are now fewer than 5, append the prompt for the next
    question number and leave the conversation active;
    when they are now 5, ask for a farewell message, append it, save
    [candidate_data] and set [conversation_active] to false.  [app.py]
    also moves the stage to farewell; in [app_grok.py] the terminal state
    is the inactive conversation: the stage value stays
    technical_questions and the text returned by the save joins the
    transcript. *)
Theorem C9_fifth_answer_ends_interview E u :
  (forall s,
      App.stage (session s) = technical_questions ->
      Py.any_in App.exit_keywords (Py.strip (Py.lower u)) = false ->
      let n := App.tech_questions_asked (session s) in
      let d' := append_answer (mkAnswer (n + 1) u (isoformat (now E (clock (world s)))))
                              (App.candidate_data (session s)) in
      let feedback_prompt := "Provide brief encouraging feedback on this answer: "
                             ++ Py.take 200 u in
      let feedback := app_text E feedback_prompt App.SYSTEM_PROMPTS_evaluate_answer
                               (tick (world s)) in
      let w2 := app_world E feedback_prompt App.SYSTEM_PROMPTS_evaluate_answer
                          (tick (world s)) in
      let farewell_msg := app_text E "Generate farewell message"
                                   App.SYSTEM_PROMPTS_farewell w2 in
      let w3 := app_world E "Generate farewell message" App.SYSTEM_PROMPTS_farewell w2 in
      let r := App.process_user_input E u s in
      fst r = Ok tt /\
      App.candidate_data (session (snd r)) = d' /\
      App.tech_questions_asked (session (snd r)) = n + 1 /\
      (n + 1 < 5 ->
       App.stage (session (snd r)) = technical_questions /\
       App.conversation_active (session (snd r)) = App.conversation_active (session s) /\
       App.messages (session (snd r))
       = (App.messages (session s)
          ++ [mkMessage assistant feedback;
              mkMessage assistant
                ("Please answer Question " ++ Py.str_nat (n + 1 + 1) ++ ":")])%list /\
       world (snd r) = w2) /\
      (n + 1 = 5 ->
       App.stage (session (snd r)) = farewell /\
       App.conversation_active (session (snd r)) = false /\
       App.messages (session (snd r))
       = (App.messages (session s)
          ++ [mkMessage assistant feedback; mkMessage assistant farewell_msg])%list /\
       world (snd r) = app_save_world E d' w3)) /\
  (forall s,
      AppGrok.stage (session s) = technical_questions ->
      Py.any_in AppGrok.exit_keywords (Py.lower u) = false ->
      let n := AppGrok.tech_questions_asked (session s) in
      let d' := append_answer (mkAnswer (n + 1) u (isoformat (now E (clock (world s)))))
                              (AppGrok.candidate_data (session s)) in
      let feedback_prompt := "Brief encouraging feedback on the answer: "
                             ++ Py.take 200 u ++ "..." in
      let feedback := grok_text E feedback_prompt AppGrok.SYSTEM_PROMPTS_evaluate_answer
                                (tick (world s)) in
      let w2 := grok_world E feedback_prompt AppGrok.SYSTEM_PROMPTS_evaluate_answer
                           (tick (world s)) in
      let farewell_msg := grok_text E "Generate farewell" AppGrok.SYSTEM_PROMPTS_farewell w2 in
      let w3 := grok_world E "Generate farewell" AppGrok.SYSTEM_PROMPTS_farewell w2 in
      let r := AppGrok.dispatch E u s in
      fst r = Ok tt /\
      AppGrok.candidate_data (session (snd r)) = d' /\
      AppGrok.tech_questions_asked (session (snd r)) = n + 1 /\
      AppGrok.stage (session (snd r)) = technical_questions /\
      (n + 1 < 5 ->
       AppGrok.conversation_active (session (snd r))
       = AppGrok.conversation_active (session s) /\
       AppGrok.messages (session (snd r))
       = (AppGrok.messages (session s)
          ++ [mkMessage assistant feedback;
              mkMessage assistant
                (nl ++ "**Please answer Question " ++ Py.str_nat (n + 1 + 1) ++ ":**")])%list /\
       world (snd r) = w2) /\
      (n + 1 = 5 ->
       AppGrok.conversation_active (session (snd r)) = false /\
       AppGrok.messages (session (snd r))
       = (AppGrok.messages (session s)
          ++ [mkMessage assistant feedback; mkMessage assistant farewell_msg;
              mkMessage assistant (fst (grok_save_outcome E d' w3))])%list /\
       world (snd r) = snd (grok_save_outcome E d' w3))) /\
  (forall w before,
      let a := session (App.run E before (App.boot E w)) in
      let g := session (AppGrok.run E before (AppGrok.boot E w)) in
      App.tech_questions_asked a = length (technical_answers (App.candidate_data a)) /\
      AppGrok.tech_questions_asked g
      = length (technical_answers (AppGrok.candidate_data g))).
Proof.
  split; [|split].
  3:{ intros w before. cbv zeta. split.
      - apply (app_run_counter E before _ (app_boot_counter E w)).
      - apply (grok_run_inv E before _ (grok_inv_boot E w)). }
  - intros s Hs Hx. cbv zeta.
    destruct (app_technical_turn E u s Hs Hx) as (H1 & H2 & H3 & H4 & H5).
    cbv zeta in H1, H2, H3, H4, H5.
    split; [exact H1|]. split; [exact H2|]. split; [exact H3|].
    split; [exact H4|]. intros H. apply H5. lia.
  - intros s Hs Hx. cbv zeta.
    destruct (grok_technical_turn E u s Hs Hx) as (H1 & H2 & H3 & H4 & H5 & H6).
    cbv zeta in H1, H2, H3, H4, H5, H6.
    split; [exact H1|]. split; [exact H2|]. split; [exact H3|]. split; [exact H4|].
    split; [exact H5|]. intros H. apply H6. lia.
Qed.

(** The fifth answer of a whole interview ends it and writes the file; the
    fourth does not. *)
Lemma C9_fifth_answer_ends_interview_witness :
  let a4 := App.run online (Submit "hello" :: seven_answers
                            ++ [Submit "a1"; Submit "a2"; Submit "a3"; Submit "a4"])%list
              (App.boot online world0) in
  let g3 := AppGrok.run online (seven_answers ++ [Submit "a1"; Submit "a2"; Submit "a3"])%list
              (AppGrok.boot online world0) in
  (App.stage (session (snd (App.process_user_input online "a5" a4))) = farewell /\
   App.conversation_active (session (snd (App.process_user_input online "a5" a4))) = false /\
   map fst (files (world (snd (App.process_user_input online "a5" a4))))
   = ["candidate_20240102_030410.json"]) /\
  (AppGrok.conversation_active (session (snd (AppGrok.dispatch online "a4" g3))) = true /\
   nth_error (rev (AppGrok.messages (session (snd (AppGrok.dispatch online "a4" g3))))) 0
   = Some (mkMessage assistant (nl ++ "**Please answer Question 5:**"))).
Proof.
  intros a4 g3.
  pose proof (C9_fifth_answer_ends_interview online "a5") as (HA & _).
  pose proof (C9_fifth_answer_ends_interview online "a4") as (_ & HG & _).
  destruct (HA a4 eq_refl eq_refl) as (_ & _ & _ & _ & H5).
  destruct (H5 eq_refl) as (S1 & S2 & _ & S4).
  destruct (HG g3 eq_refl eq_refl) as (_ & _ & _ & _ & H4 & _).
  destruct (H4 ltac:(vm_compute; lia)) as (T1 & T2 & _).
  split; [split; [exact S1 | split; [exact S2 | rewrite S4; reflexivity]]|].
  split; [rewrite T1; reflexivity | rewrite T2; reflexivity].
Defined.

(** C10.  The exit test is containment as a substring, not a match of
    whole words: an input whose trimmed, lowercased text is any text, a
    keyword, any text (so backend, which holds end, or unstoppable, which
    holds stop) takes the exit shortcut in both files, whatever the
    stage: the conversation ends and [candidate_data] is saved as it
    stands.  The list of [app.py] is the six keywords of [app_grok.py]
    followed by no thanks and that's all. *)
Theorem C10_exit_is_substring_match E u k pre post :
  (forall needle hay,
      Py.contains needle hay = true <-> exists a b, hay = a ++ needle ++ b) /\
  (forall s,
      In k App.exit_keywords -> Py.strip (Py.lower u) = pre ++ k ++ post ->
      let r := App.process_user_input E u s in
      fst r = Ok tt /\
      App.conversation_active (session (snd r)) = false /\
      App.candidate_data (session (snd r)) = App.candidate_data (session s) /\
      world (snd r)
      = app_save_world E (App.candidate_data (session s))
          (app_world E "Generate farewell message" App.SYSTEM_PROMPTS_farewell (world s))) /\
  (forall w before,
      let g := AppGrok.run E before (AppGrok.boot E w) in
      AppGrok.conversation_active (session g) = true ->
      In k AppGrok.exit_keywords -> Py.lower (Py.strip u) = pre ++ k ++ post ->
      let g' := AppGrok.step E g (Submit u) in
      AppGrok.conversation_active (session g') = false /\
      AppGrok.candidate_data (session g') = AppGrok.candidate_data (session g) /\
      world g'
      = add_banner info AppGrok.COMPLETED_INFO
          (snd (grok_save_outcome E (AppGrok.candidate_data (session g))
                  (grok_world E "Generate farewell" AppGrok.SYSTEM_PROMPTS_farewell
                              (world g))))) /\
  AppGrok.exit_keywords = ["bye"; "goodbye"; "exit"; "quit"; "end"; "stop"] /\
  App.exit_keywords = (AppGrok.exit_keywords ++ ["no thanks"; "that's all"])%list.
Proof.
  split; [exact contains_split|]. split; [|split; [|split; reflexivity]].
  - intros s Hin Hu. cbv zeta.
    assert (Hx : Py.any_in App.exit_keywords (Py.strip (Py.lower u)) = true).
    { apply (any_in_intro _ k); [exact Hin|]. apply contains_split. eauto. }
    unfold App.process_user_input. rewrite Hx, app_exit_run. cbn. auto.
  - intros w before g Ha Hin Hu. cbv zeta.
    assert (Hx : Py.any_in AppGrok.exit_keywords (Py.lower (Py.strip u)) = true).
    { apply (any_in_intro _ k); [exact Hin|]. apply contains_split. eauto. }
    rewrite (grok_step_exit E u g (grok_run_inv E before _ (grok_inv_boot E w)) Ha Hx).
    cbn. auto.
Qed.

(** Backend as the desired position and unstoppable as an answer end the
    interview in both files, in the middle of the collection. *)
Lemma C10_exit_is_substring_match_witness :
  let a := App.run online [Submit "hello"; Submit "Ada"; Submit "a@b.c"; Submit "1"; Submit "2"]
             (App.boot online world0) in
  let g := AppGrok.run online [Submit "Ada"; Submit "a@b.c"; Submit "1"; Submit "2"]
             (AppGrok.boot online world0) in
  App.stage (session a) = collect_info /\
  App.conversation_active (session (snd (App.process_user_input online "Backend developer" a)))
  = false /\
  get_field Position
    (App.candidate_data (session (snd (App.process_user_input online "Backend developer" a))))
  = None /\
  AppGrok.stage (session g) = collect_info /\
  AppGrok.conversation_active (session (AppGrok.step online g (Submit "I am unstoppable")))
  = false /\
  map fst (files (world (AppGrok.step online g (Submit "I am unstoppable"))))
  = ["candidate_data/Ada_20240102_030405.json"].
Proof.
  intros a g.
  pose proof (C10_exit_is_substring_match online "Backend developer" "end" "back" " developer")
    as (_ & HA & _).
  pose proof (C10_exit_is_substring_match online "I am unstoppable" "stop" "i am un" "pable")
    as (_ & _ & HG & _).
  destruct (HA a ltac:(cbn; tauto) eq_refl) as (_ & A2 & A3 & _).
  destruct (HG world0 [Submit "Ada"; Submit "a@b.c"; Submit "1"; Submit "2"]
              eq_refl ltac:(cbn; tauto) eq_refl) as (G1 & _ & G3).
  fold g in G1, G3.
  split; [reflexivity|]. split; [exact A2|]. split; [rewrite A3; reflexivity|].
  split; [reflexivity|]. split; [exact G1|]. rewrite G3. reflexivity.
Defined.

(* ===================================================================== *)
(** * [app.py]: the sessions that were drawn once                          *)
(* ===================================================================== *)

Lemma ends_with_assistant_nonempty msgs : ends_with_assistant msgs -> msgs <> [].
Proof. intros (b & t & ->). destruct b; discriminate. Qed.

Lemma app_greeting_idle E s :
  App.messages (session s) <> [] -> App.initial_greeting E s = (Ok tt, s).
Proof.
  intros Hm. unfold App.initial_greeting. app_exec.
  destruct (App.messages (session s)); [congruence|]. reflexivity.
Qed.

Lemma app_rerun_drawn E s :
  App.messages (session s) <> [] ->
  App.rerun E s
  = (Ok tt, if App.conversation_active (session s) then s
            else mkSys (session s) (add_banner info App.ENDED_INFO (world s))).
Proof.
  intros Hm. unfold App.rerun, bind. rewrite (app_greeting_idle E s Hm).
  app_exec. destruct (App.conversation_active (session s)); reflexivity.
Qed.

(** A turn only appends: to the transcript, and to the answers. *)
Lemma app_process_appends E u s :
  let s' := session (snd (App.process_user_input E u s)) in
  (exists tail, App.messages s' = (App.messages (session s) ++ tail)%list) /\
  (exists tail, technical_answers (App.candidate_data s')
                = (technical_answers (App.candidate_data (session s)) ++ tail)%list).
Proof.
  destruct s as [[msgs d g n a q] w].
  unfold App.process_user_input, App.stage_based_processing.
  app_run.
  all: rewrite ?answers_set_field; cbn [append_answer technical_answers].
  all: split; [rewrite <- ?app_assoc; eauto using app_nil_r | eauto using app_nil_r].
  all: exists []; now rewrite app_nil_r.
Qed.

Lemma filled_prefix_next k d f v :
  filled_prefix k d -> App.missing_field d = Some f ->
  filled_prefix (S k) (set_field f v d) /\ k < 7 /\
  (App.missing_field (set_field f v d) = None -> S k = 7) /\
  (App.missing_field (set_field f v d) <> None -> S k < 7).
Proof.
  intros Hk Hm. rewrite (filled_prefix_missing _ _ Hk) in Hm.
  pose proof (filled_prefix_set k d f v Hk Hm) as Hk'.
  pose proof (filled_prefix_le _ _ Hk') as Hle.
  rewrite (filled_prefix_missing _ _ Hk').
  split; [exact Hk'|]. split; [lia|]. split.
  - intros Hn. apply nth_error_None in Hn. cbn in Hn. lia.
  - intros Hn. apply nth_error_Some in Hn. cbn in Hn. lia.
Qed.

Lemma filled_prefix_full k d :
  filled_prefix k d -> App.missing_field d = None -> k = 7.
Proof.
  intros Hk Hm. rewrite (filled_prefix_missing _ _ Hk) in Hm.
  pose proof (filled_prefix_le _ _ Hk). apply nth_error_None in Hm. cbn in Hm. lia.
Qed.

(** Closes one conjunct of [app_stage_inv] from the facts at hand. *)
Ltac stage_fin :=
  intros;
  repeat match goal with
         | H : ?a = ?a -> _ |- _ => specialize (H eq_refl)
         | H : ?P -> _, H' : ?P |- _ => specialize (H H')
         end;
  solve [ assumption | discriminate | reflexivity | lia | congruence
        | exfalso; congruence | split; congruence ].

(** One turn on an active session keeps the relations of [app_stage_inv]
    and leaves the last word to the assistant. *)
Lemma app_process_inv E u s :
  app_stage_inv (session s) -> App.conversation_active (session s) = true ->
  let s' := session (snd (App.process_user_input E u s)) in
  app_stage_inv s' /\ ends_with_assistant (App.messages s').
Proof.
  intros (Hc & (k & Hk & Hg & Hci & Ht & Ha) & Hf) Hact. cbv zeta.
  pose proof (app_process_facts E u s) as (_ & _ & _ & Hcount).
  specialize (Hcount Hc Hact).
  split; [split; [exact Hcount|]|]; clear Hcount Hc.
  - revert Hk Hg Hci Ht Ha Hf Hact.
    destruct s as [[msgs d g n a q] w].
    cbn [session App.stage App.candidate_data App.conversation_active].
    intros Hk Hg Hci Ht Ha Hf ->.
    assert (Hnf : g <> farewell) by (intros ->; destruct Hf as [_ Hf]; now specialize (Hf eq_refl)).
    unfold App.process_user_input, App.stage_based_processing.
    app_run; try congruence.
    all: rewrite ?answers_set_field; cbn [append_answer technical_answers App.candidate_data].
    all: try match goal with
         | Hm : App.missing_field ?d0 = Some ?f |- context [set_field ?f ?v ?d0] =>
             destruct (filled_prefix_next k d0 f v Hk Hm) as (Hk' & Hlt & Hfull & Hmore)
         end.
    all: try (exfalso; specialize (Hci eq_refl);
              pose proof (filled_prefix_full _ _ Hk ltac:(eassumption)); lia).
    all: (split; [|split; congruence]).
    all: first
           [ exists (S k); split; [exact Hk'|];
             repeat match goal with |- _ /\ _ => split end;
             first [ stage_fin | intros; apply Hmore; congruence
                   | intros; apply Hfull; assumption ]
           | exists k; split; [exact Hk|];
             repeat match goal with |- _ /\ _ => split end; stage_fin ].
  - revert Hk Hci Hf Hact.
    destruct s as [[msgs d g n a q] w].
    cbn [session App.stage App.candidate_data App.conversation_active App.messages].
    intros Hk Hci Hf ->.
    assert (Hnf : g <> farewell) by (intros ->; destruct Hf as [_ Hf]; now specialize (Hf eq_refl)).
    unfold App.process_user_input, App.stage_based_processing, ends_with_assistant.
    app_run; try congruence.
    all: try (eexists _, _; reflexivity).
    all: exfalso; specialize (Hci eq_refl);
         pose proof (filled_prefix_full _ _ Hk ltac:(eassumption)); lia.
Qed.

(** One run of the script of [app.py] on a session whose transcript is
    not empty, event by event. *)
Lemma app_step_idle E s :
  App.messages (session s) <> [] -> App.step E s Idle = app_settle s.
Proof.
  intros Hm. unfold App.step, App.script, bind, app_settle.
  rewrite (app_greeting_idle E s Hm). app_exec.
  destruct (App.conversation_active (session s)); app_exec; reflexivity.
Qed.

Lemma app_step_over E s ev :
  App.messages (session s) <> [] -> App.conversation_active (session s) = false ->
  is_restart ev = false -> App.step E s ev = app_settle s.
Proof.
  intros Hm Ha Hr. unfold App.step, App.script, bind, app_settle.
  rewrite (app_greeting_idle E s Hm). app_exec. rewrite Ha. app_exec.
  destruct ev; try discriminate; reflexivity.
Qed.

Lemma app_step_submit E u s :
  App.messages (session s) <> [] -> App.conversation_active (session s) = true ->
  App.step E s (Submit u)
  = if Py.is_empty u then s
    else app_settle (snd (App.process_user_input E u (app_accept u s))).
Proof.
  intros Hm Ha. unfold App.step, App.script, bind.
  rewrite (app_greeting_idle E s Hm). app_exec. rewrite Ha.
  destruct (Py.is_empty u); [reflexivity|]. app_exec.
  fold (App.append_message user u (session s)). fold (app_accept u s).
  rewrite app_process_ok. app_exec.
  rewrite app_rerun_drawn; [reflexivity|].
  destruct (app_process_appends E u (app_accept u s)) as ((tail & ->) & _).
  cbn. destruct (App.messages (session s)); discriminate.
Qed.

Lemma app_step_restart E s :
  App.messages (session s) <> [] ->
  App.step E s ClickRestart
  = if App.conversation_active (session s) then s
    else snd (App.rerun E (mkSys App.init (add_banner info App.ENDED_INFO (world s)))).
Proof.
  intros Hm. unfold App.step, App.script, bind.
  rewrite (app_greeting_idle E s Hm). app_exec.
  destruct (App.conversation_active (session s)); app_exec; [reflexivity|].
  rewrite app_rerun_run. reflexivity.
Qed.

(** The session a new start leads to: [init] with the greeting. *)
Lemma app_fresh E w :
  session (snd (App.rerun E (mkSys App.init w)))
  = App.append_message assistant
      (app_text E "Greet the candidate" App.SYSTEM_PROMPTS_greeting w) App.init.
Proof.
  unfold App.rerun, App.initial_greeting. app_exec. cbn [length Nat.eqb]. app_exec.
  reflexivity.
Qed.

Lemma app_inv_fresh E w : app_inv (session (snd (App.rerun E (mkSys App.init w)))).
Proof.
  rewrite app_fresh. unfold app_inv, app_stage_inv, app_counter_inv, answers_numbered,
    ends_with_assistant.
  cbn. split; [split; [|split]|].
  - repeat split; try lia; discriminate.
  - exists 0. repeat split; try discriminate; try lia; congruence.
  - split; discriminate.
  - exists [], (app_text E "Greet the candidate" App.SYSTEM_PROMPTS_greeting w). reflexivity.
Qed.

Lemma app_settle_session s : session (app_settle s) = session s.
Proof. unfold app_settle. destruct (App.conversation_active (session s)); reflexivity. Qed.

Lemma app_inv_boot E w : app_inv (session (App.boot E w)).
Proof.
  unfold App.boot, App.step, App.script, bind. rewrite app_greeting_run.
  pose proof (app_inv_fresh E w) as H. unfold App.rerun, bind in H.
  rewrite app_greeting_run in H. revert H. app_exec.
  destruct (App.conversation_active _); app_exec; auto.
Qed.

Lemma app_step_inv E ev s : app_inv (session s) -> app_inv (session (App.step E s ev)).
Proof.
  intros Hinv.
  assert (Hm : App.messages (session s) <> [])
    by (apply ends_with_assistant_nonempty, Hinv).
  destruct ev as [|u|].
  - rewrite (app_step_idle E s Hm), app_settle_session. exact Hinv.
  - destruct (App.conversation_active (session s)) eqn:Ha.
    + rewrite (app_step_submit E u s Hm Ha).
      destruct (Py.is_empty u); [exact Hinv|]. rewrite app_settle_session.
      destruct Hinv as (Hs & _).
      apply (app_process_inv E u (app_accept u s)); [exact Hs | exact Ha].
    + rewrite (app_step_over E s (Submit u) Hm Ha eq_refl), app_settle_session.
      exact Hinv.
  - rewrite (app_step_restart E s Hm).
    destruct (App.conversation_active (session s)); [exact Hinv | apply app_inv_fresh].
Qed.

Lemma app_run_inv E evs s : app_inv (session s) -> app_inv (session (App.run E evs s)).
Proof.
  revert s. induction evs as [|ev evs IH]; intros s H; [exact H|].
  cbn [App.run fold_left]. apply IH, app_step_inv, H.
Qed.

Lemma app_reach_inv E w evs : app_inv (session (App.run E evs (App.boot E w))).
Proof. apply app_run_inv, app_inv_boot. Qed.

(* ===================================================================== *)
(** * [app_grok.py]: the sessions that were drawn once                     *)
(* ===================================================================== *)

Lemma grok_rerun_drawn E s :
  AppGrok.stage (session s) <> greeting ->
  AppGrok.rerun E s = (Ok tt, grok_settle s).
Proof.
  intros Hg. unfold AppGrok.rerun, bind, grok_settle.
  rewrite grok_ensure_ok, (grok_ensure_idle E s Hg). grok_exec.
  destruct (AppGrok.conversation_active (session s)); grok_exec; [|reflexivity].
  destruct s; reflexivity.
Qed.

Lemma grok_step_idle E s :
  AppGrok.stage (session s) <> greeting -> AppGrok.step E s Idle = grok_settle s.
Proof.
  intros Hg. unfold AppGrok.step, AppGrok.script, bind, grok_settle.
  rewrite grok_ensure_ok, (grok_ensure_idle E s Hg). grok_exec.
  destruct (AppGrok.conversation_active (session s)); grok_exec; reflexivity.
Qed.

Lemma grok_step_done E s ev :
  AppGrok.stage (session s) <> greeting ->
  AppGrok.conversation_active (session s) = false ->
  is_restart ev = false -> AppGrok.step E s ev = grok_settle s.
Proof.
  intros Hg Ha Hr. unfold AppGrok.step, AppGrok.script, bind, grok_settle.
  rewrite grok_ensure_ok, (grok_ensure_idle E s Hg). grok_exec. rewrite Ha. grok_exec.
  destruct ev; try discriminate; reflexivity.
Qed.

Lemma grok_step_restart E s :
  AppGrok.stage (session s) <> greeting ->
  AppGrok.step E s ClickRestart
  = if AppGrok.conversation_active (session s) then s
    else snd (AppGrok.rerun E
                (mkSys AppGrok.init (add_banner info AppGrok.COMPLETED_INFO (world s)))).
Proof.
  intros Hg. unfold AppGrok.step, AppGrok.script, bind.
  rewrite grok_ensure_ok, (grok_ensure_idle E s Hg). grok_exec.
  destruct (AppGrok.conversation_active (session s)); grok_exec; [reflexivity|].
  unfold AppGrok.restart. grok_exec. rewrite grok_rerun_ok. reflexivity.
Qed.

(** A click on Send, on a session that was drawn and is active. *)
Lemma grok_step_send E u s :
  AppGrok.stage (session s) <> greeting ->
  AppGrok.conversation_active (session s) = true ->
  AppGrok.step E s (Submit u)
  = let raw := Py.strip u in
    if Py.is_empty raw
    then mkSys (session s) (add_banner warning AppGrok.EMPTY_WARNING (world s))
    else if grok_duplicate raw (session s)
    then mkSys (session s) (add_banner info AppGrok.DUPLICATE_INFO (world s))
    else grok_settle (snd (AppGrok.dispatch E raw (grok_accept raw s))).
Proof.
  intros Hg Ha. rewrite (grok_step_submit E u s Hg Ha). cbv zeta.
  unfold AppGrok.on_submit, grok_duplicate. grok_exec.
  destruct (Py.is_empty (Py.strip u)); grok_exec; [reflexivity|].
  destruct (match AppGrok.last_user_message (session s) with Some _ => _ | None => _ end);
    grok_exec; [reflexivity|].
  fold (AppGrok.set_last_user_message (Py.strip u) (session s)).
  fold (AppGrok.append_message user (Py.strip u)
          (AppGrok.set_last_user_message (Py.strip u) (session s))).
  fold (grok_accept (Py.strip u) s).
  rewrite grok_dispatch_ok. grok_exec. rewrite grok_rerun_drawn; [reflexivity|].
  apply (grok_dispatch_facts E (Py.strip u) (grok_accept (Py.strip u) s)). exact Hg.
Qed.

Lemma grok_settle_session s : session (grok_settle s) = session s.
Proof. unfold grok_settle. destruct (AppGrok.conversation_active (session s)); reflexivity. Qed.

Ltac grok_unfold :=
  unfold AppGrok.dispatch, AppGrok.exit_shortcut, AppGrok.route_by_stage,
    AppGrok.process_user_input_info, AppGrok.process_user_input_technical,
    AppGrok.ask_next_info_field.

Lemma nth_field_bound i f : nth_error FIELD_ORDER i = Some f -> i < 7.
Proof.
  intros H. change 7 with (length FIELD_ORDER). apply nth_error_Some.
  rewrite H. discriminate.
Qed.

Lemma nth_field_none i : nth_error FIELD_ORDER i = None -> 7 <= i.
Proof. intros H. change 7 with (length FIELD_ORDER). apply nth_error_None, H. Qed.

Lemma ends_with_assistant_app msgs txt :
  ends_with_assistant (msgs ++ [mkMessage assistant txt]).
Proof. exists msgs, txt. reflexivity. Qed.

(** What one dispatch appends: messages to the transcript, answers to the
    record. *)
Lemma grok_dispatch_appends E raw s :
  let s' := session (snd (AppGrok.dispatch E raw s)) in
  (exists txt tail,
      AppGrok.messages s'
      = (AppGrok.messages (session s) ++ mkMessage assistant txt :: tail)%list) /\
  ends_with_assistant (AppGrok.messages s') /\
  (exists tail,
      technical_answers (AppGrok.candidate_data s')
      = (technical_answers (AppGrok.candidate_data (session s)) ++ tail)%list) /\
  AppGrok.greeted s' = AppGrok.greeted (session s).
Proof.
  destruct s as [[msgs d i n a q g gr l] w]. cbv zeta. grok_unfold. grok_run.
  all: rewrite ?answers_set_field; cbn [append_answer technical_answers].
  all: split; [rewrite <- ?app_assoc; cbn [app]; eauto|].
  all: split; [apply ends_with_assistant_app|].
  all: split; [eauto using app_nil_r | reflexivity].
Qed.

Lemma grok_dispatch_stage E raw s :
  grok_stage_inv (session s) -> AppGrok.conversation_active (session s) = true ->
  grok_stage_inv (session (snd (AppGrok.dispatch E raw (grok_accept raw s)))).
Proof.
  intros (Hinv & Hst & Han & Hgr & Hm) Ha.
  destruct (grok_dispatch_inv E raw s Hinv Ha) as (Hinv2 & _).
  pose proof (grok_dispatch_appends E raw (grok_accept raw s)) as (_ & He & _ & Hg2).
  cbv zeta in He, Hg2.
  split; [exact Hinv2|]. clear Hinv2 Hinv.
  split; [|split; [|split; [rewrite Hg2; exact Hgr | exact He]]]; clear He Hg2 Hm.
  - destruct s as [[msgs d i n a q g gr l] w]. cbn in Hst, Han, Ha |- *.
    unfold grok_accept. grok_unfold. revert Hst. grok_run; intros Hst.
    all: try (exact Hst).
    all: try (destruct Hst as [(? & ?)|(? & ?)]; discriminate).
    all: repeat match goal with
                | H : nth_error FIELD_ORDER _ = Some _ |- _ => apply nth_field_bound in H
                | H : nth_error FIELD_ORDER _ = None |- _ => apply nth_field_none in H
                end.
    all: try (destruct Hst as [(? & ?)|(? & ?)]; try discriminate; solve [left; split; [reflexivity|lia] | right; split; [reflexivity|lia] | lia]).
  - destruct s as [[msgs d i n a q g gr l] w]. cbn in Hst, Han, Ha |- *.
    unfold grok_accept. grok_unfold. revert Hst Han. grok_run; intros Hst Han.
    all: rewrite ?answers_set_field; cbn [append_answer technical_answers].
    all: try (exact Han).
    all: try (intros; reflexivity).
    all: try (destruct Hst as [(? & ?)|(? & ?)]; discriminate).
    all: repeat match goal with
                | H : nth_error FIELD_ORDER _ = Some _ |- _ => apply nth_field_bound in H
                | H : nth_error FIELD_ORDER _ = None |- _ => apply nth_field_none in H
                end.
    all: try (intros Hne; specialize (Han Hne); destruct Hst as [(? & ?)|(? & ?)]; congruence).
Qed.

Lemma grok_stage_fresh E w :
  grok_stage_inv (session (snd (AppGrok.rerun E (mkSys AppGrok.init w)))).
Proof.
  rewrite grok_rerun_session. split; [apply grok_inv_fresh|].
  unfold AppGrok.ensure_greeting, AppGrok.handle_greeting_stage,
    AppGrok.ask_next_info_field.
  grok_exec. cbn [nth_error FIELD_ORDER]. grok_exec.
  split; [left; split; [reflexivity | lia]|].
  split; [intros H; exfalso; apply H; reflexivity|].
  split; [reflexivity | apply ends_with_assistant_app].
Qed.

Lemma grok_boot_rerun E w : AppGrok.boot E w = snd (AppGrok.rerun E (mkSys AppGrok.init w)).
Proof.
  unfold AppGrok.boot, AppGrok.step, AppGrok.script, AppGrok.rerun, bind.
  rewrite grok_ensure_ok. grok_exec.
  destruct (AppGrok.conversation_active _); reflexivity.
Qed.

Lemma grok_stage_boot E w : grok_stage_inv (session (AppGrok.boot E w)).
Proof. rewrite grok_boot_rerun. apply grok_stage_fresh. Qed.

Lemma grok_stage_step E ev s :
  grok_stage_inv (session s) -> grok_stage_inv (session (AppGrok.step E s ev)).
Proof.
  intros Hinv.
  assert (Hg : AppGrok.stage (session s) <> greeting) by apply Hinv.
  destruct ev as [|u|].
  - rewrite (grok_step_idle E s Hg), grok_settle_session. exact Hinv.
  - destruct (AppGrok.conversation_active (session s)) eqn:Ha.
    + rewrite (grok_step_send E u s Hg Ha). cbv zeta.
      destruct (Py.is_empty _); [exact Hinv|].
      destruct (grok_duplicate _ _); [exact Hinv|].
      rewrite grok_settle_session. apply grok_dispatch_stage; assumption.
    + rewrite (grok_step_done E s (Submit u) Hg Ha eq_refl), grok_settle_session.
      exact Hinv.
  - rewrite (grok_step_restart E s Hg).
    destruct (AppGrok.conversation_active (session s)); [exact Hinv|].
    apply grok_stage_fresh.
Qed.

Lemma grok_stage_run E evs s :
  grok_stage_inv (session s) -> grok_stage_inv (session (AppGrok.run E evs s)).
Proof.
  revert s. induction evs as [|ev evs IH]; intros s H; [exact H|].
  cbn [AppGrok.run fold_left]. apply IH, grok_stage_step, H.
Qed.

Lemma grok_reach_inv E w evs :
  grok_stage_inv (session (AppGrok.run E evs (AppGrok.boot E w))).
Proof. apply grok_stage_run, grok_stage_boot. Qed.

Lemma app_boot_rerun E w : App.boot E w = snd (App.rerun E (mkSys App.init w)).
Proof.
  unfold App.boot, App.step, App.script, App.rerun, bind.
  rewrite app_greeting_run. app_exec.
  destruct (App.conversation_active _); reflexivity.
Qed.

(* ===================================================================== *)
(** * Further properties of the two controllers                            *)
(* ===================================================================== *)

Lemma quiet_refl w : quiet w w.
Proof. repeat split. Qed.

Lemma quiet_banner k t w : quiet w (add_banner k t w).
Proof. repeat split. Qed.

Lemma quiet_app_settle s : quiet (world s) (world (app_settle s)).
Proof.
  unfold app_settle. destruct (App.conversation_active (session s));
    [apply quiet_refl | apply quiet_banner].
Qed.

Lemma quiet_grok_settle s : quiet (world s) (world (grok_settle s)).
Proof.
  unfold grok_settle. destruct (AppGrok.conversation_active (session s));
    [apply quiet_refl | apply quiet_banner].
Qed.

Lemma app_reach_drawn E w evs :
  App.messages (session (App.run E evs (App.boot E w))) <> [].
Proof. apply ends_with_assistant_nonempty, app_reach_inv. Qed.

Lemma grok_reach_greeted E w evs :
  AppGrok.stage (session (AppGrok.run E evs (AppGrok.boot E w))) <> greeting.
Proof. apply (grok_reach_inv E w evs). Qed.

(** X1.  Drawing the page again changes nothing.  In every session either
    script can reach, one more run with nothing submitted leaves the
    session as it is, sends no request, reads no clock and writes no file:
    the greeting of [app.py] is asked for on an empty transcript only, the
    one of [app_grok.py] in stage greeting only, and neither is found
    again once the page was drawn. *)
Theorem X1_redraw_changes_nothing E w evs :
  let a := App.run E evs (App.boot E w) in
  let g := AppGrok.run E evs (AppGrok.boot E w) in
  (session (App.step E a Idle) = session a /\
   quiet (world a) (world (App.step E a Idle))) /\
  (session (AppGrok.step E g Idle) = session g /\
   quiet (world g) (world (AppGrok.step E g Idle))).
Proof.
  cbv zeta. split.
  - rewrite (app_step_idle E _ (app_reach_drawn E w evs)).
    split; [apply app_settle_session | apply quiet_app_settle].
  - rewrite (grok_step_idle E _ (grok_reach_greeted E w evs)).
    split; [apply grok_settle_session | apply quiet_grok_settle].
Qed.

(** X2.  [app.py]: once the conversation is over, nothing the candidate
    sends is processed.  The chat input is drawn only while
    [conversation_active] holds, so a submission leaves the session as it
    is and causes no request, no reading of the clock and no file; the
    notice of the end is shown once more. *)
Theorem X2_app_closed_session_ignores_input E w evs u :
  let a := App.run E evs (App.boot E w) in
  App.conversation_active (session a) = false ->
  session (App.step E a (Submit u)) = session a /\
  quiet (world a) (world (App.step E a (Submit u))) /\
  shown (world (App.step E a (Submit u)))
  = (shown (world a) ++ [(info, App.ENDED_INFO)])%list.
Proof.
  cbv zeta. intros Ha.
  rewrite (app_step_over E _ (Submit u) (app_reach_drawn E w evs) Ha eq_refl).
  unfold app_settle. rewrite Ha. cbn. repeat split.
Qed.

Lemma X2_app_closed_session_ignores_input_witness :
  let a := App.run online [Submit "bye"] (App.boot online world0) in
  App.conversation_active (session a) = false /\
  session (App.step online a (Submit "hello again")) = session a.
Proof.
  split; [vm_compute; reflexivity|].
  apply (X2_app_closed_session_ignores_input online world0 [Submit "bye"] "hello again").
  vm_compute; reflexivity.
Defined.

(** X3.  [app_grok.py]: once the interview is over, nothing the candidate
    sends is processed.  The form is drawn only while
    [conversation_active] holds, so a submission leaves the session as it
    is and causes no request, no reading of the clock and no file; the
    notice of the end is shown once more. *)
Theorem X3_grok_closed_session_ignores_input E w evs u :
  let g := AppGrok.run E evs (AppGrok.boot E w) in
  AppGrok.conversation_active (session g) = false ->
  session (AppGrok.step E g (Submit u)) = session g /\
  quiet (world g) (world (AppGrok.step E g (Submit u))) /\
  shown (world (AppGrok.step E g (Submit u)))
  = (shown (world g) ++ [(info, AppGrok.COMPLETED_INFO)])%list.
Proof.
  cbv zeta. intros Ha.
  rewrite (grok_step_done E _ (Submit u) (grok_reach_greeted E w evs) Ha eq_refl).
  unfold grok_settle. rewrite Ha. cbn. repeat split.
Qed.

Lemma X3_grok_closed_session_ignores_input_witness :
  let g := AppGrok.run online [Submit "bye"] (AppGrok.boot online world0) in
  AppGrok.conversation_active (session g) = false /\
  session (AppGrok.step online g (Submit "hello again")) = session g.
Proof.
  split; [vm_compute; reflexivity|].
  apply (X3_grok_closed_session_ignores_input online world0 [Submit "bye"] "hello again").
  vm_compute; reflexivity.
Defined.

(** X4.  The button that starts again.  While the conversation is active
    the button is not on the page and a click changes nothing.  Once it is
    over, a click throws the whole session away and draws the page anew:
    the state is the one of a new visitor in the world as it is, after
    the notice of the end.  Nothing of the candidate before is left in the
    session, in either implementation. *)
Theorem X4_restart_is_a_new_session E w evs :
  let a := App.run E evs (App.boot E w) in
  let g := AppGrok.run E evs (AppGrok.boot E w) in
  App.step E a ClickRestart
  = (if App.conversation_active (session a) then a
     else App.boot E (add_banner info App.ENDED_INFO (world a))) /\
  AppGrok.step E g ClickRestart
  = (if AppGrok.conversation_active (session g) then g
     else AppGrok.boot E (add_banner info AppGrok.COMPLETED_INFO (world g))).
Proof.
  cbv zeta. split.
  - rewrite (app_step_restart E _ (app_reach_drawn E w evs)), app_boot_rerun.
    reflexivity.
  - rewrite (grok_step_restart E _ (grok_reach_greeted E w evs)), grok_boot_rerun.
    reflexivity.
Qed.

(** X5.  The assistant has the last word.  In every session either script
    can reach, the transcript is not empty and its last message is one of
    the assistant: the page is never left on a text of the candidate that
    got no reply. *)
Theorem X5_assistant_has_the_last_word E w evs :
  ends_with_assistant (App.messages (session (App.run E evs (App.boot E w)))) /\
  ends_with_assistant
    (AppGrok.messages (session (AppGrok.run E evs (AppGrok.boot E w)))).
Proof. split; [apply app_reach_inv | apply grok_reach_inv]. Qed.

Lemma filled_prefix_zero d :
  filled_prefix 0 d -> technical_answers d = [] -> d = empty_candidate.
Proof.
  destruct d as [a1 a2 a3 a4 a5 a6 a7 ans]. unfold filled_prefix, filled. cbn.
  intros H ->. destruct a1, a2, a3, a4, a5, a6, a7; try discriminate. reflexivity.
Qed.

(** X6.  [app.py]: stage and record agree.  In every session the script
    can reach: in stage greeting nothing is stored; in stage collect_info
    [get_missing_info] finds a field, so the test [if missing:] of line
    178 never fails and the candidate is never left without a question;
    in stage technical_questions, and whenever an answer is stored, all
    seven fields are set; and the conversation is inactive exactly in
    stage farewell. *)
Theorem X6_app_stage_and_record_agree E w evs :
  let s := session (App.run E evs (App.boot E w)) in
  let d := App.candidate_data s in
  (App.stage s = greeting -> d = empty_candidate) /\
  (App.stage s = collect_info -> App.missing_field d <> None) /\
  (App.stage s = technical_questions -> App.missing_field d = None) /\
  (technical_answers d <> [] -> App.missing_field d = None) /\
  (App.conversation_active s = false <-> App.stage s = farewell).
Proof.
  cbv zeta.
  destruct (app_reach_inv E w evs) as ((_ & (k & Hk & H0 & H1 & H2 & H3) & Hf) & _).
  rewrite (filled_prefix_missing _ _ Hk).
  split; [|split; [|split; [|split; [|exact Hf]]]].
  - intros Hg. specialize (H0 Hg). subst k. apply filled_prefix_zero; [exact Hk|].
    destruct (technical_answers _) eqn:Ha; [reflexivity|].
    assert (0 = 7) by (apply H3; discriminate). discriminate.
  - intros Hg. specialize (H1 Hg). intros Hn. apply nth_field_none in Hn. lia.
  - intros Hg. rewrite (H2 Hg). reflexivity.
  - intros Ha. rewrite (H3 Ha). reflexivity.
Qed.

(** X7.  [app_grok.py]: the stage follows the index.  In every session the
    script can reach, the stage is collect_info with an index below seven
    or technical_questions with index seven, the greeting was given, and
    answers are stored in stage technical_questions only.  So the stages
    greeting and farewell are never found by [route_by_stage], whose last
    branch (the message that it is not sure what to do) never runs, and
    [process_user_input_info] always finds its field. *)
Theorem X7_grok_stage_follows_the_index E w evs :
  let s := session (AppGrok.run E evs (AppGrok.boot E w)) in
  (AppGrok.stage s = collect_info /\ AppGrok.current_field_index s < 7 \/
   AppGrok.stage s = technical_questions /\ AppGrok.current_field_index s = 7) /\
  AppGrok.greeted s = true /\
  (technical_answers (AppGrok.candidate_data s) <> [] ->
   AppGrok.stage s = technical_questions) /\
  (AppGrok.stage s = collect_info ->
   exists f, nth_error FIELD_ORDER (AppGrok.current_field_index s) = Some f /\
             get_field f (AppGrok.candidate_data s) = None).
Proof.
  cbv zeta.
  destruct (grok_reach_inv E w evs) as (Hinv & Hst & Han & Hgr & _).
  split; [exact Hst|]. split; [exact Hgr|]. split; [exact Han|].
  intros Hc. destruct Hst as [(_ & Hi)|(Ht & _)]; [|congruence].
  destruct (nth_error FIELD_ORDER _) as [f|] eqn:Hf.
  - exists f. split; [reflexivity|].
    destruct Hinv as (_ & Hp & _). eapply filled_prefix_unset; eassumption.
  - apply nth_field_none in Hf. lia.
Qed.

(** ** The sidebars and the summary *)

(** The count of [app.py]'s sidebar takes the list of answers for one
    more value. *)
Lemma filled_fields_prefix k d :
  filled_prefix k d ->
  AppView.filled_fields d
  = k + match technical_answers d with [] => 0 | _ => 1 end.
Proof.
  intros H. pose proof (filled_prefix_le _ _ H) as Hle.
  destruct d as [a1 a2 a3 a4 a5 a6 a7 ans].
  unfold filled_prefix, filled in H. cbn in H.
  small_index k; cbn in H; injection H as H1 H2 H3 H4 H5 H6 H7;
    destruct a1, a2, a3, a4, a5, a6, a7; try discriminate;
    destruct ans; reflexivity.
Qed.

(** X8.  [app.py]: the sidebar counts the answers as a field.  The count
    [filled_fields] runs over all eight values of [candidate_data] and
    leaves out only [None] and the empty list, while [total_fields] is 7.
    So in every session the script can reach in which an answer to a
    technical question is stored, the sidebar reports 8 of 7 fields and
    the fraction handed to [st.progress] is 8/7, above 1. *)
Theorem X8_app_sidebar_counts_eight_of_seven E w evs :
  let s := session (App.run E evs (App.boot E w)) in
  technical_answers (App.candidate_data s) <> [] ->
  AppView.filled_fields (App.candidate_data s) = 8 /\
  AppView.progress s = py_div 8 7 /\
  QArith_base.Qlt (py_div 1 1) (AppView.progress s).
Proof.
  cbv zeta. intros Ha.
  destruct (app_reach_inv E w evs) as ((_ & (k & Hk & _ & _ & _ & H3) & _) & _).
  specialize (H3 Ha). subst k.
  assert (H8 : AppView.filled_fields
                 (App.candidate_data (session (App.run E evs (App.boot E w)))) = 8).
  { rewrite (filled_fields_prefix _ _ Hk).
    destruct (technical_answers _); [congruence | reflexivity]. }
  unfold AppView.progress. rewrite H8.
  split; [reflexivity|]. split; [reflexivity|]. vm_compute. reflexivity.
Qed.

Lemma X8_app_sidebar_counts_eight_of_seven_witness :
  let s := session (App.run online (Submit "hello" :: seven_answers ++ [Submit "a1"])
                      (App.boot online world0)) in
  technical_answers (App.candidate_data s) <> [] /\
  AppView.filled_fields (App.candidate_data s) = 8.
Proof.
  split; [vm_compute; discriminate|].
  apply (X8_app_sidebar_counts_eight_of_seven online world0
           (Submit "hello" :: seven_answers ++ [Submit "a1"])).
  vm_compute; discriminate.
Defined.

(** X9.  [app.py]: before the first answer the sidebar is right.  In every
    session the script can reach in which no answer is stored,
    [filled_fields] is the number of fields collected, they are the first
    ones of the declared order, and the fraction is at most 1. *)
Theorem X9_app_sidebar_before_the_answers E w evs :
  let s := session (App.run E evs (App.boot E w)) in
  technical_answers (App.candidate_data s) = [] ->
  filled_prefix (AppView.filled_fields (App.candidate_data s)) (App.candidate_data s) /\
  AppView.filled_fields (App.candidate_data s) <= AppView.total_fields /\
  QArith_base.Qle (AppView.progress s) (py_div 1 1).
Proof.
  cbv zeta. intros Ha.
  destruct (app_reach_inv E w evs) as ((_ & (k & Hk & _) & _) & _).
  pose proof (filled_prefix_le _ _ Hk) as Hle.
  assert (Hf : AppView.filled_fields
                 (App.candidate_data (session (App.run E evs (App.boot E w)))) = k).
  { rewrite (filled_fields_prefix _ _ Hk), Ha. lia. }
  unfold AppView.progress. rewrite Hf.
  split; [exact Hk|]. split; [exact Hle|].
  clear - Hle. small_index k; vm_compute; discriminate.
Qed.

Lemma X9_app_sidebar_before_the_answers_witness :
  let s := session (App.run online [Submit "hello"; Submit "Ada Lovelace"]
                      (App.boot online world0)) in
  technical_answers (App.candidate_data s) = [] /\
  AppView.filled_fields (App.candidate_data s) <= AppView.total_fields.
Proof.
  split; [vm_compute; reflexivity|].
  apply (X9_app_sidebar_before_the_answers online world0
           [Submit "hello"; Submit "Ada Lovelace"]).
  vm_compute; reflexivity.
Defined.

(** X10.  [app_grok.py]: the sidebar agrees with the record.  In every
    session the script can reach, the branch for stage greeting is not
    taken, [current_field_index] is the number of fields collected, which
    are the first ones of [FIELD_ORDER], the fraction handed to
    [st.progress] lies between 0 and 1, and the field named as next is
    the first one that is not set, which is the one [get_missing_info] of
    [app.py] would find; none is named exactly in stage
    technical_questions. *)
Theorem X10_grok_sidebar_agrees_with_record E w evs :
  let s := session (AppGrok.run E evs (AppGrok.boot E w)) in
  AppGrokView.info_progress s = py_div (AppGrok.current_field_index s) 7 /\
  QArith_base.Qle (py_div 0 1) (AppGrokView.info_progress s) /\
  QArith_base.Qle (AppGrokView.info_progress s) (py_div 1 1) /\
  filled_prefix (AppGrok.current_field_index s) (AppGrok.candidate_data s) /\
  AppGrokView.next_field s = App.missing_field (AppGrok.candidate_data s) /\
  (AppGrokView.next_field s = None <-> AppGrok.stage s = technical_questions).
Proof.
  cbv zeta.
  destruct (grok_reach_inv E w evs) as ((_ & Hp & Hg & _) & Hst & _).
  pose proof (filled_prefix_le _ _ Hp) as Hle.
  rewrite (filled_prefix_missing _ _ Hp).
  unfold AppGrokView.info_progress, AppGrokView.next_field.
  set (s := session (AppGrok.run E evs (AppGrok.boot E w))) in *.
  assert (Hs : Stage_eqb (AppGrok.stage s) greeting = false)
    by (destruct (AppGrok.stage s); try reflexivity; congruence).
  rewrite Hs. change (length FIELD_ORDER) with 7.
  split; [reflexivity|].
  split; [|split; [|split; [exact Hp|split]]].
  - generalize (AppGrok.current_field_index s), Hle. clear.
    intros k Hle. small_index k; vm_compute; discriminate.
  - generalize (AppGrok.current_field_index s), Hle. clear.
    intros k Hle. small_index k; vm_compute; discriminate.
  - destruct (AppGrok.current_field_index s <? 7)%nat eqn:Hlt; [reflexivity|].
    apply Nat.ltb_ge in Hlt. symmetry. apply nth_error_None. exact Hlt.
  - destruct (AppGrok.current_field_index s <? 7)%nat eqn:Hlt.
    + apply Nat.ltb_lt in Hlt. split.
      * intros Hn. apply nth_field_none in Hn. lia.
      * intros Ht. destruct Hst as [(Hc & _)|(_ & Hi)]; [congruence | lia].
    + apply Nat.ltb_ge in Hlt. split; [|reflexivity].
      intros _. destruct Hst as [(_ & Hi)|(Ht & _)]; [lia | exact Ht].
Qed.

Lemma answer_lines_numbered i answers :
  map question_number answers = seq (S i) (length answers) ->
  AppGrokView.answer_lines i answers
  = map (fun a => "**Q" ++ Py.str_nat (question_number a) ++ " Answer:** " ++ answer a)
        answers.
Proof.
  revert i. induction answers as [|a rest IH]; intros i H; [reflexivity|].
  cbn [map length seq] in H. injection H as Ha Hrest.
  cbn [AppGrokView.answer_lines map]. rewrite Nat.add_1_r, Ha, (IH (S i) Hrest).
  reflexivity.
Qed.

(** X11.  [app_grok.py]: the summary numbers the answers as they were
    stored.  In every session the script can reach, the label [Q{i+1}]
    that the loop over [enumerate] prints for an answer is the
    [question_number] stored with it, and the count printed over 5 is the
    counter [tech_questions_asked], at most 5. *)
Theorem X11_grok_summary_numbers_the_answers E w evs :
  let s := session (AppGrok.run E evs (AppGrok.boot E w)) in
  let answers := technical_answers (AppGrok.candidate_data s) in
  AppGrokView.answer_lines 0 answers
  = map (fun a => "**Q" ++ Py.str_nat (question_number a) ++ " Answer:** " ++ answer a)
        answers /\
  length answers = AppGrok.tech_questions_asked s /\
  length answers <= 5.
Proof.
  cbv zeta.
  destruct (grok_reach_inv E w evs) as ((((Hn & Hs) & H5 & _) & _) & _).
  split; [|split; [congruence | rewrite <- Hn; exact H5]].
  apply answer_lines_numbered. rewrite Hs, Hn. reflexivity.
Qed.

(** ** What the scripts do to the world *)

Lemma app_world_eq E p sp w :
  app_world E p sp w
  = if app_online E then log_request (app_request p sp) w else w.
Proof.
  unfold app_world, app_online. rewrite app_call_cases. cbv zeta.
  destruct (import_openai E) as [[]|e]; [|reflexivity].
  destruct (resolved_key E _) as [key|e]; [|reflexivity].
  destruct (Py.is_empty key); [reflexivity|].
  destruct (complete E _ _); reflexivity.
Qed.

Lemma grok_world_eq E p sp w :
  grok_world E p sp w
  = if grok_online E then log_request (grok_request p sp) w else w.
Proof.
  unfold grok_world, grok_online. rewrite grok_call_cases. cbv zeta.
  destruct (resolved_key E _) as [key|e]; [|reflexivity].
  destruct (Py.is_empty key); [reflexivity|].
  destruct (complete E _ _); reflexivity.
Qed.

(** The requests and the files of one turn of [app.py]. *)
Lemma app_process_world E u s :
  let s' := snd (App.process_user_input E u s) in
  exists requests files_written,
    world_grows (world s) (world s') requests files_written /\
    requests <= 2 /\ files_written <= 1 /\
    (app_online E = false -> requests = 0) /\
    (App.conversation_active (session s') = true -> files_written = 0).
Proof.
  destruct s as [[msgs d g n a q] w]. cbv zeta.
  unfold App.process_user_input, App.stage_based_processing.
  app_run.
  all: rewrite ?app_world_eq; unfold app_save_world, world_grows.
  all: destruct (app_online E).
  all: repeat match goal with |- context [open_w ?e ?p] => destruct (open_w e p) end.
  all: cbn [log_request add_banner add_file tick sent clock files shown].
  all: rewrite <- ?app_assoc; cbn [app].
  all: do 2 eexists.
  all: (split; [split; eexists;
                (split; [first [reflexivity | symmetry; apply app_nil_r] | reflexivity])|]).
  all: cbn [length]; repeat split; try lia; try discriminate; try reflexivity.
  all: intros; try congruence.
Qed.

(** The requests and the files of one dispatch of [app_grok.py]. *)
Lemma grok_dispatch_world E raw s :
  let s' := snd (AppGrok.dispatch E raw s) in
  exists requests files_written,
    world_grows (world s) (world s') requests files_written /\
    requests <= 2 /\ files_written <= 1 /\
    (grok_online E = false -> requests = 0) /\
    (AppGrok.conversation_active (session s') = true -> files_written = 0).
Proof.
  destruct s as [[msgs d i n a q g gr l] w]. cbv zeta. grok_unfold. grok_run.
  all: rewrite ?grok_world_eq; unfold grok_save_outcome, world_grows.
  all: destruct (grok_online E).
  all: repeat match goal with
              | |- context [makedirs ?e ?p] => destruct (makedirs e p)
              | |- context [open_w ?e ?p] => destruct (open_w e p)
              end.
  all: cbn [log_request add_banner add_file tick sent clock files shown fst snd].
  all: rewrite <- ?app_assoc; cbn [app].
  all: do 2 eexists.
  all: (split; [split; eexists;
                (split; [first [reflexivity | symmetry; apply app_nil_r] | reflexivity])|]).
  all: cbn [length]; repeat split; try lia; try discriminate; try reflexivity.
  all: intros; try congruence.
Qed.

Lemma world_grows_refl w : world_grows w w 0 0.
Proof. split; exists []; rewrite app_nil_r; auto. Qed.

Lemma world_grows_quiet w w' : quiet w w' -> world_grows w w' 0 0.
Proof.
  intros (Hs & _ & Hf). split; exists []; rewrite app_nil_r; auto.
Qed.

Lemma world_grows_trans w1 w2 w3 r f r' f' :
  world_grows w1 w2 r f -> world_grows w2 w3 r' f' ->
  world_grows w1 w3 (r + r') (f + f').
Proof.
  intros ((a & Ha & <-) & (b & Hb & <-)) ((a' & Ha' & <-) & (b' & Hb' & <-)).
  split.
  - exists (a ++ a')%list. rewrite Ha', Ha, app_assoc, length_app. auto.
  - exists (b ++ b')%list. rewrite Hb', Hb, app_assoc, length_app. auto.
Qed.

(** The greeting of a new session: one request at most, no file. *)
Lemma app_fresh_world E w :
  world (snd (App.rerun E (mkSys App.init w)))
  = app_world E "Greet the candidate" App.SYSTEM_PROMPTS_greeting w.
Proof.
  unfold App.rerun, App.initial_greeting. app_exec. cbn [length Nat.eqb]. app_exec.
  reflexivity.
Qed.

Lemma app_world_grows E p sp w :
  world_grows w (app_world E p sp w) (if app_online E then 1 else 0) 0.
Proof.
  rewrite app_world_eq. destruct (app_online E); [|apply world_grows_refl].
  split; [exists [app_request p sp] | exists []]; cbn; rewrite ?app_nil_r; auto.
Qed.

Lemma grok_world_grows E p sp w :
  world_grows w (grok_world E p sp w) (if grok_online E then 1 else 0) 0.
Proof.
  rewrite grok_world_eq. destruct (grok_online E); [|apply world_grows_refl].
  split; [exists [grok_request p sp] | exists []]; cbn; rewrite ?app_nil_r; auto.
Qed.

Lemma grok_fresh_world E w :
  world_grows w (world (snd (AppGrok.rerun E (mkSys AppGrok.init w))))
    (if grok_online E then 2 else 0) 0.
Proof.
  unfold AppGrok.rerun, AppGrok.ensure_greeting, AppGrok.handle_greeting_stage,
    AppGrok.ask_next_info_field.
  grok_exec. cbn [nth_error FIELD_ORDER]. grok_exec.
  match goal with
  | |- world_grows _ (grok_world _ ?p2 ?sp2 (grok_world _ ?p1 ?sp1 _)) _ _ =>
      pose proof (world_grows_trans _ _ _ _ _ _ _
                    (grok_world_grows E p1 sp1 w)
                    (grok_world_grows E p2 sp2 (grok_world E p1 sp1 w))) as H
  end.
  destruct (grok_online E); exact H.
Qed.

(** The requests and the files of one user action, on a session that was
    drawn once. *)
Lemma app_step_world E ev s :
  App.messages (session s) <> [] ->
  exists requests files_written,
    world_grows (world s) (world (App.step E s ev)) requests files_written /\
    requests <= 2 /\ files_written <= 1 /\
    (app_online E = false -> requests = 0) /\
    (App.conversation_active (session s) = false -> is_restart ev = false ->
     requests = 0 /\ files_written = 0) /\
    (App.conversation_active (session (App.step E s ev)) = true -> files_written = 0).
Proof.
  intros Hm. destruct ev as [|u|].
  - rewrite (app_step_idle E s Hm). exists 0, 0.
    split; [apply world_grows_quiet, quiet_app_settle|]. repeat split; lia.
  - destruct (App.conversation_active (session s)) eqn:Ha.
    + rewrite (app_step_submit E u s Hm Ha). destruct (Py.is_empty u).
      * exists 0, 0. split; [apply world_grows_refl|]. repeat split; lia.
      * destruct (app_process_world E u (app_accept u s))
          as (r & f & Hg & Hr & Hf & Hoff & Hact).
        exists r, f. rewrite app_settle_session.
        split; [|repeat split; auto; discriminate].
        replace r with (r + 0) by lia. replace f with (f + 0) by lia.
        eapply world_grows_trans; [exact Hg|].
        apply world_grows_quiet, quiet_app_settle.
    + rewrite (app_step_over E s (Submit u) Hm Ha eq_refl). exists 0, 0.
      split; [apply world_grows_quiet, quiet_app_settle|]. repeat split; lia.
  - rewrite (app_step_restart E s Hm).
    destruct (App.conversation_active (session s)) eqn:Ha.
    + exists 0, 0. split; [apply world_grows_refl|]. repeat split; lia.
    + rewrite app_fresh_world.
      exists (0 + if app_online E then 1 else 0), (0 + 0).
      split; [eapply world_grows_trans;
              [apply world_grows_quiet, quiet_banner | apply app_world_grows]|].
      destruct (app_online E); repeat split; try lia; discriminate.
Qed.

Lemma grok_step_world E ev s :
  AppGrok.stage (session s) <> greeting ->
  exists requests files_written,
    world_grows (world s) (world (AppGrok.step E s ev)) requests files_written /\
    requests <= 2 /\ files_written <= 1 /\
    (grok_online E = false -> requests = 0) /\
    (AppGrok.conversation_active (session s) = false -> is_restart ev = false ->
     requests = 0 /\ files_written = 0) /\
    (AppGrok.conversation_active (session (AppGrok.step E s ev)) = true ->
     files_written = 0).
Proof.
  intros Hg. destruct ev as [|u|].
  - rewrite (grok_step_idle E s Hg). exists 0, 0.
    split; [apply world_grows_quiet, quiet_grok_settle|]. repeat split; lia.
  - destruct (AppGrok.conversation_active (session s)) eqn:Ha.
    + rewrite (grok_step_send E u s Hg Ha). cbv zeta.
      destruct (Py.is_empty _).
      { exists 0, 0. split; [apply world_grows_quiet, quiet_banner|]. repeat split; lia. }
      destruct (grok_duplicate _ _).
      { exists 0, 0. split; [apply world_grows_quiet, quiet_banner|]. repeat split; lia. }
      destruct (grok_dispatch_world E (Py.strip u) (grok_accept (Py.strip u) s))
        as (r & f & Hw & Hr & Hf & Hoff & Hact).
      exists r, f. rewrite grok_settle_session.
      split; [|repeat split; auto; discriminate].
      replace r with (r + 0) by lia. replace f with (f + 0) by lia.
      eapply world_grows_trans; [exact Hw|].
      apply world_grows_quiet, quiet_grok_settle.
    + rewrite (grok_step_done E s (Submit u) Hg Ha eq_refl). exists 0, 0.
      split; [apply world_grows_quiet, quiet_grok_settle|]. repeat split; lia.
  - rewrite (grok_step_restart E s Hg).
    destruct (AppGrok.conversation_active (session s)) eqn:Ha.
    + exists 0, 0. split; [apply world_grows_refl|]. repeat split; lia.
    + exists (0 + if grok_online E then 2 else 0), (0 + 0).
      split; [eapply world_grows_trans;
              [apply world_grows_quiet, quiet_banner | apply grok_fresh_world]|].
      destruct (grok_online E); repeat split; try lia; discriminate.
Qed.

(** X12.  The cost of one user action.  On every session either script can
    reach, whatever the candidate does next (draw the page, send a text,
    click the button) sends at most two requests to the vendor and writes
    at most one file; the logs of requests and files only grow. *)
Theorem X12_two_requests_and_one_file_at_most E w evs ev :
  let a := App.run E evs (App.boot E w) in
  let g := AppGrok.run E evs (AppGrok.boot E w) in
  (exists requests files_written,
      world_grows (world a) (world (App.step E a ev)) requests files_written /\
      requests <= 2 /\ files_written <= 1) /\
  (exists requests files_written,
      world_grows (world g) (world (AppGrok.step E g ev)) requests files_written /\
      requests <= 2 /\ files_written <= 1).
Proof.
  cbv zeta. split.
  - destruct (app_step_world E ev _ (app_reach_drawn E w evs))
      as (r & f & H1 & H2 & H3 & _).
    exists r, f. auto.
  - destruct (grok_step_world E ev _ (grok_reach_greeted E w evs))
      as (r & f & H1 & H2 & H3 & _).
    exists r, f. auto.
Qed.

Lemma app_run_offline E evs s :
  app_online E = false -> app_inv (session s) ->
  sent (world (App.run E evs s)) = sent (world s).
Proof.
  intros Hoff. revert s.
  induction evs as [|ev evs IH]; intros s Hinv; [reflexivity|].
  cbn [App.run fold_left]. fold (App.run E evs (App.step E s ev)).
  rewrite IH by (apply app_step_inv, Hinv).
  destruct (app_step_world E ev s (ends_with_assistant_nonempty _ (proj2 Hinv)))
    as (r & f & ((rqs & -> & Hl) & _) & _ & _ & H0 & _).
  rewrite (H0 Hoff) in Hl. destruct rqs; [apply app_nil_r | discriminate].
Qed.

Lemma grok_run_offline E evs s :
  grok_online E = false -> grok_stage_inv (session s) ->
  sent (world (AppGrok.run E evs s)) = sent (world s).
Proof.
  intros Hoff. revert s.
  induction evs as [|ev evs IH]; intros s Hinv; [reflexivity|].
  cbn [AppGrok.run fold_left]. fold (AppGrok.run E evs (AppGrok.step E s ev)).
  rewrite IH by (apply grok_stage_step, Hinv).
  assert (Hg : AppGrok.stage (session s) <> greeting) by apply Hinv.
  destruct (grok_step_world E ev s Hg)
    as (r & f & ((rqs & -> & Hl) & _) & _ & _ & H0 & _).
  rewrite (H0 Hoff) in Hl. destruct rqs; [apply app_nil_r | discriminate].
Qed.

(** X13.  Without a credential nothing leaves the machine.  When the
    wrapper of [app.py] cannot get as far as sending (the client library
    is missing, reading the secrets fails, or the key is empty), no
    request is sent in a whole session, whatever the candidate does; the
    same holds of [app_grok.py] and its key. *)
Theorem X13_no_credential_no_request E w evs :
  (app_online E = false ->
   sent (world (App.run E evs (App.boot E w))) = sent w) /\
  (grok_online E = false ->
   sent (world (AppGrok.run E evs (AppGrok.boot E w))) = sent w).
Proof.
  split; intros Hoff.
  - rewrite (app_run_offline E evs _ Hoff (app_inv_boot E w)).
    rewrite app_boot_rerun, app_fresh_world, app_world_eq, Hoff. reflexivity.
  - rewrite (grok_run_offline E evs _ Hoff (grok_stage_boot E w)).
    rewrite grok_boot_rerun.
    destruct (grok_fresh_world E w) as ((rqs & -> & Hl) & _).
    rewrite Hoff in Hl. destruct rqs; [apply app_nil_r | discriminate].
Qed.

Lemma X13_no_credential_no_request_witness :
  app_online keyless = false /\ grok_online keyless = false /\
  sent (world (App.run keyless (Submit "hello" :: seven_answers ++ five_answers)
                 (App.boot keyless world0))) = [] /\
  sent (world (AppGrok.run keyless (seven_answers ++ five_answers)
                 (AppGrok.boot keyless world0))) = [].
Proof.
  split; [reflexivity|]. split; [reflexivity|]. split.
  - apply (X13_no_credential_no_request keyless world0
             (Submit "hello" :: seven_answers ++ five_answers)). reflexivity.
  - apply (X13_no_credential_no_request keyless world0 (seven_answers ++ five_answers)).
    reflexivity.
Defined.

(** ** One file for one interview *)

Lemma app_step_files E F ev s :
  is_restart ev = false -> App.messages (session s) <> [] ->
  (App.conversation_active (session s) = true -> files (world s) = F) ->
  (exists fs, files (world s) = (F ++ fs)%list /\ length fs <= 1) ->
  (App.conversation_active (session (App.step E s ev)) = true ->
   files (world (App.step E s ev)) = F) /\
  (exists fs, files (world (App.step E s ev)) = (F ++ fs)%list /\ length fs <= 1).
Proof.
  intros Hr Hm Hact (fs & Hfs & Hl).
  destruct (app_step_world E ev s Hm)
    as (r & f & (_ & (fs' & Hf' & Hl')) & _ & Hf1 & _ & Hover & Hstill).
  destruct (App.conversation_active (session s)) eqn:Ha.
  - specialize (Hact eq_refl). rewrite Hf', Hact. split.
    + intros Ha'. rewrite (Hstill Ha') in Hl'.
      destruct fs'; [apply app_nil_r | discriminate].
    + exists fs'. split; [reflexivity | lia].
  - destruct (Hover eq_refl Hr) as (_ & ->).
    destruct fs'; [|discriminate]. rewrite app_nil_r in Hf'. rewrite Hf'.
    split; [|exists fs; auto].
    rewrite (app_step_over E s ev Hm Ha Hr), app_settle_session. congruence.
Qed.

Lemma grok_step_files E F ev s :
  is_restart ev = false -> AppGrok.stage (session s) <> greeting ->
  (AppGrok.conversation_active (session s) = true -> files (world s) = F) ->
  (exists fs, files (world s) = (F ++ fs)%list /\ length fs <= 1) ->
  (AppGrok.conversation_active (session (AppGrok.step E s ev)) = true ->
   files (world (AppGrok.step E s ev)) = F) /\
  (exists fs, files (world (AppGrok.step E s ev)) = (F ++ fs)%list /\ length fs <= 1).
Proof.
  intros Hr Hm Hact (fs & Hfs & Hl).
  destruct (grok_step_world E ev s Hm)
    as (r & f & (_ & (fs' & Hf' & Hl')) & _ & Hf1 & _ & Hover & Hstill).
  destruct (AppGrok.conversation_active (session s)) eqn:Ha.
  - specialize (Hact eq_refl). rewrite Hf', Hact. split.
    + intros Ha'. rewrite (Hstill Ha') in Hl'.
      destruct fs'; [apply app_nil_r | discriminate].
    + exists fs'. split; [reflexivity | lia].
  - destruct (Hover eq_refl Hr) as (_ & ->).
    destruct fs'; [|discriminate]. rewrite app_nil_r in Hf'. rewrite Hf'.
    split; [|exists fs; auto].
    rewrite (grok_step_done E s ev Hm Ha Hr), grok_settle_session. congruence.
Qed.

Lemma app_run_files E F evs s :
  no_restart evs -> app_inv (session s) ->
  (App.conversation_active (session s) = true -> files (world s) = F) ->
  (exists fs, files (world s) = (F ++ fs)%list /\ length fs <= 1) ->
  (App.conversation_active (session (App.run E evs s)) = true ->
   files (world (App.run E evs s)) = F) /\
  (exists fs, files (world (App.run E evs s)) = (F ++ fs)%list /\ length fs <= 1).
Proof.
  revert s. induction evs as [|ev evs IH]; intros s Hn Hinv Ha Hf; [auto|].
  apply no_restart_cons in Hn. destruct Hn as (Hr & Hn).
  cbn [App.run fold_left]. fold (App.run E evs (App.step E s ev)).
  destruct (app_step_files E F ev s Hr
              (ends_with_assistant_nonempty _ (proj2 Hinv)) Ha Hf) as (Ha' & Hf').
  apply IH; auto using app_step_inv.
Qed.

Lemma grok_run_files E F evs s :
  no_restart evs -> grok_stage_inv (session s) ->
  (AppGrok.conversation_active (session s) = true -> files (world s) = F) ->
  (exists fs, files (world s) = (F ++ fs)%list /\ length fs <= 1) ->
  (AppGrok.conversation_active (session (AppGrok.run E evs s)) = true ->
   files (world (AppGrok.run E evs s)) = F) /\
  (exists fs, files (world (AppGrok.run E evs s)) = (F ++ fs)%list /\ length fs <= 1).
Proof.
  revert s. induction evs as [|ev evs IH]; intros s Hn Hinv Ha Hf; [auto|].
  apply no_restart_cons in Hn. destruct Hn as (Hr & Hn).
  cbn [AppGrok.run fold_left]. fold (AppGrok.run E evs (AppGrok.step E s ev)).
  assert (Hg : AppGrok.stage (session s) <> greeting) by apply Hinv.
  destruct (grok_step_files E F ev s Hr Hg Ha Hf) as (Ha' & Hf').
  apply IH; auto using grok_stage_step.
Qed.

(** X14.  One file for one interview.  As long as the button that starts
    again is not used, either script writes no file while the conversation
    is active and at most one in all: [save_candidate_data] runs only on
    the turn that ends the conversation, and nothing runs after it. *)
Theorem X14_one_file_per_interview E w evs :
  no_restart evs ->
  let a := App.run E evs (App.boot E w) in
  let g := AppGrok.run E evs (AppGrok.boot E w) in
  ((App.conversation_active (session a) = true -> files (world a) = files w) /\
   (exists fs, files (world a) = (files w ++ fs)%list /\ length fs <= 1)) /\
  ((AppGrok.conversation_active (session g) = true -> files (world g) = files w) /\
   (exists fs, files (world g) = (files w ++ fs)%list /\ length fs <= 1)).
Proof.
  intros Hn. cbv zeta. split.
  - assert (Hb : files (world (App.boot E w)) = files w).
    { rewrite app_boot_rerun, app_fresh_world.
      destruct (app_world_grows E "Greet the candidate" App.SYSTEM_PROMPTS_greeting w)
        as (_ & (fs & -> & Hl)).
      destruct fs; [apply app_nil_r | discriminate]. }
    apply (app_run_files E (files w) evs _ Hn (app_inv_boot E w)); [auto|].
    exists []. rewrite app_nil_r. auto.
  - assert (Hb : files (world (AppGrok.boot E w)) = files w).
    { rewrite grok_boot_rerun.
      destruct (grok_fresh_world E w) as (_ & (fs & -> & Hl)).
      destruct fs; [apply app_nil_r | discriminate]. }
    apply (grok_run_files E (files w) evs _ Hn (grok_stage_boot E w)); [auto|].
    exists []. rewrite app_nil_r. auto.
Qed.

Lemma X14_one_file_per_interview_witness :
  no_restart (seven_answers ++ five_answers ++ [Submit "one more"; Idle]) /\
  length (files (world (AppGrok.run online
                          (seven_answers ++ five_answers ++ [Submit "one more"; Idle])
                          (AppGrok.boot online world0)))) <= 1.
Proof.
  split; [reflexivity|].
  destruct (X14_one_file_per_interview online world0
              (seven_answers ++ five_answers ++ [Submit "one more"; Idle]) eq_refl)
    as (_ & _ & fs & Hfs & Hl).
  rewrite Hfs. exact Hl.
Defined.

(** ** The replies of the vendor steer nothing *)

Lemma app_world_vendor c E p sp w :
  app_world (with_complete c E) p sp w = app_world E p sp w.
Proof. rewrite !app_world_eq. reflexivity. Qed.

Lemma grok_world_vendor c E p sp w :
  grok_world (with_complete c E) p sp w = grok_world E p sp w.
Proof. rewrite !grok_world_eq. reflexivity. Qed.

(** Closes a goal [app_alike] or [grok_alike] between two states that
    were computed. *)
Ltac alike_fin :=
  unfold app_alike, app_same_but_replies, grok_alike, grok_same_but_replies;
  cbn [session world App.messages App.candidate_data App.stage
       App.tech_questions_asked App.conversation_active
       AppGrok.messages AppGrok.candidate_data AppGrok.stage
       AppGrok.tech_questions_asked AppGrok.current_field_index
       AppGrok.conversation_active AppGrok.greeted AppGrok.last_user_message];
  rewrite ?app_world_vendor, ?grok_world_vendor;
  rewrite ?map_app; cbn [map redact role];
  repeat match goal with |- _ /\ _ => split end;
  solve [ reflexivity | congruence ].

Lemma app_alike_split s s' :
  app_alike s s' ->
  exists msgs msgs' d g n a q q' w,
    s = mkSys (App.mkSession msgs d g n a q) w /\
    s' = mkSys (App.mkSession msgs' d g n a q') w /\
    map redact msgs' = map redact msgs.
Proof.
  destruct s as [[msgs d g n a q] w], s' as [[msgs' d' g' n' a' q'] w'].
  intros ((Hm & Hd & Hg & Hn & Ha) & Hw). cbn in *. subst.
  repeat eexists. exact Hm.
Qed.

Lemma app_process_alike c E u s s' :
  app_alike s s' ->
  app_alike (snd (App.process_user_input E u s))
            (snd (App.process_user_input (with_complete c E) u s')).
Proof.
  intros H. destruct (app_alike_split _ _ H)
    as (msgs & msgs' & d & g & n & a & q & q' & w & -> & -> & Hm).
  unfold App.process_user_input, App.stage_based_processing.
  app_run; alike_fin.
Qed.

Lemma redact_nil_iff (msgs msgs' : list Message) :
  map redact msgs' = map redact msgs ->
  (length msgs' =? 0)%nat = (length msgs =? 0)%nat.
Proof.
  intros H. apply (f_equal (@length Message)) in H. rewrite !length_map in H.
  rewrite H. reflexivity.
Qed.

Lemma app_greeting_alike c E s s' :
  app_alike s s' ->
  app_alike (snd (App.initial_greeting E s))
            (snd (App.initial_greeting (with_complete c E) s')).
Proof.
  intros H. destruct (app_alike_split _ _ H)
    as (msgs & msgs' & d & g & n & a & q & q' & w & -> & -> & Hm).
  unfold App.initial_greeting. app_exec. rewrite (redact_nil_iff _ _ Hm).
  destruct (length msgs =? 0)%nat; app_exec; alike_fin.
Qed.

Lemma app_alike_active s s' :
  app_alike s s' ->
  App.conversation_active (session s') = App.conversation_active (session s).
Proof. intros H. apply H. Qed.

Lemma app_alike_banner k t s s' :
  app_alike s s' ->
  app_alike (mkSys (session s) (add_banner k t (world s)))
            (mkSys (session s') (add_banner k t (world s'))).
Proof. intros (Hs & Hw). split; [exact Hs|]. cbn. rewrite Hw. reflexivity. Qed.

Lemma app_rerun_alike c E s s' :
  app_alike s s' ->
  app_alike (snd (App.rerun E s)) (snd (App.rerun (with_complete c E) s')).
Proof.
  intros H. pose proof (app_greeting_alike c E _ _ H) as Hg.
  unfold App.rerun, bind.
  rewrite (app_greeting_run E s), (app_greeting_run (with_complete c E) s'). app_exec.
  rewrite (app_alike_active _ _ Hg).
  destruct (App.conversation_active _); app_exec;
    [exact Hg | apply (app_alike_banner info App.ENDED_INFO _ _ Hg)].
Qed.

Lemma app_alike_accept u s s' :
  app_alike s s' -> app_alike (app_accept u s) (app_accept u s').
Proof.
  intros H. destruct (app_alike_split _ _ H)
    as (msgs & msgs' & d & g & n & a & q & q' & w & -> & -> & Hm).
  unfold app_accept. app_exec. alike_fin.
Qed.

Lemma app_alike_init w : app_alike (mkSys App.init w) (mkSys App.init w).
Proof. repeat split. Qed.

Lemma app_step_alike c E ev s s' :
  app_alike s s' ->
  app_alike (App.step E s ev) (App.step (with_complete c E) s' ev).
Proof.
  intros H. pose proof (app_greeting_alike c E _ _ H) as Hg.
  unfold App.step, App.script, bind.
  rewrite (app_greeting_run E s), (app_greeting_run (with_complete c E) s'). app_exec.
  rewrite (app_alike_active _ _ Hg).
  set (s0 := snd (App.initial_greeting E s)) in *.
  set (s0' := snd (App.initial_greeting (with_complete c E) s')) in *.
  destruct (App.conversation_active (session s0)); app_exec.
  - destruct ev as [|u|]; try exact Hg.
    destruct (Py.is_empty u); [exact Hg|]. app_exec.
    fold (App.append_message user u (session s0)).
    fold (App.append_message user u (session s0')).
    fold (app_accept u s0). fold (app_accept u s0').
    rewrite (app_process_ok E u (app_accept u s0)),
      (app_process_ok (with_complete c E) u (app_accept u s0')).
    app_exec.
    rewrite (app_rerun_run E (snd (App.process_user_input E u (app_accept u s0)))),
      (app_rerun_run (with_complete c E)
         (snd (App.process_user_input (with_complete c E) u (app_accept u s0')))).
    app_exec.
    apply app_rerun_alike, app_process_alike, app_alike_accept, Hg.
  - destruct ev as [|u|];
      try apply (app_alike_banner info App.ENDED_INFO _ _ Hg).
    app_exec. destruct Hg as (_ & ->).
    match goal with
    | |- context [App.rerun E ?x] => rewrite (app_rerun_run E x)
    end.
    match goal with
    | |- context [App.rerun (with_complete c E) ?x] =>
        rewrite (app_rerun_run (with_complete c E) x)
    end.
    app_exec. apply app_rerun_alike, app_alike_init.
Qed.

Lemma app_run_alike c E evs s s' :
  app_alike s s' ->
  app_alike (App.run E evs s) (App.run (with_complete c E) evs s').
Proof.
  revert s s'. induction evs as [|ev evs IH]; intros s s' H; [exact H|].
  cbn [App.run fold_left]. apply IH, app_step_alike, H.
Qed.

Lemma grok_alike_split s s' :
  grok_alike s s' ->
  exists msgs msgs' d i n a q q' g gr l w,
    s = mkSys (AppGrok.mkSession msgs d i n a q g gr l) w /\
    s' = mkSys (AppGrok.mkSession msgs' d i n a q' g gr l) w /\
    map redact msgs' = map redact msgs.
Proof.
  destruct s as [[msgs d i n a q g gr l] w],
           s' as [[msgs' d' i' n' a' q' g' gr' l'] w'].
  intros ((Hm & Hd & Hi & Hn & Ha & Hg & Hgr & Hl) & Hw). cbn in *. subst.
  repeat eexists. exact Hm.
Qed.

Lemma grok_save_vendor c E d w :
  grok_save_outcome (with_complete c E) d w = grok_save_outcome E d w.
Proof. reflexivity. Qed.

Lemma grok_dispatch_alike c E raw s s' :
  grok_alike s s' ->
  grok_alike (snd (AppGrok.dispatch E raw s))
             (snd (AppGrok.dispatch (with_complete c E) raw s')).
Proof.
  intros H. destruct (grok_alike_split _ _ H)
    as (msgs & msgs' & d & i & n & a & q & q' & g & gr & l & w & -> & -> & Hm).
  grok_unfold. grok_run; rewrite ?grok_save_vendor; alike_fin.
Qed.

Lemma grok_ensure_alike c E s s' :
  grok_alike s s' ->
  grok_alike (snd (AppGrok.ensure_greeting E s))
             (snd (AppGrok.ensure_greeting (with_complete c E) s')).
Proof.
  intros H. destruct (grok_alike_split _ _ H)
    as (msgs & msgs' & d & i & n & a & q & q' & g & gr & l & w & -> & -> & Hm).
  unfold AppGrok.ensure_greeting, AppGrok.handle_greeting_stage,
    AppGrok.ask_next_info_field.
  grok_run; alike_fin.
Qed.

Lemma grok_alike_active s s' :
  grok_alike s s' ->
  AppGrok.conversation_active (session s') = AppGrok.conversation_active (session s).
Proof. intros H. apply H. Qed.

Lemma grok_alike_banner k t s s' :
  grok_alike s s' ->
  grok_alike (mkSys (session s) (add_banner k t (world s)))
             (mkSys (session s') (add_banner k t (world s'))).
Proof. intros (Hs & Hw). split; [exact Hs|]. cbn. rewrite Hw. reflexivity. Qed.

Lemma grok_rerun_alike c E s s' :
  grok_alike s s' ->
  grok_alike (snd (AppGrok.rerun E s)) (snd (AppGrok.rerun (with_complete c E) s')).
Proof.
  intros H. pose proof (grok_ensure_alike c E _ _ H) as Hg.
  unfold AppGrok.rerun, bind.
  rewrite (grok_ensure_ok E s), (grok_ensure_ok (with_complete c E) s'). grok_exec.
  rewrite (grok_alike_active _ _ Hg).
  destruct (AppGrok.conversation_active _); grok_exec;
    [exact Hg | apply (grok_alike_banner info AppGrok.COMPLETED_INFO _ _ Hg)].
Qed.

Lemma grok_alike_accept raw s s' :
  grok_alike s s' -> grok_alike (grok_accept raw s) (grok_accept raw s').
Proof.
  intros H. destruct (grok_alike_split _ _ H)
    as (msgs & msgs' & d & i & n & a & q & q' & g & gr & l & w & -> & -> & Hm).
  unfold grok_accept. grok_exec. alike_fin.
Qed.

Lemma grok_submit_run E u s :
  snd (AppGrok.on_submit E u s)
  = let raw := Py.strip u in
    if Py.is_empty raw
    then mkSys (session s) (add_banner warning AppGrok.EMPTY_WARNING (world s))
    else if grok_duplicate raw (session s)
    then mkSys (session s) (add_banner info AppGrok.DUPLICATE_INFO (world s))
    else snd (AppGrok.rerun E (snd (AppGrok.dispatch E raw (grok_accept raw s)))).
Proof.
  cbv zeta. unfold AppGrok.on_submit, grok_duplicate. grok_exec.
  destruct (Py.is_empty (Py.strip u)); grok_exec; [reflexivity|].
  destruct (match AppGrok.last_user_message (session s) with Some _ => _ | None => _ end);
    grok_exec; [reflexivity|].
  fold (AppGrok.set_last_user_message (Py.strip u) (session s)).
  fold (AppGrok.append_message user (Py.strip u)
          (AppGrok.set_last_user_message (Py.strip u) (session s))).
  fold (grok_accept (Py.strip u) s).
  rewrite grok_dispatch_ok. grok_exec. reflexivity.
Qed.

Lemma grok_submit_alike c E u s s' :
  grok_alike s s' ->
  grok_alike (snd (AppGrok.on_submit E u s))
             (snd (AppGrok.on_submit (with_complete c E) u s')).
Proof.
  intros H. rewrite !grok_submit_run. cbv zeta.
  assert (Hd : grok_duplicate (Py.strip u) (session s')
               = grok_duplicate (Py.strip u) (session s)).
  { unfold grok_duplicate. destruct H as ((_ & _ & _ & _ & _ & _ & _ & ->) & _).
    reflexivity. }
  rewrite Hd. clear Hd.
  destruct (Py.is_empty (Py.strip u)); [apply grok_alike_banner, H|].
  destruct (grok_duplicate (Py.strip u) (session s)); [apply grok_alike_banner, H|].
  apply grok_rerun_alike, grok_dispatch_alike, grok_alike_accept, H.
Qed.

Lemma grok_alike_init w : grok_alike (mkSys AppGrok.init w) (mkSys AppGrok.init w).
Proof. repeat split. Qed.

Lemma grok_step_alike c E ev s s' :
  grok_alike s s' ->
  grok_alike (AppGrok.step E s ev) (AppGrok.step (with_complete c E) s' ev).
Proof.
  intros H. pose proof (grok_ensure_alike c E _ _ H) as Hg.
  unfold AppGrok.step, AppGrok.script, bind.
  rewrite (grok_ensure_ok E s), (grok_ensure_ok (with_complete c E) s'). grok_exec.
  rewrite (grok_alike_active _ _ Hg).
  set (s0 := snd (AppGrok.ensure_greeting E s)) in *.
  set (s0' := snd (AppGrok.ensure_greeting (with_complete c E) s')) in *.
  destruct (AppGrok.conversation_active (session s0)); grok_exec.
  - destruct ev as [|u|]; try exact Hg. apply grok_submit_alike, Hg.
  - destruct ev as [|u|];
      try apply (grok_alike_banner info AppGrok.COMPLETED_INFO _ _ Hg).
    unfold AppGrok.restart. grok_exec. destruct Hg as (_ & ->).
    match goal with
    | |- context [AppGrok.rerun E ?x] => rewrite (grok_rerun_ok E x)
    end.
    match goal with
    | |- context [AppGrok.rerun (with_complete c E) ?x] =>
        rewrite (grok_rerun_ok (with_complete c E) x)
    end.
    grok_exec. apply grok_rerun_alike, grok_alike_init.
Qed.

Lemma grok_run_alike c E evs s s' :
  grok_alike s s' ->
  grok_alike (AppGrok.run E evs s) (AppGrok.run (with_complete c E) evs s').
Proof.
  revert s s'. induction evs as [|ev evs IH]; intros s s' H; [exact H|].
  cbn [AppGrok.run fold_left]. apply IH, grok_step_alike, H.
Qed.

(** X15.  The replies of the vendor steer nothing.  Put any other vendor
    behind the interface, one that answers other texts or fails where the
    first one answered: after the same actions of the candidate, the
    session holds the same record, stage, counters and flags, the
    transcript has the same messages of the candidate at the same places
    between messages of the assistant, and the world is the same: the same
    requests were sent, the same files written with the same content, the
    same notices shown.  Only the texts of the assistant (and the stored
    text of the generated questions) depend on what the vendor said; this
    holds of both implementations. *)
Theorem X15_vendor_replies_steer_nothing c E w evs :
  let E' := with_complete c E in
  app_alike (App.run E evs (App.boot E w)) (App.run E' evs (App.boot E' w)) /\
  grok_alike (AppGrok.run E evs (AppGrok.boot E w))
             (AppGrok.run E' evs (AppGrok.boot E' w)).
Proof.
  cbv zeta. split.
  - apply app_run_alike. unfold App.boot. apply app_step_alike, app_alike_init.
  - apply grok_run_alike. unfold AppGrok.boot. apply grok_step_alike, grok_alike_init.
Qed.

(** ** Blank texts *)

Lemma isspace_lower c : Py.isspace c = true -> Py.lower_char c = c.
Proof.
  destruct c as [b0 b1 b2 b3 b4 b5 b6 b7].
  destruct b0, b1, b2, b3, b4, b5, b6, b7; vm_compute; intros H;
    first [reflexivity | discriminate].
Qed.

(** A text that trims to nothing is made of spaces, which [lower] keeps. *)
Lemma blank_lower u : Py.strip u = EmptyString -> Py.lower u = u.
Proof.
  induction u as [|c u IH]; [reflexivity|].
  unfold Py.strip. cbn [Py.lstrip Py.lower].
  destruct (Py.isspace c) eqn:Hc.
  - intros H. rewrite (IH H), (isspace_lower c Hc). reflexivity.
  - rewrite rstrip_cons, Hc. destruct (Py.rstrip u); discriminate.
Qed.

Lemma blank_no_keyword kws u :
  forallb (fun k => negb (Py.is_empty k)) kws = true ->
  Py.strip u = EmptyString -> Py.any_in kws (Py.strip (Py.lower u)) = false.
Proof.
  intros Hk Hu. rewrite (blank_lower u Hu), Hu.
  destruct (Py.any_in kws EmptyString) eqn:Ha; [|reflexivity].
  apply (any_in_nonempty _ _ Hk) in Ha. discriminate.
Qed.

Lemma blank_extract u f :
  Py.strip u = EmptyString -> App.extract_info_from_response u f = EmptyString.
Proof.
  intros Hu. unfold App.extract_info_from_response. cbv zeta. rewrite Hu.
  destruct f; reflexivity.
Qed.

(** The fields before the one found are set. *)
Ltac first_set :=
  let j := fresh "j" in let g := fresh "g" in
  let Hj := fresh "Hj" in let Hg := fresh "Hg" in
  intros j g Hj Hg;
  do 7 (try (destruct j as [|j]; [injection Hg as <-; discriminate|]));
  lia.

(** X16.  [get_missing_info] returns the first field of the declared
    order whose value is [None]: the field it returns is not set and
    every field before it is, and it returns [None] exactly when all
    seven fields are set.  This holds of any record, whatever is in it. *)
Theorem X16_get_missing_info_first_unset d :
  match App.missing_field d with
  | Some f =>
      get_field f d = None /\
      exists k, nth_error FIELD_ORDER k = Some f /\
                forall j g, j < k -> nth_error FIELD_ORDER j = Some g ->
                            get_field g d <> None
  | None => forall f, get_field f d <> None
  end.
Proof.
  destruct d as [a1 a2 a3 a4 a5 a6 a7 ans].
  unfold App.missing_field. cbn [find FIELD_ORDER get_field cd_name cd_email cd_phone
    cd_experience cd_position cd_location cd_tech_stack].
  assert (Hfin : forall k f,
             nth_error FIELD_ORDER k = Some f ->
             (forall j g, j < k -> nth_error FIELD_ORDER j = Some g ->
                          get_field g (mkCandidate a1 a2 a3 a4 a5 a6 a7 ans) <> None) ->
             exists k', nth_error FIELD_ORDER k' = Some f /\
                        forall j g, j < k' -> nth_error FIELD_ORDER j = Some g ->
                                    get_field g (mkCandidate a1 a2 a3 a4 a5 a6 a7 ans)
                                    <> None)
    by (intros k f Hk Hb; exists k; auto).
  destruct a1; [|split; [reflexivity|]; apply (Hfin 0); [reflexivity|]; intros; lia].
  destruct a2; [|split; [reflexivity|]; apply (Hfin 1); [reflexivity|]; first_set].
  destruct a3; [|split; [reflexivity|]; apply (Hfin 2); [reflexivity|]; first_set].
  destruct a4; [|split; [reflexivity|]; apply (Hfin 3); [reflexivity|]; first_set].
  destruct a5; [|split; [reflexivity|]; apply (Hfin 4); [reflexivity|]; first_set].
  destruct a6; [|split; [reflexivity|]; apply (Hfin 5); [reflexivity|]; first_set].
  destruct a7; [|split; [reflexivity|]; apply (Hfin 6); [reflexivity|]; first_set].
  intros f. destruct f; discriminate.
Qed.

(** X17.  [app.py] takes a blank answer for an answer.  The chat input
    lets a text of spaces through (it is not empty), no exit keyword is
    found in it, and [extract_info_from_response] trims it to the empty
    text: in stage collect_info the field that was asked for is set to
    the empty text, and the interview moves on to the next field as after
    any other answer. *)
Theorem X17_app_blank_answer_is_stored E w evs u f :
  let a := App.run E evs (App.boot E w) in
  App.conversation_active (session a) = true ->
  App.stage (session a) = collect_info ->
  App.missing_field (App.candidate_data (session a)) = Some f ->
  Py.is_empty u = false -> Py.strip u = EmptyString ->
  let a' := App.step E a (Submit u) in
  App.candidate_data (session a')
  = set_field f EmptyString (App.candidate_data (session a)) /\
  get_field f (App.candidate_data (session a')) = Some EmptyString /\
  App.missing_field (App.candidate_data (session a')) <> Some f.
Proof.
  cbv zeta. intros Ha Hs Hm He Hu.
  rewrite (app_step_submit E u _ (app_reach_drawn E w evs) Ha), He, app_settle_session.
  pose proof (app_collect_turn E u
                (app_accept u (App.run E evs (App.boot E w))) f Hs
                (blank_no_keyword App.exit_keywords u eq_refl Hu) Hm) as (Hd & _).
  cbv zeta in Hd. rewrite (blank_extract u f Hu) in Hd.
  cbn [app_accept session App.append_message App.candidate_data] in Hd.
  rewrite Hd.
  assert (Hg : get_field f (set_field f EmptyString
                 (App.candidate_data (session (App.run E evs (App.boot E w)))))
               = Some EmptyString).
  { rewrite get_set_field. destruct f; reflexivity. }
  split; [reflexivity|]. split; [exact Hg|].
  intros Hn. apply missing_field_unset in Hn. congruence.
Qed.

Lemma X17_app_blank_answer_is_stored_witness :
  let a := App.run online [Submit "hello"] (App.boot online world0) in
  let a' := App.step online a (Submit "   ") in
  get_field Name (App.candidate_data (session a')) = Some EmptyString /\
  App.missing_field (App.candidate_data (session a')) <> Some Name.
Proof.
  cbv zeta.
  destruct (X17_app_blank_answer_is_stored online world0 [Submit "hello"] "   " Name)
    as (_ & H1 & H2); try (vm_compute; reflexivity).
  split; [exact H1 | exact H2].
Defined.

(** X18.  [app_grok.py] refuses a blank text.  While the interview is
    active, a submission that trims to the empty text shows the warning
    and nothing else: the session, with its transcript, record and
    remembered last message, is as before, no request is sent and no file
    written. *)
Theorem X18_grok_blank_text_is_refused E w evs u :
  let g := AppGrok.run E evs (AppGrok.boot E w) in
  AppGrok.conversation_active (session g) = true ->
  Py.strip u = EmptyString ->
  AppGrok.step E g (Submit u)
  = mkSys (session g) (add_banner warning AppGrok.EMPTY_WARNING (world g)).
Proof.
  cbv zeta. intros Ha Hu.
  rewrite (grok_step_send E u _ (grok_reach_greeted E w evs) Ha). cbv zeta.
  rewrite Hu. reflexivity.
Qed.

Lemma X18_grok_blank_text_is_refused_witness :
  let g := AppGrok.boot online world0 in
  session (AppGrok.step online g (Submit "   ")) = session g.
Proof.
  cbv zeta.
  assert (H1 : AppGrok.conversation_active
                 (session (AppGrok.run online [] (AppGrok.boot online world0))) = true)
    by (vm_compute; reflexivity).
  assert (H2 : Py.strip "   " = EmptyString) by reflexivity.
  exact (f_equal (@session AppGrok.Session)
           (X18_grok_blank_text_is_refused online world0 [] "   " H1 H2)).
Defined.

(** ** Transcript and answers only grow *)

Lemma extends_refl {A} (l : list A) : extends l l.
Proof. exists []. now rewrite app_nil_r. Qed.

Lemma extends_trans {A} (l1 l2 l3 : list A) :
  extends l1 l2 -> extends l2 l3 -> extends l1 l3.
Proof. intros (a & ->) (b & ->). exists (a ++ b)%list. now rewrite app_assoc. Qed.

Lemma app_step_extends E ev s :
  is_restart ev = false -> App.messages (session s) <> [] ->
  extends (App.messages (session s)) (App.messages (session (App.step E s ev))) /\
  extends (technical_answers (App.candidate_data (session s)))
          (technical_answers (App.candidate_data (session (App.step E s ev)))).
Proof.
  intros Hr Hm. destruct ev as [|u|]; [| |discriminate].
  - rewrite (app_step_idle E s Hm), app_settle_session. split; apply extends_refl.
  - destruct (App.conversation_active (session s)) eqn:Ha.
    + rewrite (app_step_submit E u s Hm Ha).
      destruct (Py.is_empty u); [split; apply extends_refl|].
      rewrite app_settle_session.
      destruct (app_process_appends E u (app_accept u s)) as (H1 & H2).
      split; [|exact H2].
      eapply extends_trans; [|exact H1].
      exists [mkMessage user u]. reflexivity.
    + rewrite (app_step_over E s (Submit u) Hm Ha eq_refl), app_settle_session.
      split; apply extends_refl.
Qed.

Lemma grok_step_extends E ev s :
  is_restart ev = false -> AppGrok.stage (session s) <> greeting ->
  extends (AppGrok.messages (session s))
          (AppGrok.messages (session (AppGrok.step E s ev))) /\
  extends (technical_answers (AppGrok.candidate_data (session s)))
          (technical_answers (AppGrok.candidate_data (session (AppGrok.step E s ev)))).
Proof.
  intros Hr Hg. destruct ev as [|u|]; [| |discriminate].
  - rewrite (grok_step_idle E s Hg), grok_settle_session. split; apply extends_refl.
  - destruct (AppGrok.conversation_active (session s)) eqn:Ha.
    + rewrite (grok_step_send E u s Hg Ha). cbv zeta.
      destruct (Py.is_empty _); [split; apply extends_refl|].
      destruct (grok_duplicate _ _); [split; apply extends_refl|].
      rewrite grok_settle_session.
      destruct (grok_dispatch_appends E (Py.strip u) (grok_accept (Py.strip u) s))
        as ((txt & tail & H1) & _ & H2 & _).
      split; [|exact H2].
      rewrite H1. cbn [grok_accept session AppGrok.append_message
                       AppGrok.set_last_user_message AppGrok.messages].
      exists (mkMessage user (Py.strip u) :: mkMessage assistant txt :: tail).
      rewrite <- app_assoc. reflexivity.
    + rewrite (grok_step_done E s (Submit u) Hg Ha eq_refl), grok_settle_session.
      split; apply extends_refl.
Qed.

Lemma app_run_extends E evs s :
  no_restart evs -> app_inv (session s) ->
  extends (App.messages (session s)) (App.messages (session (App.run E evs s))) /\
  extends (technical_answers (App.candidate_data (session s)))
          (technical_answers (App.candidate_data (session (App.run E evs s)))).
Proof.
  revert s. induction evs as [|ev evs IH]; intros s Hn Hinv;
    [split; apply extends_refl|].
  apply no_restart_cons in Hn. destruct Hn as (Hr & Hn).
  cbn [App.run fold_left]. fold (App.run E evs (App.step E s ev)).
  destruct (app_step_extends E ev s Hr (ends_with_assistant_nonempty _ (proj2 Hinv)))
    as (H1 & H2).
  destruct (IH (App.step E s ev) Hn (app_step_inv E ev s Hinv)) as (H3 & H4).
  split; eapply extends_trans; eassumption.
Qed.

Lemma grok_run_extends E evs s :
  no_restart evs -> grok_stage_inv (session s) ->
  extends (AppGrok.messages (session s))
          (AppGrok.messages (session (AppGrok.run E evs s))) /\
  extends (technical_answers (AppGrok.candidate_data (session s)))
          (technical_answers (AppGrok.candidate_data (session (AppGrok.run E evs s)))).
Proof.
  revert s. induction evs as [|ev evs IH]; intros s Hn Hinv;
    [split; apply extends_refl|].
  apply no_restart_cons in Hn. destruct Hn as (Hr & Hn).
  cbn [AppGrok.run fold_left]. fold (AppGrok.run E evs (AppGrok.step E s ev)).
  assert (Hg : AppGrok.stage (session s) <> greeting) by apply Hinv.
  destruct (grok_step_extends E ev s Hr Hg) as (H1 & H2).
  destruct (IH (AppGrok.step E s ev) Hn (grok_stage_step E ev s Hinv)) as (H3 & H4).
  split; eapply extends_trans; eassumption.
Qed.

(** X19.  Transcript and answers only grow.  From any session either
    script can reach, as long as the button that starts again is not
    used, whatever the candidate does leaves every message of the
    transcript and every stored answer where it was, with its text: both
    lists are only appended to.  No message is edited or dropped, and no
    answer is replaced. *)
Theorem X19_transcript_and_answers_only_grow E w evs more :
  no_restart more ->
  let a := App.run E evs (App.boot E w) in
  let g := AppGrok.run E evs (AppGrok.boot E w) in
  (extends (App.messages (session a)) (App.messages (session (App.run E more a))) /\
   extends (technical_answers (App.candidate_data (session a)))
           (technical_answers (App.candidate_data (session (App.run E more a))))) /\
  (extends (AppGrok.messages (session g))
           (AppGrok.messages (session (AppGrok.run E more g))) /\
   extends (technical_answers (AppGrok.candidate_data (session g)))
           (technical_answers (AppGrok.candidate_data (session (AppGrok.run E more g))))).
Proof.
  intros Hn. cbv zeta. split.
  - apply (app_run_extends E more _ Hn (app_reach_inv E w evs)).
  - apply (grok_run_extends E more _ Hn (grok_reach_inv E w evs)).
Qed.

Lemma X19_transcript_and_answers_only_grow_witness :
  no_restart five_answers /\
  extends (AppGrok.messages
             (session (AppGrok.run online seven_answers (AppGrok.boot online world0))))
          (AppGrok.messages
             (session (AppGrok.run online five_answers
                         (AppGrok.run online seven_answers
                            (AppGrok.boot online world0))))).
Proof.
  split; [reflexivity|].
  apply (X19_transcript_and_answers_only_grow online world0 seven_answers five_answers).
  reflexivity.
Defined.
